(** * Quick EDA: the analysis engine and the report renderer of [EDA.py]

    A shallow embedding of [EDAAnalyzer.perform_analysis] and
    [QuickEDAApp.generate_pdf_report].  Python dictionaries are
    insertion-ordered association lists, the pandas [DataFrame] is a
    list of typed columns over a common index, floating-point results
    are IEEE binary64 numbers (Rocq's primitive floats), and the
    analyzer is a state-and-exception computation over the analyzer
    object, the frames it can reach and the state of the progress
    observer. *)

From Stdlib Require Import ZArith String Ascii List PrimFloat Uint63 Lia.
From Stdlib Require Import DecimalString DecimalNat.
From stdpp Require Import base option list strings gmap.

Local Open Scope string_scope.
Local Open Scope list_scope.
Local Open Scope stdpp_scope.

(** ** Python dictionaries

    A [dict] keeps its keys in insertion order; assigning to a key that
    is already there replaces the value in place. *)

Section PyDict.
Context {K V : Type} `{EqDecision K}.

Fixpoint dict_get (k : K) (d : list (K * V)) : option V :=
  match d with
  | [] => None
  | (k', v) :: d' => if decide (k = k') then Some v else dict_get k d'
  end.

Fixpoint dict_set (k : K) (v : V) (d : list (K * V)) : list (K * V) :=
  match d with
  | [] => [(k, v)]
  | (k', v') :: d' =>
      if decide (k = k') then (k, v) :: d' else (k', v') :: dict_set k v d'
  end.

(** [k in d] *)
Definition dict_has (k : K) (d : list (K * V)) : bool :=
  match dict_get k d with Some _ => true | None => false end.

(** [Series.to_dict()]: the labels are inserted one after the other. *)
Definition to_dict (s : list (K * V)) : list (K * V) :=
  fold_left (fun d kv => dict_set kv.1 kv.2 d) s [].

(** The value a label ends up with: the one of its last occurrence. *)
Fixpoint last_value (k : K) (s : list (K * V)) : option V :=
  match s with
  | [] => None
  | (k', v) :: s' =>
      match last_value k s' with
      | Some w => Some w
      | None => if decide (k = k') then Some v else None
      end
  end.
End PyDict.

(** ** The tabular dataset

    A cell holds a scalar or is null ([NaN], [None], [NaT]).  The
    scalars are a parameter: what matters to the engine is their
    identity, the one pandas' hash tables use when they count, factorize
    and deduplicate. *)

Inductive dtype (value : Type) : Type :=
  | Int64
  | Float64
  | Object
  | Category (categories : list value)
  | Bool
  | Datetime64.
Arguments Int64 {value}.
Arguments Float64 {value}.
Arguments Object {value}.
Arguments Category {value} categories.
Arguments Bool {value}.
Arguments Datetime64 {value}.

Record Series (value : Type) : Type := mkSeries {
  name : string;
  col_dtype : dtype value;
  cells : list (option value)
}.
Arguments mkSeries {value}.
Arguments name {value}.
Arguments col_dtype {value}.
Arguments cells {value}.

(** [index_len] is [len(df)]; a frame may have rows and no column. *)
Record DataFrame (value : Type) : Type := mkDataFrame {
  index_len : nat;
  df_columns : list (Series value)
}.
Arguments mkDataFrame {value}.
Arguments index_len {value}.
Arguments df_columns {value}.

(** ** What the libraries provide

    pandas and numpy compute the floating-point aggregates and the
    memory estimate, Python formats numbers and scalars; the engine only
    passes their results on. *)

Class Library (value : Type) := {
  value_eq_dec :: EqDecision value;
  (** [str(v)] *)
  py_str : value -> string;
  (** [Series.memory_usage(deep=True)] of a column, and of the index *)
  column_nbytes : Series value -> Z;
  index_nbytes : nat -> Z;
  (** the aggregates of [describe()], over the non-null values *)
  np_mean : list value -> float;
  np_std : list value -> float;
  np_min : list value -> float;
  np_quantile : float -> list value -> float;
  np_max : list value -> float;
  (** Pearson correlation of two columns *)
  np_corr : list (option value) -> list (option value) -> float;
  (** [format(x, ".<d>f")] *)
  format_fixed : nat -> float -> string
}.

(** Integer counts become binary64 numbers when pandas divides them or
    puts them next to means. *)
Definition float_of_nat (n : nat) : float :=
  PrimFloat.of_uint63 (Uint63.of_Z (Z.of_nat n)).

(** ** Exceptions and outcomes *)

Record exn : Type := mkExn { exn_type : string; exn_msg : string }.

Inductive outcome (A : Type) : Type :=
  | Returned (a : A)
  | Raised (e : exn).
Arguments Returned {A} a.
Arguments Raised {A} e.

Definition KeyError (k : string) : exn := mkExn "KeyError" k.
Definition TypeError (k : string) : exn := mkExn "TypeError" k.
Definition ValueError (m : string) : exn := mkExn "ValueError" m.

(** What [df[col]] gives for a label: the column of that name, or, when
    several columns have the name, the frame of these columns. *)
Inductive selection (value : Type) : Type :=
  | OneColumn (c : Series value)
  | SubFrame (cs : list (Series value)).
Arguments OneColumn {value} c.
Arguments SubFrame {value} cs.

(** ** The pandas operations the engine calls *)

Section Engine.
Context {value : Type} `{!Library value}.

Definition is_null (c : option value) : bool :=
  match c with None => true | Some _ => false end.

(** [Series.dropna()] *)
Definition dropna (l : list (option value)) : list value :=
  omap id l.

(** [df.shape] *)
Definition df_shape (df : DataFrame value) : nat * nat :=
  (index_len df, length (df_columns df)).

(** [list(df.columns)] *)
Definition column_names (df : DataFrame value) : list string :=
  map name (df_columns df).

(** [df.dtypes] *)
Definition df_dtypes (df : DataFrame value) : list (string * dtype value) :=
  map (fun c => (name c, col_dtype c)) (df_columns df).

(** [df.memory_usage(deep=True).sum()] *)
Definition memory_usage_sum (df : DataFrame value) : Z :=
  fold_left Z.add (map column_nbytes (df_columns df))
            (index_nbytes (index_len df)).

(** [df.isnull().sum()]: per column, the number of null cells *)
Definition null_count (c : Series value) : nat :=
  length (filter (fun x => is_null x = true) (cells c)).

Definition isnull_sum (df : DataFrame value) : list (string * nat) :=
  map (fun c => (name c, null_count c)) (df_columns df).

(** [s / n * 100] on a Series of counts: true division in binary64 *)
Definition percent_of (n : nat) (k : nat) : float :=
  (float_of_nat k / float_of_nat n * 100)%float.

Definition series_percent (s : list (string * nat)) (n : nat)
  : list (string * float) :=
  map (fun kv => (kv.1, percent_of n kv.2)) s.

(** [np.number] covers the integer and floating types, and neither
    booleans nor timestamps. *)
Definition is_number (t : dtype value) : bool :=
  match t with Int64 | Float64 => true | _ => false end.

Definition is_object_or_category (t : dtype value) : bool :=
  match t with Object | Category _ => true | _ => false end.

(** [df.select_dtypes(include=...).columns.tolist()] *)
Definition select_dtypes (p : dtype value -> bool) (df : DataFrame value)
  : list string :=
  map name (filter (fun c => p (col_dtype c) = true) (df_columns df)).

(** The columns of a frame that have a given name *)
Definition columns_named (df : DataFrame value) (col : string)
  : list (Series value) :=
  filter (fun c => name c = col) (df_columns df).

(** [df[col]] for a label: [KeyError] when no column has that name *)
Definition getitem (df : DataFrame value) (col : string)
  : outcome (selection value) :=
  match columns_named df col with
  | [] => Raised (KeyError col)
  | [c] => Returned (OneColumn c)
  | cs => Returned (SubFrame cs)
  end.

(** [df[cols]] for a list of labels: the columns of these names, label
    after label; [KeyError] when a label names no column *)
Fixpoint getitems (df : DataFrame value) (cols : list string)
  : outcome (list (Series value)) :=
  match cols with
  | [] => Returned []
  | col :: rest =>
      match columns_named df col with
      | [] => Raised (KeyError col)
      | cs =>
          match getitems df rest with
          | Raised e => Raised e
          | Returned cs' => Returned (cs ++ cs')
          end
      end
  end.

(** [describe()] of one numeric column *)
Definition describe_column (c : Series value) : list (string * float) :=
  let xs := dropna (cells c) in
  to_dict
    [ ("count", float_of_nat (length xs));
      ("mean", np_mean xs);
      ("std", np_std xs);
      ("min", np_min xs);
      ("25%", np_quantile 0.25%float xs);
      ("50%", np_quantile 0.5%float xs);
      ("75%", np_quantile 0.75%float xs);
      ("max", np_max xs) ].

(** [frame.describe().to_dict()] *)
Definition describe (cs : list (Series value))
  : list (string * list (string * float)) :=
  to_dict (map (fun c => (name c, describe_column c)) cs).

(** [frame.corr().to_dict()] *)
Definition corr (cs : list (Series value))
  : list (string * list (string * float)) :=
  to_dict
    (map (fun c =>
            (name c,
             to_dict (map (fun c' => (name c', np_corr (cells c) (cells c'))) cs)))
         cs).

(** [Series.unique()]: the distinct values in order of first appearance *)
Definition unique (l : list value) : list value :=
  fold_left (fun seen x => if decide (x ∈ seen) then seen else seen ++ [x]) l [].

(** [Series.nunique()]: null cells are not counted *)
Definition nunique (c : Series value) : nat :=
  length (unique (dropna (cells c))).

Definition occurrences (v : value) (l : list value) : nat :=
  length (filter (fun x => x = v) l).

(** Descending by count; equal counts keep their order. *)
Fixpoint insert_by_count (e : value * nat) (l : list (value * nat))
  : list (value * nat) :=
  match l with
  | [] => [e]
  | e' :: l' =>
      if (e'.2 <? e.2)%nat then e :: e' :: l' else e' :: insert_by_count e l'
  end.

Definition sort_by_count (l : list (value * nat)) : list (value * nat) :=
  fold_left (fun acc e => insert_by_count e acc) l [].

(** [Series.value_counts()]: one entry per observed value for an
    [object] column; one entry per category, observed or not, for a
    [category] column.  Null cells are dropped. *)
Definition value_counts (c : Series value) : list (value * nat) :=
  let xs := dropna (cells c) in
  let keys := match col_dtype c with
              | Category cats => cats
              | _ => unique xs
              end in
  sort_by_count (map (fun v => (v, occurrences v xs)) keys).

(** [.head(n)] *)
Definition head {A : Type} (n : nat) (l : list A) : list A := take n l.

(** The row at position [i]: its full tuple of values. *)
Definition row (df : DataFrame value) (i : nat) : list (option value) :=
  map (fun c => default None (cells c !! i)) (df_columns df).

Definition rows (df : DataFrame value) : list (list (option value)) :=
  map (row df) (seq 0 (index_len df)).

(** [keep='first']: a row is flagged when an earlier row equals it. *)
Fixpoint flag_duplicates (seen rest : list (list (option value)))
  : list bool :=
  match rest with
  | [] => []
  | r :: rest' =>
      bool_decide (r ∈ seen) :: flag_duplicates (r :: seen) rest'
  end.

(** [df.empty]: some axis has length 0 *)
Definition df_empty (df : DataFrame value) : bool :=
  match index_len df, df_columns df with
  | O, _ => true
  | _, [] => true
  | _, _ => false
  end.

(** [df.duplicated()]: an empty frame gives an empty Series *)
Definition duplicated (df : DataFrame value) : list bool :=
  if df_empty df then [] else flag_duplicates [] (rows df).

(** [.sum()] of a boolean Series *)
Definition bool_sum (l : list bool) : nat :=
  length (filter (fun b => b = true) l).

End Engine.

(** ** The results object

    [results] is a [dict] from the names of the facts to their values. *)

Record cat_info (value : Type) : Type := mkCatInfo {
  unique_count : nat;
  top_values : list (value * nat)
}.
Arguments mkCatInfo {value}.
Arguments unique_count {value}.
Arguments top_values {value}.

Inductive rvalue (value : Type) : Type :=
  | RShape (shape : nat * nat)
  | RColumns (names : list string)
  | RDtypes (d : list (string * dtype value))
  | RBytes (n : Z)
  | RCount (n : nat)
  | RCounts (d : list (string * nat))
  | RFloats (d : list (string * float))
  | RTable (d : list (string * list (string * float)))
  | RCategorical (d : list (string * cat_info value)).
Arguments RShape {value}.
Arguments RColumns {value}.
Arguments RDtypes {value}.
Arguments RBytes {value}.
Arguments RCount {value}.
Arguments RCounts {value}.
Arguments RFloats {value}.
Arguments RTable {value}.
Arguments RCategorical {value}.

Definition results (value : Type) : Type := list (string * rvalue value).

(** ** The analyzer object and its computations

    A [DataFrame] is a mutable object: the analyzer holds a reference
    to the frame it was given, the caller and the progress callback may
    hold the same reference.  The frames are kept in a store, by
    identity; [self.df] is a reference into it.  A method runs on the
    analyzer, on the store and on the state of whoever observes the
    progress; it returns or raises. *)

(** The identity of a frame object *)
Definition loc : Type := nat.

Record EDAAnalyzer (value : Type) : Type := mkAnalyzer {
  df : loc;
  analysis_results : results value
}.
Arguments mkAnalyzer {value}.
Arguments df {value}.
Arguments analysis_results {value}.

(** [EDAAnalyzer.__init__] *)
Definition EDAAnalyzer_init {value : Type} (df : loc) : EDAAnalyzer value :=
  mkAnalyzer df [].

Record world (value S : Type) : Type := mkWorld {
  self : EDAAnalyzer value;
  frames : loc -> DataFrame value;
  observer : S
}.
Arguments mkWorld {value S}.
Arguments self {value S}.
Arguments frames {value S}.
Arguments observer {value S}.

(** The frame [self.df] refers to, as it is now *)
Definition dataset {value S : Type} (w : world value S) : DataFrame value :=
  frames w (df (self w)).

(** The frame at [l] is changed in place. *)
Definition set_frame {value : Type} (l : loc) (d : DataFrame value)
           (fs : loc -> DataFrame value) : loc -> DataFrame value :=
  fun l' => if decide (l' = l) then d else fs l'.

Definition M (value S A : Type) : Type :=
  world value S -> outcome A * world value S.

(** A progress callback is any callable: besides the percentage and
    the message it can reach the analyzer, the frames and its own
    state, and change them; it returns or raises. *)
Definition callback (value S : Type) : Type :=
  nat -> string -> M value S unit.

Section Monad.
Context {value S : Type}.

Definition ret {A : Type} (a : A) : M value S A :=
  fun w => (Returned a, w).

Definition bind {A B : Type} (m : M value S A) (k : A -> M value S B)
  : M value S B :=
  fun w =>
    match m w with
    | (Returned a, w') => k a w'
    | (Raised e, w') => (Raised e, w')
    end.

Definition lift {A : Type} (o : outcome A) : M value S A :=
  fun w => (o, w).

(** [self.df]: the attribute is read and the frame it refers to is
    looked at; the pandas methods the engine calls on it compute from
    what the frame holds at that moment and build new objects. *)
Definition self_df : M value S (DataFrame value) :=
  fun w => (Returned (frames w (df (self w))), w).

(** [self.analysis_results = r] *)
Definition set_analysis_results (r : results value) : M value S unit :=
  fun w =>
    (Returned tt, mkWorld (mkAnalyzer (df (self w)) r) (frames w) (observer w)).

(** [if progress_callback: progress_callback(percent, message)] *)
Definition notify (progress_callback : option (callback value S))
           (percent : nat) (message : string) : M value S unit :=
  match progress_callback with
  | None => ret tt
  | Some f => f percent message
  end.
End Monad.

#[global] Instance M_ret {value S : Type} : MRet (M value S) :=
  fun A => ret.
#[global] Instance M_bind {value S : Type} : MBind (M value S) :=
  fun A B k m => bind m k.

(** ** [EDAAnalyzer.perform_analysis] *)

Section Analyzer.
Context {value : Type} `{!Library value} {S : Type}.

(** Step 1: basic info *)
Definition basic_info_step (r : results value) : M value S (results value) :=
  d ← self_df;
  let r := dict_set "shape" (RShape (df_shape d)) r in
  d ← self_df;
  let r := dict_set "columns" (RColumns (column_names d)) r in
  d ← self_df;
  let r := dict_set "dtypes" (RDtypes (to_dict (df_dtypes d))) r in
  d ← self_df;
  mret (dict_set "memory_usage" (RBytes (memory_usage_sum d)) r).

(** Step 2: missing values *)
Definition missing_step (r : results value) : M value S (results value) :=
  d ← self_df;
  let r := dict_set "missing_values" (RCounts (to_dict (isnull_sum d))) r in
  d ← self_df;
  d' ← self_df;
  mret (dict_set "missing_percentage"
          (RFloats (to_dict (series_percent (isnull_sum d) (index_len d')))) r).

(** Step 3: numerical columns *)
Definition numerical_step (r : results value) : M value S (results value) :=
  d ← self_df;
  let numeric_cols := select_dtypes is_number d in
  match numeric_cols with
  | [] => mret r
  | _ :: _ =>
      d ← self_df;
      cs ← lift (getitems d numeric_cols);
      let r := dict_set "numeric_summary" (RTable (describe cs)) r in
      d ← self_df;
      cs ← lift (getitems d numeric_cols);
      mret (dict_set "correlation_matrix" (RTable (corr cs)) r)
  end.

(** [results['categorical_summary'][col] = info] *)
Definition set_categorical (col : string) (info : cat_info value)
           (r : results value) : outcome (results value) :=
  match dict_get "categorical_summary" r with
  | Some (RCategorical cs) =>
      Returned (dict_set "categorical_summary"
                  (RCategorical (dict_set col info cs)) r)
  | Some _ => Raised (TypeError "categorical_summary")
  | None => Raised (KeyError "categorical_summary")
  end.

(** [{'unique_count': c.nunique(),
      'top_values': c.value_counts().head(10).to_dict()}] of a column *)
Definition categorical_info (c : Series value) : cat_info value :=
  mkCatInfo (nunique c) (to_dict (head 10 (value_counts c))).

(** The entry of the label [col], from [df[col].nunique()] and
    [df[col].value_counts()].  When several columns have the name,
    [df[col]] is a frame: [nunique()] of a frame is a Series, and its
    [value_counts()] groups the frame by the column labels and raises
    [ValueError] for a label that names several columns, so that no
    entry is made. *)
Definition categorical_entry (d : DataFrame value) (col : string)
  : outcome (cat_info value) :=
  match getitem d col with
  | Raised e => Raised e
  | Returned (OneColumn c) => Returned (categorical_info c)
  | Returned (SubFrame _) =>
      Raised (ValueError ("Grouper for '" +:+ col +:+ "' not 1-dimensional"))
  end.

(** [for col in cat_cols: results['categorical_summary'][col] = {...}];
    the two subscripts [self.df[col]] of the dictionary literal look at
    the frame one right after the other. *)
Fixpoint categorical_loop_step (cat_cols : list string) (r : results value)
  : M value S (results value) :=
  match cat_cols with
  | [] => mret r
  | col :: rest =>
      d ← self_df;
      info ← lift (categorical_entry d col);
      r ← lift (set_categorical col info r);
      categorical_loop_step rest r
  end.

(** Step 4: categorical columns *)
Definition categorical_step (r : results value) : M value S (results value) :=
  d ← self_df;
  let cat_cols := select_dtypes is_object_or_category d in
  match cat_cols with
  | [] => mret r
  | _ :: _ =>
      categorical_loop_step cat_cols
        (dict_set "categorical_summary" (RCategorical []) r)
  end.

(** Step 5: duplicate rows *)
Definition duplicates_step (r : results value) : M value S (results value) :=
  d ← self_df;
  mret (dict_set "duplicate_rows" (RCount (bool_sum (duplicated d))) r).

Definition perform_analysis (progress_callback : option (callback value S))
  : M value S (results value) :=
  let r := [] in
  notify progress_callback 10 "Analyzing basic dataset information...";;
  r ← basic_info_step r;
  notify progress_callback 25 "Checking for missing values...";;
  r ← missing_step r;
  notify progress_callback 50 "Analyzing numerical columns...";;
  r ← numerical_step r;
  notify progress_callback 75 "Analyzing categorical columns...";;
  r ← categorical_step r;
  notify progress_callback 90 "Checking for duplicate rows...";;
  r ← duplicates_step r;
  notify progress_callback 100 "Analysis complete!";;
  set_analysis_results r;;
  mret r.
End Analyzer.

(** [EDAAnalyzer(D)] for a frame [D] that is the only one around: the
    analyzer refers to it, and [s] is the state of the observer. *)
Definition new_analyzer {value S : Type} (d : DataFrame value) (s : S)
  : world value S :=
  mkWorld (EDAAnalyzer_init 0) (fun _ => d) s.

(** [analyze D]: a fresh analyzer on [D], run without a callback. *)
Definition analyze {value : Type} `{!Library value} (d : DataFrame value)
  : outcome (results value) :=
  (perform_analysis (S := unit) None (new_analyzer d tt)).1.

(** ** The steps as functions of the frame

    What each step of [perform_analysis] adds to the results when the
    frame holds [d] all along. *)

Section Steps.
Context {value : Type} `{!Library value}.

Definition basic_info (d : DataFrame value) (r : results value)
  : results value :=
  let r := dict_set "shape" (RShape (df_shape d)) r in
  let r := dict_set "columns" (RColumns (column_names d)) r in
  let r := dict_set "dtypes" (RDtypes (to_dict (df_dtypes d))) r in
  dict_set "memory_usage" (RBytes (memory_usage_sum d)) r.

Definition missing (d : DataFrame value) (r : results value)
  : results value :=
  let r := dict_set "missing_values" (RCounts (to_dict (isnull_sum d))) r in
  dict_set "missing_percentage"
    (RFloats (to_dict (series_percent (isnull_sum d) (index_len d)))) r.

Definition numerical (d : DataFrame value) (r : results value)
  : outcome (results value) :=
  let numeric_cols := select_dtypes is_number d in
  match numeric_cols with
  | [] => Returned r
  | _ :: _ =>
      match getitems d numeric_cols with
      | Raised e => Raised e
      | Returned cs =>
          let r := dict_set "numeric_summary" (RTable (describe cs)) r in
          Returned (dict_set "correlation_matrix" (RTable (corr cs)) r)
      end
  end.

Fixpoint categorical_loop (d : DataFrame value) (cat_cols : list string)
         (r : results value) : outcome (results value) :=
  match cat_cols with
  | [] => Returned r
  | col :: rest =>
      match categorical_entry d col with
      | Raised e => Raised e
      | Returned info =>
          match set_categorical col info r with
          | Raised e => Raised e
          | Returned r' => categorical_loop d rest r'
          end
      end
  end.

Definition categorical (d : DataFrame value) (r : results value)
  : outcome (results value) :=
  let cat_cols := select_dtypes is_object_or_category d in
  match cat_cols with
  | [] => Returned r
  | _ :: _ =>
      categorical_loop d cat_cols
        (dict_set "categorical_summary" (RCategorical []) r)
  end.

Definition duplicates (d : DataFrame value) (r : results value)
  : results value :=
  dict_set "duplicate_rows" (RCount (bool_sum (duplicated d))) r.
End Steps.

(** Exceptions propagate through sequenced lookups. *)
#[global] Instance outcome_ret : MRet outcome := fun A => Returned.
#[global] Instance outcome_bind : MBind outcome :=
  fun A B k o => match o with Returned a => k a | Raised e => Raised e end.

(** ** The report document *)

Inductive style : Type :=
  | CustomTitle
  | CustomHeading
  | Heading2
  | Normal.

Inductive table_style : Type :=
  | OverviewStyle
  | ColumnStyle
  | NumericStyle
  | TopValuesStyle.

Inductive flowable : Type :=
  | Paragraph (text : string) (st : style)
  | Spacer (width height : nat)
  | Table (data : list (list string)) (st : table_style)
  | PageBreak.

(** ** Python formatting *)

(** [str(n)] *)
Definition str_nat (n : nat) : string :=
  NilEmpty.string_of_uint (Nat.to_uint n).

(** Digits from the least significant one, a comma after every third. *)
Fixpoint group_thousands (k : nat) (digits : list ascii) : list ascii :=
  match digits with
  | [] => []
  | c :: rest =>
      match k, rest with
      | 2, _ :: _ => c :: ","%char :: group_thousands 0 rest
      | _, _ => c :: group_thousands (Datatypes.S k) rest
      end
  end.

(** [format(n, ",")] *)
Definition format_thousands (n : nat) : string :=
  string_of_list_ascii
    (rev (group_thousands 0 (rev (list_ascii_of_string (str_nat n))))).

(** The first [n] bytes of the bytes [s] *)
Definition str_prefix (n : nat) (s : string) : string :=
  String.substring 0 n s.

(** A text is kept as its UTF-8 bytes; Python's [str] counts and slices
    characters.  A character is a leading byte and the continuation
    bytes ([10xxxxxx]) that follow it. *)
Definition is_continuation (c : ascii) : bool :=
  let n := nat_of_ascii c in ((128 <=? n) && (n <? 192))%nat.

(** [len(s)] of a [str] *)
Fixpoint py_len (s : string) : nat :=
  match s with
  | EmptyString => 0
  | String c s' =>
      if is_continuation c then py_len s' else Datatypes.S (py_len s')
  end.

(** [s[:n]] of a [str]: its first [n] characters *)
Fixpoint take_chars (n : nat) (s : string) : string :=
  match s with
  | EmptyString => EmptyString
  | String c s' =>
      if is_continuation c then String c (take_chars n s')
      else match n with
           | O => EmptyString
           | Datatypes.S n' => String c (take_chars n' s')
           end
  end.

(** [os.path.basename]: what follows the last separator *)
Fixpoint basename_from (acc : string) (s : string) : string :=
  match s with
  | EmptyString => acc
  | String c s' =>
      if Ascii.eqb c "/"%char then basename_from s' s' else basename_from acc s'
  end.

Definition basename (p : string) : string := basename_from p p.

Definition str_dtype {value : Type} (t : dtype value) : string :=
  match t with
  | Int64 => "int64"
  | Float64 => "float64"
  | Object => "object"
  | Category _ => "category"
  | Bool => "bool"
  | Datetime64 => "datetime64[ns]"
  end.

Definition float_of_Z (z : Z) : float :=
  PrimFloat.of_uint63 (Uint63.of_Z z).

(** ** [QuickEDAApp.generate_pdf_report] *)

Record QuickEDAApp (value : Type) : Type := mkApp {
  uploaded_file_path : option string;
  app_analysis_results : option (results value)
}.
Arguments mkApp {value}.
Arguments uploaded_file_path {value}.
Arguments app_analysis_results {value}.

Section Renderer.
Context {value : Type} `{!Library value}.

(** [d[k]] *)
Definition subscript {V : Type} (k : string) (d : list (string * V))
  : outcome V :=
  match dict_get k d with
  | Some v => Returned v
  | None => Raised (KeyError k)
  end.

Definition as_shape (v : rvalue value) : outcome (nat * nat) :=
  match v with RShape s => Returned s | _ => Raised (TypeError "shape") end.
Definition as_columns (v : rvalue value) : outcome (list string) :=
  match v with RColumns l => Returned l | _ => Raised (TypeError "columns") end.
Definition as_dtypes (v : rvalue value) : outcome (list (string * dtype value)) :=
  match v with RDtypes d => Returned d | _ => Raised (TypeError "dtypes") end.
Definition as_bytes (v : rvalue value) : outcome Z :=
  match v with RBytes n => Returned n | _ => Raised (TypeError "memory_usage") end.
Definition as_count (v : rvalue value) : outcome nat :=
  match v with RCount n => Returned n | _ => Raised (TypeError "duplicate_rows") end.
Definition as_counts (v : rvalue value) : outcome (list (string * nat)) :=
  match v with RCounts d => Returned d | _ => Raised (TypeError "missing_values") end.
Definition as_floats (v : rvalue value) : outcome (list (string * float)) :=
  match v with RFloats d => Returned d | _ => Raised (TypeError "missing_percentage") end.
Definition as_table (v : rvalue value)
  : outcome (list (string * list (string * float))) :=
  match v with RTable d => Returned d | _ => Raised (TypeError "numeric_summary") end.
Definition as_categorical (v : rvalue value)
  : outcome (list (string * cat_info value)) :=
  match v with
  | RCategorical d => Returned d
  | _ => Raised (TypeError "categorical_summary")
  end.

(** The head of the story: title and generation info; the source line
    is there [if self.uploaded_file_path:], that is for a path that is
    neither [None] nor empty. *)
Definition title_blocks (now : string) (source : option string)
  : list flowable :=
  [Paragraph "Exploratory Data Analysis Report" CustomTitle; Spacer 1 20]
  ++ [Paragraph ("Generated on: " +:+ now) Normal]
  ++ match source with
     | Some p =>
         if decide (p = "") then []
         else [Paragraph ("Source file: " +:+ basename p) Normal]
     | None => []
     end
  ++ [Spacer 1 20].

(** "Dataset Overview" *)
Definition overview_blocks (r : results value) : outcome (list flowable) :=
  shape ← subscript "shape" r;
  shape ← as_shape shape;
  mem ← subscript "memory_usage" r;
  mem ← as_bytes mem;
  dup ← subscript "duplicate_rows" r;
  dup ← as_count dup;
  let overview_data :=
    [ ["Metric"; "Value"];
      ["Number of Rows"; format_thousands shape.1];
      ["Number of Columns"; str_nat shape.2];
      ["Memory Usage";
       format_fixed 2 (float_of_Z mem / 1024 / 1024)%float +:+ " MB"];
      ["Duplicate Rows"; format_thousands dup] ] in
  mret [Paragraph "Dataset Overview" CustomHeading;
        Table overview_data OverviewStyle;
        Spacer 1 20].

(** One row of "Column Information" *)
Definition column_row (r : results value) (col : string)
  : outcome (list string) :=
  missing_values ← subscript "missing_values" r;
  missing_values ← as_counts missing_values;
  missing_count ← subscript col missing_values;
  missing_percentage ← subscript "missing_percentage" r;
  missing_percentage ← as_floats missing_percentage;
  missing_pct ← subscript col missing_percentage;
  dtypes ← subscript "dtypes" r;
  dtypes ← as_dtypes dtypes;
  t ← subscript col dtypes;
  mret [col; str_dtype t; str_nat missing_count;
        format_fixed 1 missing_pct +:+ "%"].

Fixpoint column_rows (r : results value) (cols : list string)
  : outcome (list (list string)) :=
  match cols with
  | [] => mret []
  | col :: rest =>
      x ← column_row r col;
      xs ← column_rows r rest;
      mret (x :: xs)
  end.

Definition column_blocks (r : results value) : outcome (list flowable) :=
  cols ← subscript "columns" r;
  cols ← as_columns cols;
  body ← column_rows r cols;
  mret [Paragraph "Column Information" CustomHeading;
        Table (["Column Name"; "Data Type"; "Missing Values"; "Missing %"] :: body)
              ColumnStyle].

(** One row of "Numerical Columns Summary" *)
Definition numeric_row (col : string) (stats : list (string * float))
  : outcome (list string) :=
  count ← subscript "count" stats;
  mean ← subscript "mean" stats;
  std ← subscript "std" stats;
  min ← subscript "min" stats;
  q25 ← subscript "25%" stats;
  q50 ← subscript "50%" stats;
  q75 ← subscript "75%" stats;
  max ← subscript "max" stats;
  mret [col; format_fixed 0 count; format_fixed 2 mean; format_fixed 2 std;
        format_fixed 2 min; format_fixed 2 q25; format_fixed 2 q50;
        format_fixed 2 q75; format_fixed 2 max].

Fixpoint numeric_rows (items : list (string * list (string * float)))
  : outcome (list (list string)) :=
  match items with
  | [] => mret []
  | (col, stats) :: rest =>
      x ← numeric_row col stats;
      xs ← numeric_rows rest;
      mret (x :: xs)
  end.

Definition numeric_blocks (r : results value) : outcome (list flowable) :=
  if dict_has "numeric_summary" r then
    items ← subscript "numeric_summary" r;
    items ← as_table items;
    body ← numeric_rows items;
    mret [PageBreak;
          Paragraph "Numerical Columns Summary" CustomHeading;
          Table (["Column"; "Count"; "Mean"; "Std"; "Min"; "25%"; "50%"; "75%"; "Max"]
                   :: body)
                NumericStyle]
  else mret [].

(** The rows of a "Top values" table: the first five items *)
Definition top_rows (top : list (value * nat)) : list (list string) :=
  map (fun vc => [take_chars 30 (py_str vc.1); str_nat vc.2]) (take 5 top).

(** The blocks of one categorical column *)
Definition categorical_column_blocks (col : string) (info : cat_info value)
  : list flowable :=
  [Paragraph ("Column: " +:+ col) Heading2;
   Paragraph ("Unique values: " +:+ str_nat (unique_count info)) Normal]
  ++ match top_values info with
     | [] => []
     | _ :: _ =>
         [Paragraph "Top values:" Normal;
          Table (["Value"; "Count"] :: top_rows (top_values info)) TopValuesStyle;
          Spacer 1 10]
     end.

Definition categorical_blocks (r : results value) : outcome (list flowable) :=
  if dict_has "categorical_summary" r then
    items ← subscript "categorical_summary" r;
    items ← as_categorical items;
    mret ([Spacer 1 20; Paragraph "Categorical Columns Summary" CustomHeading]
          ++ flat_map (fun ci => categorical_column_blocks ci.1 ci.2) items)
  else mret [].

(** The story handed to [doc.build] *)
Definition build_story (app : QuickEDAApp value) (now : string)
  : outcome (list flowable) :=
  match app_analysis_results app with
  | None => Raised (TypeError "analysis_results")
  | Some r =>
      overview ← overview_blocks r;
      columns ← column_blocks r;
      numeric ← numeric_blocks r;
      categorical ← categorical_blocks r;
      mret (title_blocks now (uploaded_file_path app)
            ++ overview ++ columns ++ numeric ++ categorical)
  end.
End Renderer.

(** ** Writing the document

    [SimpleDocTemplate(save_path)] only records the path.  [doc.build]
    lays the story out and saves the canvas: the destination is opened
    for writing ([open(path, "wb")], which creates or truncates it), the
    bytes of the document are written, the file is closed.  Where the
    operating system refuses, the exception is an input of the model. *)

Class Reportlab := {
  (** the bytes of the laid-out document *)
  pdf_data : list flowable -> string
}.

Inductive io_fault : Type :=
  | NoFault
  | OpenFails (cause : exn)
  | WriteFails (written : nat) (cause : exn).

Section Serialize.
Context {value : Type} `{!Library value} `{!Reportlab}.

Definition doc_build (save_path : string) (story : list flowable)
           (fault : io_fault) (fs : gmap string string)
  : outcome unit * gmap string string :=
  match fault with
  | OpenFails cause => (Raised cause, fs)
  | WriteFails written cause =>
      (Raised cause, <[save_path := str_prefix written (pdf_data story)]> fs)
  | NoFault => (Returned tt, <[save_path := pdf_data story]> fs)
  end.

Definition generate_pdf_report (app : QuickEDAApp value) (save_path : string)
           (now : string) (fault : io_fault) (fs : gmap string string)
  : outcome unit * gmap string string :=
  match build_story app now with
  | Raised e => (Raised e, fs)
  | Returned story => doc_build save_path story fault fs
  end.
End Serialize.

(** ** A concrete library, to run the engine

    Scalars are integers and text.  Mean, standard deviation, minimum
    and maximum are the textbook ones in binary64; quantiles,
    correlations and fixed-point formatting are placeholders. *)

Module Sample.
Inductive scalar : Type :=
  | VInt (z : Z)
  | VStr (s : string).

#[global] Instance scalar_eq_dec : EqDecision scalar.
Proof. solve_decision. Defined.

Definition to_float (v : scalar) : float :=
  match v with
  | VInt z => if (z <? 0)%Z then (- float_of_Z (- z))%float else float_of_Z z
  | VStr _ => nan
  end.

Definition fsum (l : list float) : float :=
  fold_left PrimFloat.add l 0%float.

Definition mean (l : list scalar) : float :=
  (fsum (map to_float l) / float_of_nat (length l))%float.

Definition std (l : list scalar) : float :=
  let m := mean l in
  PrimFloat.sqrt
    (fsum (map (fun v => ((to_float v - m) * (to_float v - m))%float) l)
     / float_of_nat (length l - 1))%float.

Definition fmin (l : list scalar) : float :=
  match map to_float l with
  | [] => nan
  | x :: xs => fold_left (fun a b => if PrimFloat.ltb b a then b else a) xs x
  end.

Definition fmax (l : list scalar) : float :=
  match map to_float l with
  | [] => nan
  | x :: xs => fold_left (fun a b => if PrimFloat.ltb a b then b else a) xs x
  end.

Definition str_scalar (v : scalar) : string :=
  match v with
  | VInt z =>
      if (z <? 0)%Z then "-" +:+ str_nat (Z.to_nat (- z)) else str_nat (Z.to_nat z)
  | VStr s => s
  end.

#[global] Instance sample_library : Library scalar := {|
  value_eq_dec := scalar_eq_dec;
  py_str := str_scalar;
  column_nbytes := fun c => (8 * Z.of_nat (length (cells c)))%Z;
  index_nbytes := fun _ => 128%Z;
  np_mean := mean;
  np_std := std;
  np_min := fmin;
  np_quantile := fun _ _ => nan;
  np_max := fmax;
  np_corr := fun _ _ => nan;
  format_fixed := fun _ _ => "#"
|}.

#[global] Instance sample_writer : Reportlab := {|
  pdf_data := fun story => "%PDF-1.4 " +:+ str_nat (length story) +:+ " %%EOF"
|}.

(** Scenario A: three rows, an integer and a text column *)
Definition scenario_A : DataFrame scalar :=
  mkDataFrame 3
    [ mkSeries "n" Int64 [Some (VInt 1); Some (VInt 2); Some (VInt 2)];
      mkSeries "t" Object [Some (VStr "a"); Some (VStr "b"); Some (VStr "b")] ].

(** Scenario B: no row, two declared columns *)
Definition scenario_B : DataFrame scalar :=
  mkDataFrame 0 [ mkSeries "n" Int64 []; mkSeries "t" Object [] ].

(** Scenario C: ten rows, four of them null *)
Definition scenario_C : DataFrame scalar :=
  mkDataFrame 10
    [ mkSeries "x" Float64
        [Some (VInt 1); None; Some (VInt 3); None; Some (VInt 5);
         None; Some (VInt 7); None; Some (VInt 9); Some (VInt 10)] ].

(** A categorical column that declares three categories and shows one *)
Definition unobserved : DataFrame scalar :=
  mkDataFrame 1
    [ mkSeries "size" (Category [VStr "S"; VStr "M"; VStr "L"])
        [Some (VStr "S")] ].

(** Two rows and no column *)
Definition no_columns : DataFrame scalar := mkDataFrame 2 [].

(** The results of Scenario A, and the report made of them *)
Definition scenario_A_results : results scalar :=
  Eval vm_compute in
    match analyze scenario_A with Returned r => r | Raised _ => [] end.

Definition scenario_A_summary : list (string * cat_info scalar) :=
  [("t", mkCatInfo 2 [(VStr "b", 2); (VStr "a", 1)])].

Definition scenario_A_app : QuickEDAApp scalar :=
  mkApp (Some "/home/user/data.csv") (Some scenario_A_results).

Definition scenario_A_story : list flowable :=
  Eval vm_compute in
    match build_story scenario_A_app "2024-01-01 00:00:00" with
    | Returned story => story
    | Raised _ => []
    end.

(** A disk that already holds a report at the destination *)
Definition old_disk : gmap string string :=
  {[ "report.pdf" := "%PDF-1.4 last week's report %%EOF" ]}.
End Sample.

(** ** Well-formed datasets, permutations, and the spec's notions *)

Section Notions.
Context {value : Type} `{!Library value}.

(** Every column has one cell per row. *)
Definition rectangular (d : DataFrame value) : Prop :=
  Forall (fun c => length (cells c) = index_len d) (df_columns d).

(** Column names are unique, as the data model of the spec has them.
    With several columns of one name [df[col]] is a frame and not a
    column, and the analysis of text columns raises. *)
Definition unique_names (d : DataFrame value) : Prop :=
  NoDup (column_names d).

(** [df.iloc[p]]: the rows at the positions [p], in that order *)
Definition iloc (p : list nat) (d : DataFrame value) : DataFrame value :=
  mkDataFrame (length p)
    (map (fun c =>
            mkSeries (name c) (col_dtype c)
                     (map (fun i => default None (cells c !! i)) p))
         (df_columns d)).

(** The five stages one after the other on a frame that holds [d],
    without progress reports. *)
Definition stages (d : DataFrame value) : outcome (results value) :=
  r ← numerical d (missing d (basic_info d []));
  r ← categorical d r;
  mret (duplicates d r).

(** What a results object [r] of the dataset [d] holds. *)
Record analysis_of (d : DataFrame value) (r : results value) : Prop := {
  has_shape : dict_get "shape" r = Some (RShape (df_shape d));
  has_columns : dict_get "columns" r = Some (RColumns (column_names d));
  has_dtypes : dict_get "dtypes" r = Some (RDtypes (to_dict (df_dtypes d)));
  has_memory_usage :
    dict_get "memory_usage" r = Some (RBytes (memory_usage_sum d));
  has_missing_values :
    dict_get "missing_values" r = Some (RCounts (to_dict (isnull_sum d)));
  has_missing_percentage :
    dict_get "missing_percentage" r =
    Some (RFloats (to_dict (series_percent (isnull_sum d) (index_len d))));
  has_duplicate_rows :
    dict_get "duplicate_rows" r = Some (RCount (bool_sum (duplicated d)));
  no_numeric :
    select_dtypes is_number d = [] ->
    dict_get "numeric_summary" r = None /\
    dict_get "correlation_matrix" r = None;
  has_numeric :
    select_dtypes is_number d <> [] ->
    exists cs, getitems d (select_dtypes is_number d) = Returned cs /\
      dict_get "numeric_summary" r = Some (RTable (describe cs)) /\
      dict_get "correlation_matrix" r = Some (RTable (corr cs));
  no_categorical :
    select_dtypes is_object_or_category d = [] ->
    dict_get "categorical_summary" r = None;
  has_categorical :
    select_dtypes is_object_or_category d <> [] ->
    exists cs, dict_get "categorical_summary" r = Some (RCategorical cs);
  has_categorical_unique :
    unique_names d ->
    select_dtypes is_object_or_category d <> [] ->
    dict_get "categorical_summary" r =
      Some (RCategorical
              (map (fun c => (name c, categorical_info c))
                   (filter (fun c => is_object_or_category (col_dtype c) = true)
                           (df_columns d))))
}.

(** A callback that never raises, whatever it is called with *)
Definition never_raises {S : Type} (f : callback value S) : Prop :=
  forall percent message w, (f percent message w).1 = Returned tt.

(** A callback that only observes: whatever it is called with, it
    leaves the analyzer and every frame as they are. *)
Definition observes_only {S : Type} (f : callback value S) : Prop :=
  forall percent message w,
    self (f percent message w).2 = self w /\
    forall l, frames (f percent message w).2 l = frames w l.

(** A callback that leaves [self.df] and the frame it refers to as
    they are; it may do anything else. *)
Definition keeps_dataset {S : Type} (f : callback value S) : Prop :=
  forall percent message w,
    df (self (f percent message w).2) = df (self w) /\
    dataset (f percent message w).2 = dataset w.

(** A computation that neither rebinds [self.df] nor changes a frame,
    whether it returns or raises *)
Definition leaves_frames {S A : Type} (m : M value S A) : Prop :=
  forall w,
    df (self (m w).2) = df (self w) /\
    forall l, frames (m w).2 l = frames w l.

(** The analyzer after [self.analysis_results = r] *)
Definition with_results {S : Type} (r : results value) (w : world value S)
  : world value S :=
  mkWorld (mkAnalyzer (df (self w)) r) (frames w) (observer w).

(** In the spec's words: the row at [i] equals some earlier row. *)
Definition equals_earlier_row (l : list (list (option value))) (i : nat)
  : bool :=
  existsb (fun j => bool_decide (l !! j = l !! i)) (seq 0 i).

(** In the spec's words: the number of rows whose full tuple of values
    equals some earlier row's tuple. *)
Definition count_repeated_rows (l : list (list (option value))) : nat :=
  length (filter (fun i => equals_earlier_row l i = true) (seq 0 (length l))).

(** In the spec's words: the table of a categorical column lists at
    most five of the top values, each with its count, the value cut
    to 30 characters: the cell is the beginning of the text of the
    value, as many of its characters as there are up to 30. *)
Definition top_table (top : list (value * nat)) (body : list (list string))
  : Prop :=
  length body <= 5 /\
  length body = Nat.min 5 (length top) /\
  forall i line, body !! i = Some line ->
    exists v n cell,
      top !! i = Some (v, n) /\
      line = [cell; str_nat n] /\
      py_len cell <= 30 /\
      (exists cut, py_str v = cell +:+ cut) /\
      py_len cell = Nat.min 30 (py_len (py_str v)) /\
      (py_len (py_str v) <= 30 -> cell = py_str v).

(** In the spec's words: for each column in order, a sub-heading with
    its name, a line with its unique-value count and, only if it has
    top values, their table. *)
Inductive renders_categorical
  : list (string * cat_info value) -> list flowable -> Prop :=
  | renders_done : renders_categorical [] []
  | renders_plain col info rest blocks :
      top_values info = [] ->
      renders_categorical rest blocks ->
      renders_categorical ((col, info) :: rest)
        (Paragraph ("Column: " +:+ col) Heading2
         :: Paragraph ("Unique values: " +:+ str_nat (unique_count info)) Normal
         :: blocks)
  | renders_table col info rest body blocks :
      top_values info <> [] ->
      top_table (top_values info) body ->
      renders_categorical rest blocks ->
      renders_categorical ((col, info) :: rest)
        (Paragraph ("Column: " +:+ col) Heading2
         :: Paragraph ("Unique values: " +:+ str_nat (unique_count info)) Normal
         :: Paragraph "Top values:" Normal
         :: Table (["Value"; "Count"] :: body) TopValuesStyle
         :: Spacer 1 10
         :: blocks).
End Notions.

(** A callback that counts its calls, and one that raises at once. *)
Definition counting_callback {value : Type} : callback value nat :=
  fun _ _ w =>
    (Returned tt, mkWorld (self w) (frames w) (Datatypes.S (observer w))).

Definition raising_callback {value : Type} : callback value unit :=
  fun _ _ w => (Raised (mkExn "RuntimeError" "progress window closed"), w).

(** A callback that drops the rows of the frame the analyzer works on,
    in place, when it is told that the missing values are checked next
    ([df.drop(df.index, inplace=True)]). *)
Definition dropping_callback {value : Type} : callback value unit :=
  fun percent _ w =>
    if (percent =? 25)%nat then
      let d := dataset w in
      (Returned tt,
       mkWorld (self w)
               (set_frame (df (self w))
                  (mkDataFrame 0
                     (map (fun c => mkSeries (name c) (col_dtype c) [])
                          (df_columns d)))
                  (frames w))
               (observer w))
    else (Returned tt, w).

(** ** Further notions: progress, distinct rows, most frequent values *)

(** The checkpoints of [perform_analysis], in the order of the code. *)
Definition checkpoints : list (nat * string) :=
  [ (10, "Analyzing basic dataset information...");
    (25, "Checking for missing values...");
    (50, "Analyzing numerical columns...");
    (75, "Analyzing categorical columns...");
    (90, "Checking for duplicate rows...");
    (100, "Analysis complete!") ].

(** Calling a callback at checkpoints one after the other, until a call
    raises; each call starts from what the call before left. *)
Fixpoint report_progress {value S : Type} (f : callback value S)
         (points : list (nat * string)) : M value S unit :=
  match points with
  | [] => ret tt
  | (percent, message) :: rest =>
      bind (f percent message) (fun _ => report_progress f rest)
  end.

(** A callback that logs its calls and raises once it is told a given
    percentage. *)
Definition raising_at {value : Type} (limit : nat)
  : callback value (list (nat * string)) :=
  fun percent message w =>
    let w' := mkWorld (self w) (frames w) (observer w ++ [(percent, message)]) in
    if (limit <=? percent)%nat
    then (Raised (mkExn "RuntimeError" message), w')
    else (Returned tt, w').

(** The statistics of [describe()], in its order. *)
Definition describe_index : list string :=
  ["count"; "mean"; "std"; "min"; "25%"; "50%"; "75%"; "max"].

Section MoreNotions.
Context {value : Type} `{!Library value}.

(** The categories of a categorical column are distinct and cover its
    values. *)
Definition categories_closed (d : DataFrame value) : Prop :=
  Forall (fun c => match col_dtype c with
                   | Category cats =>
                       NoDup cats /\ forall v, Some v ∈ cells c -> v ∈ cats
                   | _ => True
                   end) (df_columns d).

(** The keys of [value_counts]: what [unique] finds, or the categories. *)
Definition count_keys (c : Series value) : list value :=
  match col_dtype c with
  | Category cats => cats
  | _ => unique (dropna (cells c))
  end.

(** Counts that never go up along the list. *)
Fixpoint descending (counts : list nat) : Prop :=
  match counts with
  | [] => True
  | n :: rest => Forall (fun m => m <= n) rest /\ descending rest
  end.
End MoreNotions.

(** ** Reading a report *)

Definition is_table (b : flowable) : bool :=
  match b with Table _ _ => true | _ => false end.

Definition is_page_break (b : flowable) : bool :=
  match b with PageBreak => true | _ => false end.



(** The summaries whose table of top values is printed. *)
Definition printed_top_tables {value : Type}
           (summary : list (string * cat_info value)) : nat :=
  length (filter (fun kv => top_values kv.2 <> []) summary).

(** ** What the report says of a column *)

Section ColumnLines.
Context {value : Type} `{!Library value}.

End ColumnLines.

(** ** The application window

    The handlers of [QuickEDAApp] act on the attributes of the
    application object and on its widgets.  A widget has a text, a
    state, the value of a progress bar, and is packed or not.  What a handler asks of the
    toolkit (a toast, a dialog, a thread to start, a callback for the
    main loop) is the list of effects it returns; file dialogs, the
    clock and the file readers are inputs. *)

Inductive widget : Type :=
  | file_info_label
  | remove_file_btn
  | upload_progress
  | analyze_btn
  | analysis_progress
  | analysis_status_label
  | analysis_detail_label
  | filename_entry
  | download_btn
  | download_status_label.

#[global] Instance widget_eq_dec : EqDecision widget.
Proof. solve_decision. Defined.

Inductive button_state : Type :=
  | state_normal
  | state_disabled.

Record widget_conf : Type := mkConf {
  text : string;
  state : button_state;
  packed : bool;
  progress_value : float
}.

Definition window : Type := widget -> widget_conf.

Definition configure (w : widget) (f : widget_conf -> widget_conf)
           (win : window) : window :=
  fun w' => if decide (w' = w) then f (win w') else win w'.

(** [w.configure(text=s)] *)
Definition set_text (w : widget) (s : string) : window -> window :=
  configure w (fun c => mkConf s (state c) (packed c) (progress_value c)).

(** [w.configure(state=st)] *)
Definition set_state (w : widget) (st : button_state) : window -> window :=
  configure w (fun c => mkConf (text c) st (packed c) (progress_value c)).

(** [w.pack(...)] and [w.pack_forget()] *)
Definition pack (w : widget) : window -> window :=
  configure w (fun c => mkConf (text c) (state c) true (progress_value c)).
Definition pack_forget (w : widget) : window -> window :=
  configure w (fun c => mkConf (text c) (state c) false (progress_value c)).

(** [w.set(x)] of a progress bar *)
Definition set_value (w : widget) (x : float) : window -> window :=
  configure w (fun c => mkConf (text c) (state c) (packed c) x).

(** What runs in a thread or as a callback of the main loop: the
    methods, and the two lambdas of the [except] clauses, which refer
    to the exception variable of their clause. *)
Inductive task : Type :=
  | process_upload_task (file_path : string)
  | upload_success_task
  | upload_error_lambda (e : exn)
  | process_analysis_task
  | update_analysis_progress_task (progress : nat) (detail_text : string)
  | analysis_success_task
  | analysis_error_lambda (e : exn).

Inductive effect : Type :=
  | Toast (message : string)
  | ShowError (title message : string)
  | ShowWarning (title message : string)
  | StartThread (target : task)
  | After (callback : task).

Record Application (value : Type) : Type := mkApplication {
  (** [uploaded_file_path] and [analysis_results] *)
  core : QuickEDAApp value;
  (** [self.df] *)
  app_df : option (DataFrame value);
  report_generated : bool;
  analysis_in_progress : bool;
  widgets : window
}.
Arguments mkApplication {value}.
Arguments core {value}.
Arguments app_df {value}.
Arguments report_generated {value}.
Arguments analysis_in_progress {value}.
Arguments widgets {value}.

(** What the desktop provides: the readers of pandas, on the files as
    they are during the session, and [str.strip]. *)
Class Desktop (value : Type) := {
  (** [pd.read_csv(path)] and [pd.read_csv(path, sep=...)] *)
  read_csv : string -> option string -> outcome (DataFrame value);
  (** [pd.read_excel(path)] *)
  read_excel : string -> outcome (DataFrame value);
  (** [s.strip()] *)
  py_strip : string -> string
}.

Definition newline : string := String "010"%char "".
Definition tab : string := String "009"%char "".

(** [str(e)]: the message, and the quoted key for a [KeyError] *)
Definition str_exn (e : exn) : string :=
  if decide (exn_type e = "KeyError") then "'" +:+ exn_msg e +:+ "'"
  else exn_msg e.

(** [c.lower()] on the letters A to Z; no other character becomes one
    of the letters of the extensions the loader knows. *)
Definition lower_ascii (c : ascii) : ascii :=
  let n := nat_of_ascii c in
  if ((65 <=? n) && (n <=? 90))%nat then ascii_of_nat (n + 32) else c.

Fixpoint lower (s : string) : string :=
  match s with
  | EmptyString => EmptyString
  | String c s' => String (lower_ascii c) (lower s')
  end.

Fixpoint drop_dots (s : string) : string :=
  match s with
  | String c s' => if Ascii.eqb c "."%char then drop_dots s' else s
  | EmptyString => EmptyString
  end.

(** The part of a name from its last dot on *)
Fixpoint from_last_dot (s : string) : option string :=
  match s with
  | EmptyString => None
  | String c s' =>
      match from_last_dot s' with
      | Some e => Some e
      | None => if Ascii.eqb c "."%char then Some s else None
      end
  end.

(** [os.path.splitext(p)[1]]: the extension starts at the last dot of
    the file name; dots that begin the name do not count. *)
Definition splitext_ext (p : string) : string :=
  default "" (from_last_dot (drop_dots (basename p))).

Section Handlers.
Context {value : Type} `{!Library value} `{!Desktop value} `{!Reportlab}.

Definition with_widgets (a : Application value) (f : window -> window)
  : Application value :=
  mkApplication (core a) (app_df a) (report_generated a)
                (analysis_in_progress a) (f (widgets a)).

(** [upload_file], given what the file dialog returned *)
Definition upload_file (a : Application value) (file_path : string)
  : Application value * list effect :=
  if decide (file_path = "") then (a, [])
  else
    let a := with_widgets a (pack upload_progress) in
    let a := with_widgets a (set_value upload_progress 0) in
    (a, [StartThread (process_upload_task file_path)]).

(** The file is read by the reader of its extension; an extension that
    is none of the four leaves [self.df] as it is. *)
Definition load_file (file_path : string) (old : option (DataFrame value))
  : outcome (option (DataFrame value)) :=
  let file_ext := lower (splitext_ext file_path) in
  if decide (file_ext = ".csv") then
    match read_csv file_path None with
    | Returned d => Returned (Some d)
    | Raised e => Raised e
    end
  else if decide (file_ext = ".xlsx" \/ file_ext = ".xls") then
    match read_excel file_path with
    | Returned d => Returned (Some d)
    | Raised e => Raised e
    end
  else if decide (file_ext = ".txt") then
    match read_csv file_path (Some tab) with
    | Returned d => Returned (Some d)
    | Raised _ =>
        match read_csv file_path None with
        | Returned d => Returned (Some d)
        | Raised e => Raised e
        end
    end
  else Returned old.

(** [for i in range(101): self.upload_progress.set(i / 100)] *)
Definition simulate_progress (a : Application value) : Application value :=
  fold_left
    (fun a i =>
       with_widgets a (set_value upload_progress (float_of_nat i / 100)%float))
    (seq 0 101) a.

(** [process_upload] *)
Definition process_upload (a : Application value) (file_path : string)
  : Application value * list effect :=
  let a := simulate_progress a in
  match load_file file_path (app_df a) with
  | Returned d =>
      (mkApplication
         (mkApp (Some file_path) (app_analysis_results (core a)))
         d (report_generated a) (analysis_in_progress a) (widgets a),
       [After upload_success_task])
  | Raised e => (a, [After (upload_error_lambda e)])
  end.

(** [upload_success]; it raises when there is no path or no data. *)
Definition upload_success (a : Application value)
  : outcome (Application value * list effect) :=
  match uploaded_file_path (core a) with
  | None => Raised (TypeError "expected str, bytes or os.PathLike object, not NoneType")
  | Some path =>
      let filename := basename path in
      match app_df a with
      | None => Raised (mkExn "AttributeError"
                              "'NoneType' object has no attribute 'shape'")
      | Some d =>
          let '(rows, cols) := df_shape d in
          let a := with_widgets a
                     (set_text file_info_label
                        ("✅ " +:+ filename +:+ " (" +:+ format_thousands rows
                         +:+ " rows, " +:+ str_nat cols +:+ " columns)")) in
          let a := with_widgets a (pack_forget upload_progress) in
          let a := with_widgets a (pack remove_file_btn) in
          let a := with_widgets a (set_state analyze_btn state_normal) in
          let a := with_widgets a
                     (set_text analysis_status_label "Ready to analyse data") in
          Returned (a, [Toast "File uploaded successfully!"])
      end
  end.

(** [upload_error] *)
Definition upload_error (a : Application value) (error_msg : string)
  : Application value * list effect :=
  (with_widgets a (pack_forget upload_progress),
   [ShowError "Upload Error" ("Failed to load file:" +:+ newline +:+ error_msg)]).

(** [remove_file] *)
Definition remove_file (a : Application value)
  : Application value * list effect :=
  let a := mkApplication (mkApp None None) None false
                         (analysis_in_progress a) (widgets a) in
  let a := with_widgets a (set_text file_info_label "No file selected") in
  let a := with_widgets a (pack_forget remove_file_btn) in
  let a := with_widgets a (set_state analyze_btn state_disabled) in
  let a := with_widgets a
             (set_text analysis_status_label "Upload a file to begin analysis") in
  let a := with_widgets a (set_text analysis_detail_label "") in
  let a := with_widgets a (pack_forget analysis_detail_label) in
  let a := with_widgets a (set_state download_btn state_disabled) in
  let a := with_widgets a
             (set_text download_status_label
                       "Complete analysis to download report") in
  (a, [Toast "File removed successfully!"]).

(** [reset_app] *)
Definition reset_app (a : Application value)
  : Application value * list effect :=
  let '(a, effects) := remove_file a in
  (a, effects ++ [Toast "Application reset successfully!"]).

(** [analyze_data] *)
Definition analyze_data (a : Application value)
  : Application value * list effect :=
  match app_df a, analysis_in_progress a with
  | None, _ => (a, [])
  | Some _, true => (a, [])
  | Some _, false =>
      let a := mkApplication (core a) (app_df a) (report_generated a) true
                             (widgets a) in
      let a := with_widgets a (pack analysis_progress) in
      let a := with_widgets a (pack analysis_detail_label) in
      let a := with_widgets a (set_value analysis_progress 0) in
      let a := with_widgets a
                 (set_text analysis_status_label "🔄 Analyzing data...") in
      let a := with_widgets a (set_state analyze_btn state_disabled) in
      let a := with_widgets a (set_text analyze_btn "Analyzing...") in
      (a, [StartThread process_analysis_task])
  end.

(** [update_analysis_progress] *)
Definition update_analysis_progress (a : Application value)
           (progress : nat) (detail_text : string) : Application value :=
  let a := with_widgets a
             (set_value analysis_progress (float_of_nat progress / 100)%float) in
  with_widgets a (set_text analysis_detail_label detail_text).

(** The callback [process_analysis] gives to the analyzer: it asks the
    main loop to show the progress. *)
Definition app_progress_callback : callback value (list effect) :=
  fun progress detail w =>
    (Returned tt,
     mkWorld (self w) (frames w)
             (observer w
              ++ [After (update_analysis_progress_task progress detail)])).

(** [process_analysis]; without data the analyzer fails at [df.shape],
    after the first progress report.  The analyzer is given the frame
    of the application itself: what the run leaves in it is what the
    application has afterwards. *)
Definition process_analysis (a : Application value)
  : Application value * list effect :=
  match app_df a with
  | None =>
      (a,
       [After (update_analysis_progress_task
                 10 "Analyzing basic dataset information...");
        After (analysis_error_lambda
                 (mkExn "AttributeError"
                        "'NoneType' object has no attribute 'shape'"))])
  | Some d =>
      match perform_analysis (Some app_progress_callback)
                             (new_analyzer d []) with
      | (Returned r, w) =>
          (mkApplication (mkApp (uploaded_file_path (core a)) (Some r))
                         (Some (dataset w)) (report_generated a)
                         (analysis_in_progress a) (widgets a),
           observer w ++ [After analysis_success_task])
      | (Raised e, w) =>
          (mkApplication (core a) (Some (dataset w)) (report_generated a)
                         (analysis_in_progress a) (widgets a),
           observer w ++ [After (analysis_error_lambda e)])
      end
  end.

(** [analysis_success], given the time stamp of the default name *)
Definition analysis_success (a : Application value) (timestamp : string)
  : Application value * list effect :=
  let a := mkApplication (core a) (app_df a) (report_generated a) false
                         (widgets a) in
  let a := with_widgets a (pack_forget analysis_progress) in
  let a := with_widgets a (pack_forget analysis_detail_label) in
  let a := with_widgets a
             (set_text analysis_status_label
                       "✅ Analysis completed successfully!") in
  let a := with_widgets a (set_state analyze_btn state_normal) in
  let a := with_widgets a (set_text analyze_btn "Re-analyze Data") in
  let a := with_widgets a (set_state download_btn state_normal) in
  let a := with_widgets a
             (set_text download_status_label "Ready to download report") in
  let a := with_widgets a
             (set_text filename_entry ("EDA_Report_" +:+ timestamp)) in
  (a, [Toast "Analysis Completed Successfully!"]).

(** [analysis_error] *)
Definition analysis_error (a : Application value) (error_msg : string)
  : Application value * list effect :=
  let a := mkApplication (core a) (app_df a) (report_generated a) false
                         (widgets a) in
  let a := with_widgets a (pack_forget analysis_progress) in
  let a := with_widgets a (pack_forget analysis_detail_label) in
  let a := with_widgets a (set_text analysis_status_label "❌ Analysis failed") in
  let a := with_widgets a (set_state analyze_btn state_normal) in
  let a := with_widgets a (set_text analyze_btn "Analyse Data") in
  (a, [ShowError "Analysis Error"
                 ("Failed to analyze data:" +:+ newline +:+ error_msg)]).

(** [download_report], given what the save dialog returned, the clock
    and the disk *)
Definition download_report (a : Application value) (save_path now : string)
           (fault : io_fault) (fs : gmap string string)
  : Application value * list effect * gmap string string :=
  match app_analysis_results (core a) with
  | None | Some [] => (a, [], fs)
  | Some (_ :: _) =>
      let filename := py_strip (text (widgets a filename_entry)) in
      if decide (filename = "") then
        (a, [ShowWarning "Input Required"
                         "Please enter a filename for the report"], fs)
      else if decide (save_path = "") then (a, [], fs)
      else
        match generate_pdf_report (core a) save_path now fault fs with
        | (Returned _, fs') =>
            (with_widgets a
               (set_text download_status_label
                         ("✅ Report saved to: " +:+ basename save_path)),
             [Toast "Report saved successfully!"], fs')
        | (Raised e, fs') =>
            (a, [ShowError "Save Error"
                           ("Failed to save report:" +:+ newline +:+ str_exn e)],
             fs')
        end
  end.
End Handlers.

(** ** A concrete desktop, to run the handlers *)

Module SampleDesktop.
Import Sample.

Fixpoint strip_left (s : string) : string :=
  match s with
  | String c s' => if Ascii.eqb c " "%char then strip_left s' else s
  | EmptyString => EmptyString
  end.

(** Spaces are stripped at both ends. *)
Definition strip_spaces (s : string) : string :=
  String.rev (strip_left (String.rev (strip_left s))).

#[global] Instance sample_desktop : Desktop scalar := {|
  read_csv := fun path sep =>
    if decide (path = "/home/user/gone.csv")
    then Raised (mkExn "FileNotFoundError" "No such file or directory")
    else match sep with
         | None => Returned scenario_A
         | Some _ => Raised (mkExn "ParserError" "Error tokenizing data")
         end;
  read_excel := fun _ => Returned scenario_C;
  py_strip := strip_spaces
|}.

Definition blank_window : window :=
  fun _ => mkConf "" state_disabled false 0%float.

(** Nothing uploaded yet *)
Definition fresh_app : Application scalar :=
  mkApplication (mkApp None None) None false false blank_window.

(** Scenario A uploaded and analysed, a file name entered *)
Definition analysed_app : Application scalar :=
  mkApplication scenario_A_app (Some scenario_A) false false
    (set_text filename_entry " EDA_Report_20240101_000000 " blank_window).

(** Scenario A uploaded and not yet analysed *)
Definition loaded_app : Application scalar :=
  mkApplication (mkApp (Some "/home/user/data.csv") None) (Some scenario_A)
                false false blank_window.

(** The text column of Scenario A *)
Definition text_column : Series scalar :=
  mkSeries "t" Object [Some (VStr "a"); Some (VStr "b"); Some (VStr "b")].
End SampleDesktop.

(** * Properties *)

(** ** Dictionaries *)

Section PyDictFacts.
Context {K V : Type} `{EqDecision K}.
Implicit Types (k : K) (v : V) (d s : list (K * V)).

Lemma dict_get_set_eq k v d : dict_get k (dict_set k v d) = Some v.
Proof.
  induction d as [|[k' v'] d IH]; simpl.
  - by rewrite decide_True.
  - destruct (decide (k = k')) as [->|Hne]; simpl.
    + by rewrite decide_True.
    + by rewrite decide_False.
Qed.

Lemma dict_get_set_ne k k' v d :
  k <> k' -> dict_get k' (dict_set k v d) = dict_get k' d.
Proof.
  intros Hne. induction d as [|[k0 v0] d IH]; simpl.
  - rewrite decide_False; [done | congruence].
  - destruct (decide (k = k0)) as [->|Hk]; simpl.
    + rewrite !decide_False; [done | congruence | congruence].
    + destruct (decide (k' = k0)); [done | apply IH].
Qed.

Lemma dict_has_set_eq k v d : dict_has k (dict_set k v d) = true.
Proof. unfold dict_has. by rewrite dict_get_set_eq. Qed.

Lemma dict_has_set_ne k k' v d :
  k <> k' -> dict_has k' (dict_set k v d) = dict_has k' d.
Proof. intros. unfold dict_has. by rewrite dict_get_set_ne. Qed.

Lemma dict_get_fold k s d :
  dict_get k (fold_left (fun d kv => dict_set kv.1 kv.2 d) s d) =
  match last_value k s with Some v => Some v | None => dict_get k d end.
Proof.
  revert d. induction s as [|[k' v'] s IH]; intros d; simpl; [done|].
  rewrite IH. destruct (last_value k s); [done|].
  destruct (decide (k = k')) as [->|Hne].
  - apply dict_get_set_eq.
  - apply dict_get_set_ne. congruence.
Qed.

Lemma dict_get_to_dict k s : dict_get k (to_dict s) = last_value k s.
Proof.
  unfold to_dict. rewrite dict_get_fold. by destruct (last_value k s).
Qed.

Lemma last_value_None k s : k ∉ map fst s -> last_value k s = None.
Proof.
  induction s as [|[k' v'] s IH]; simpl; [done|].
  intros Hn. rewrite not_elem_of_cons in Hn. destruct Hn as [Hne Hn].
  rewrite (IH Hn). by rewrite decide_False.
Qed.

Lemma dict_get_None k d : k ∉ map fst d -> dict_get k d = None.
Proof.
  induction d as [|[k' v'] d IH]; simpl; [done|].
  intros Hn. rewrite not_elem_of_cons in Hn. destruct Hn as [Hne Hn].
  rewrite decide_False; auto.
Qed.

Lemma dict_set_fresh k v d : k ∉ map fst d -> dict_set k v d = d ++ [(k, v)].
Proof.
  induction d as [|[k' v'] d IH]; simpl; [done|].
  intros Hn. rewrite not_elem_of_cons in Hn. destruct Hn as [Hne Hn].
  rewrite decide_False; [|done]. by rewrite IH.
Qed.

Lemma fold_dict_set_fresh s d :
  NoDup (map fst (d ++ s)) ->
  fold_left (fun d kv => dict_set kv.1 kv.2 d) s d = d ++ s.
Proof.
  revert d. induction s as [|[k v] s IH]; intros d Hnd; simpl.
  - by rewrite app_nil_r.
  - assert (Hfresh : k ∉ map fst d).
    { rewrite map_app in Hnd. simpl in Hnd.
      apply NoDup_app in Hnd as (_ & Hdis & _).
      intros Hin. apply (Hdis k Hin). left. }
    rewrite dict_set_fresh by done.
    rewrite IH; rewrite <- app_assoc; [done|]. exact Hnd.
Qed.

(** With distinct labels, [to_dict] keeps the Series as it is. *)
Lemma to_dict_NoDup s : NoDup (map fst s) -> to_dict s = s.
Proof. intros Hnd. unfold to_dict. by rewrite fold_dict_set_fresh. Qed.

Lemma length_dict_set k v d : length (dict_set k v d) <= Datatypes.S (length d).
Proof.
  induction d as [|[k' v'] d IH]; simpl; [lia|].
  destruct (decide (k = k')); simpl; lia.
Qed.

Lemma length_fold_dict_set s d :
  length (fold_left (fun d kv => dict_set kv.1 kv.2 d) s d)
  <= length d + length s.
Proof.
  revert d. induction s as [|[k v] s IH]; intros d; simpl; [lia|].
  etrans; [apply IH|]. pose proof (length_dict_set k v d). simpl. lia.
Qed.

Lemma length_to_dict s : length (to_dict s) <= length s.
Proof. unfold to_dict. pose proof (length_fold_dict_set s []). simpl in *. lia. Qed.

Lemma elem_of_dict_set k v d (kv : K * V) :
  kv ∈ dict_set k v d -> kv = (k, v) \/ kv ∈ d.
Proof.
  induction d as [|[k' v'] d IH]; simpl.
  - intros ->%list_elem_of_singleton. by left.
  - destruct (decide (k = k')) as [->|Hne].
    + intros [->|Hin]%elem_of_cons; [by left | right; by right].
    + intros [->|Hin]%elem_of_cons; [right; by left|].
      destruct (IH Hin) as [->|?]; [by left | right; by right].
Qed.

(** [to_dict] invents no entry. *)
Lemma elem_of_to_dict s (kv : K * V) : kv ∈ to_dict s -> kv ∈ s.
Proof.
  unfold to_dict.
  assert (forall d, kv ∈ fold_left (fun d kv => dict_set kv.1 kv.2 d) s d ->
                    kv ∈ d \/ kv ∈ s) as H0.
  { induction s as [|[k v] s IH]; intros d; simpl; [by left|].
    intros [Hin|Hin]%IH; [|right; by right].
    apply elem_of_dict_set in Hin as [->|Hin]; [right; by left | by left]. }
  intros [Hin|Hin]%H0; [by apply elem_of_nil in Hin | done].
Qed.
End PyDictFacts.

(** The value a label gets from a Series built column by column. *)
Lemma last_value_columns {A V : Type} (key : A -> string) (val : A -> V)
      (l : list A) (a : A) :
  NoDup (map key l) -> a ∈ l ->
  last_value (key a) (map (fun x => (key x, val x)) l) = Some (val a).
Proof.
  induction l as [|x l IH]; intros Hnd Hin; [by apply elem_of_nil in Hin|].
  simpl in *. apply NoDup_cons in Hnd as [Hx Hnd].
  apply elem_of_cons in Hin as [->|Hin].
  - rewrite last_value_None; [by rewrite decide_True|].
    rewrite map_map. simpl. exact Hx.
  - by rewrite (IH Hnd Hin).
Qed.

(** An entry of such a Series comes from a column of that name. *)
Lemma last_value_from_column {A V : Type} (key : A -> string) (val : A -> V)
      (l : list A) (k : string) (w : V) :
  last_value k (map (fun x => (key x, val x)) l) = Some w ->
  exists b, b ∈ l /\ key b = k /\ w = val b.
Proof.
  induction l as [|x l IH]; simpl; [done|].
  destruct (last_value k (map (fun x => (key x, val x)) l)) as [w'|].
  - intros [= <-]. destruct (IH eq_refl) as (b & Hb & Hk & Hw).
    exists b. split; [by right|]. by split.
  - destruct (decide (k = key x)) as [->|]; [|done].
    intros [= <-]. exists x. split; [by left|]. by split.
Qed.

(** Every column has an entry. *)
Lemma last_value_is_Some {A V : Type} (key : A -> string) (val : A -> V)
      (l : list A) (a : A) :
  a ∈ l -> is_Some (last_value (key a) (map (fun x => (key x, val x)) l)).
Proof.
  induction l as [|x l IH]; intros Hin; [by apply elem_of_nil in Hin|].
  simpl. apply elem_of_cons in Hin as [->|Hin].
  - destruct (last_value _ _); [done|]. by rewrite decide_True.
  - destruct (IH Hin) as [w ->]. done.
Qed.

(** Selecting columns keeps their names distinct. *)
Lemma NoDup_map_filter {A B : Type} (f : A -> B) (P : A -> Prop)
      `{!forall x, Decision (P x)} (l : list A) :
  NoDup (map f l) -> NoDup (map f (filter P l)).
Proof.
  induction l as [|x l IH]; simpl; [done|].
  intros [Hx Hnd]%NoDup_cons. rewrite filter_cons.
  destruct (decide (P x)); simpl; [|by apply IH].
  apply NoDup_cons. split; [|by apply IH].
  intros (y & Hy & Hin)%list_elem_of_fmap.
  apply list_elem_of_filter in Hin as [_ Hin].
  apply Hx. rewrite Hy. by apply list_elem_of_fmap_2.
Qed.

(** ** Column lookup *)

Section LookupFacts.
Context {value : Type} `{!Library value}.
Implicit Types (d : DataFrame value) (c : Series value).

Lemma unique_names_eq d c c' :
  unique_names d -> c ∈ df_columns d -> c' ∈ df_columns d ->
  name c' = name c -> c' = c.
Proof.
  unfold unique_names, column_names. generalize (df_columns d) as l.
  induction l as [|x l IH]; intros Hnd Hc Hc' Hn; [by apply elem_of_nil in Hc|].
  simpl in Hnd. apply NoDup_cons in Hnd as [Hx Hnd].
  apply elem_of_cons in Hc as [->|Hc]; apply elem_of_cons in Hc' as [->|Hc'].
  - done.
  - exfalso. apply Hx. rewrite <- Hn. by apply list_elem_of_fmap_2.
  - exfalso. apply Hx. rewrite Hn. by apply list_elem_of_fmap_2.
  - by apply IH.
Qed.

Lemma filter_none {A : Type} (P : A -> Prop) `{!forall x, Decision (P x)}
      (l : list A) :
  (forall x, x ∈ l -> ~ P x) -> filter P l = [].
Proof.
  induction l as [|x l IH]; intros Hno; [done|].
  rewrite filter_cons_False by (apply Hno; left).
  apply IH. intros y Hy. apply Hno. by right.
Qed.

(** Among columns of distinct names, a name selects its column alone. *)
Lemma filter_name_unique (l : list (Series value)) c :
  NoDup (map name l) -> c ∈ l ->
  filter (fun x => name x = name c) l = [c].
Proof.
  induction l as [|x l IH]; intros Hnd Hc; [by apply elem_of_nil in Hc|].
  simpl in Hnd. apply NoDup_cons in Hnd as [Hx Hnd].
  apply elem_of_cons in Hc as [->|Hc].
  - rewrite filter_cons_True by done. f_equal.
    apply filter_none. intros y Hy Hn.
    apply Hx. rewrite <- Hn. by apply list_elem_of_fmap_2.
  - rewrite filter_cons_False; [by apply IH|].
    intros Hn. apply Hx. rewrite Hn. by apply list_elem_of_fmap_2.
Qed.

Lemma columns_named_unique d c :
  unique_names d -> c ∈ df_columns d -> columns_named d (name c) = [c].
Proof. intros Hu Hc. by apply filter_name_unique. Qed.

Lemma getitem_unique d c :
  unique_names d -> c ∈ df_columns d ->
  getitem d (name c) = Returned (OneColumn c).
Proof.
  intros Hu Hc. unfold getitem. by rewrite columns_named_unique.
Qed.

Lemma categorical_entry_unique d c :
  unique_names d -> c ∈ df_columns d ->
  categorical_entry d (name c) = Returned (categorical_info c).
Proof.
  intros Hu Hc. unfold categorical_entry. by rewrite getitem_unique.
Qed.

Lemma getitems_unique d (l : list (Series value)) :
  unique_names d -> Forall (fun c => c ∈ df_columns d) l ->
  getitems d (map name l) = Returned l.
Proof.
  intros Hu. induction l as [|c l IH]; intros Hall; simpl; [done|].
  apply Forall_cons in Hall as [Hc Hall].
  rewrite (columns_named_unique d c Hu Hc). by rewrite (IH Hall).
Qed.

Lemma filter_columns_elem d (p : dtype value -> bool) :
  Forall (fun c => c ∈ df_columns d)
         (filter (fun c => p (col_dtype c) = true) (df_columns d)).
Proof.
  apply Forall_forall. intros c Hc. by apply list_elem_of_filter in Hc as [_ ?].
Qed.

Lemma select_dtypes_nil d (p : dtype value -> bool) :
  select_dtypes p d = [] <->
  ~ exists c, c ∈ df_columns d /\ p (col_dtype c) = true.
Proof.
  unfold select_dtypes. split.
  - intros Hnil (c & Hc & Hp).
    assert (c ∈ filter (fun c => p (col_dtype c) = true) (df_columns d)) as Hin
      by by apply list_elem_of_filter.
    destruct (filter _ _); [by apply elem_of_nil in Hin | done].
  - intros Hno.
    destruct (filter _ _) as [|c l] eqn:E; [done|]. exfalso. apply Hno.
    assert (c ∈ filter (fun c => p (col_dtype c) = true) (df_columns d)) as Hin
      by (rewrite E; left).
    apply list_elem_of_filter in Hin as [Hp Hc]. by exists c.
Qed.

Lemma select_dtypes_not_nil d (p : dtype value -> bool) :
  select_dtypes p d <> [] ->
  exists c, c ∈ df_columns d /\ p (col_dtype c) = true.
Proof.
  unfold select_dtypes. intros Hne.
  destruct (filter _ _) as [|c l] eqn:E; [done|].
  assert (c ∈ filter (fun c => p (col_dtype c) = true) (df_columns d)) as Hin
    by (rewrite E; left).
  apply list_elem_of_filter in Hin as [Hp Hc]. by exists c.
Qed.
End LookupFacts.

(** ** Running the analyzer *)

Section RunFacts.
Context {value : Type} `{!Library value} {S : Type}.
Implicit Types (w : world value S) (f : callback value S) (r : results value).

Lemma bind_returned {A B : Type} (m : M value S A) (k : A -> M value S B)
      w a w' :
  m w = (Returned a, w') -> bind m k w = k a w'.
Proof. intros E. unfold bind. by rewrite E. Qed.

Lemma bind_raised {A B : Type} (m : M value S A) (k : A -> M value S B)
      w e w' :
  m w = (Raised e, w') -> bind m k w = (Raised e, w').
Proof. intros E. unfold bind. by rewrite E. Qed.

(** Each step looks at the frame and leaves everything as it is. *)
Lemma basic_info_step_run r w :
  basic_info_step r w = (Returned (basic_info (dataset w) r), w).
Proof. reflexivity. Qed.

Lemma missing_step_run r w :
  missing_step r w = (Returned (missing (dataset w) r), w).
Proof. reflexivity. Qed.

Lemma numerical_step_run r w :
  numerical_step r w = (numerical (dataset w) r, w).
Proof.
  unfold numerical_step, numerical, mbind, mret, M_bind, M_ret, bind, ret,
    self_df, lift, dataset.
  destruct (select_dtypes is_number _); [done|].
  by destruct (getitems _ _).
Qed.

Lemma categorical_loop_step_run (cat_cols : list string) r w :
  categorical_loop_step cat_cols r w
  = (categorical_loop (dataset w) cat_cols r, w).
Proof.
  revert r. induction cat_cols as [|col rest IH]; intros r; [done|].
  cbn [categorical_loop_step categorical_loop].
  unfold mbind, M_bind, bind, self_df, lift. fold (dataset w).
  destruct (categorical_entry (dataset w) col) as [info|e]; [|done].
  destruct (set_categorical col info r) as [r'|e]; [|done].
  apply IH.
Qed.

Lemma categorical_step_run r w :
  categorical_step r w = (categorical (dataset w) r, w).
Proof.
  unfold categorical_step, categorical, mbind, M_bind, bind, self_df.
  fold (dataset w).
  destruct (select_dtypes is_object_or_category (dataset w)) as [|col rest];
    [done|].
  apply categorical_loop_step_run.
Qed.

Lemma duplicates_step_run r w :
  duplicates_step r w = (Returned (duplicates (dataset w) r), w).
Proof. reflexivity. Qed.

(** Without a callback the run is the five stages on the frame as it
    is; the analyzer keeps the results only when they all return, and
    nothing else changes. *)
Lemma perform_analysis_no_callback w :
  perform_analysis None w =
  match stages (dataset w) with
  | Returned r => (Returned r, with_results r w)
  | Raised e => (Raised e, w)
  end.
Proof.
  unfold perform_analysis, stages, notify, mbind, mret, M_bind, M_ret,
    outcome_bind, outcome_ret.
  rewrite (bind_returned _ _ w tt w) by done.
  rewrite (bind_returned _ _ w _ w (basic_info_step_run _ w)).
  rewrite (bind_returned _ _ w tt w) by done.
  rewrite (bind_returned _ _ w _ w (missing_step_run _ w)).
  rewrite (bind_returned _ _ w tt w) by done.
  destruct (numerical (dataset w) (missing (dataset w) (basic_info (dataset w) [])))
    as [r3|e] eqn:E3.
  2:{ by rewrite (bind_raised _ _ w e w)
        by (rewrite numerical_step_run; by rewrite E3). }
  rewrite (bind_returned _ _ w r3 w)
    by (rewrite numerical_step_run; by rewrite E3).
  rewrite (bind_returned _ _ w tt w) by done.
  destruct (categorical (dataset w) r3) as [r4|e] eqn:E4.
  2:{ by rewrite (bind_raised _ _ w e w)
        by (rewrite categorical_step_run; by rewrite E4). }
  rewrite (bind_returned _ _ w r4 w)
    by (rewrite categorical_step_run; by rewrite E4).
  rewrite (bind_returned _ _ w tt w) by done.
  rewrite (bind_returned _ _ w _ w (duplicates_step_run _ w)).
  rewrite (bind_returned _ _ w tt w) by done.
  reflexivity.
Qed.
End RunFacts.

(** ** The stages *)

Ltac dict_simpl :=
  repeat first
    [ rewrite dict_get_set_eq
    | rewrite dict_get_set_ne by done
    | rewrite dict_has_set_eq
    | rewrite dict_has_set_ne by done ].

Section StageFacts.
Context {value : Type} `{!Library value}.
Implicit Types (d : DataFrame value) (r : results value).

Lemma numerical_returns d r :
  unique_names d ->
  exists r', numerical d r = Returned r' /\
    (forall k, k <> "numeric_summary" -> k <> "correlation_matrix" ->
               dict_get k r' = dict_get k r) /\
    ((select_dtypes is_number d = [] /\ r' = r) \/
     (select_dtypes is_number d <> [] /\
      exists cs, getitems d (select_dtypes is_number d) = Returned cs /\
        dict_get "numeric_summary" r' = Some (RTable (describe cs)) /\
        dict_get "correlation_matrix" r' = Some (RTable (corr cs)))).
Proof.
  intros Hu. unfold numerical.
  pose proof (getitems_unique d _ Hu (filter_columns_elem d is_number)) as Hcs.
  fold (select_dtypes is_number d) in Hcs.
  destruct (select_dtypes is_number d) as [|n l] eqn:E.
  - exists r. split; [done|]. split; [done|]. by left.
  - rewrite Hcs. eexists. split; [done|]. split.
    + intros k H1 H2. by dict_simpl.
    + right. split; [done|]. eexists. split; [done|]. by dict_simpl.
Qed.

(** With unique names the loop stores the info of each column itself. *)
Lemma categorical_loop_unique d (l : list (Series value)) r cs0 :
  unique_names d ->
  Forall (fun c => c ∈ df_columns d) l ->
  dict_get "categorical_summary" r = Some (RCategorical cs0) ->
  exists r', categorical_loop d (map name l) r = Returned r' /\
    dict_get "categorical_summary" r' =
      Some (RCategorical
              (fold_left (fun acc kv => dict_set kv.1 kv.2 acc)
                         (map (fun c => (name c, categorical_info c)) l) cs0)) /\
    (forall k, k <> "categorical_summary" -> dict_get k r' = dict_get k r).
Proof.
  intros Hu. revert r cs0. induction l as [|c l IH]; intros r cs0 Hall Hget; simpl.
  - by exists r.
  - apply Forall_cons in Hall as [Hc Hall].
    rewrite (categorical_entry_unique d c Hu Hc).
    unfold set_categorical. rewrite Hget.
    edestruct (IH (dict_set "categorical_summary"
                     (RCategorical (dict_set (name c) (categorical_info c) cs0)) r))
      as (r' & Hrun & Hcat & Hframe); [done | by dict_simpl |].
    exists r'. split; [done|]. split; [done|].
    intros k Hk. rewrite Hframe by done. by dict_simpl.
Qed.

Lemma categorical_returns d r :
  unique_names d ->
  exists r', categorical d r = Returned r' /\
    (forall k, k <> "categorical_summary" -> dict_get k r' = dict_get k r) /\
    ((select_dtypes is_object_or_category d = [] /\ r' = r) \/
     (select_dtypes is_object_or_category d <> [] /\
      exists cs, dict_get "categorical_summary" r' = Some (RCategorical cs))).
Proof.
  intros Hu. unfold categorical.
  destruct (select_dtypes is_object_or_category d) as [|n l] eqn:E.
  - exists r. split; [done|]. split; [done|]. by left.
  - rewrite <- E. unfold select_dtypes.
    edestruct (categorical_loop_unique d
                 (filter (fun c => is_object_or_category (col_dtype c) = true)
                         (df_columns d))
                 (dict_set "categorical_summary" (RCategorical []) r) [] Hu)
      as (r' & Hrun & Hcat & Hframe);
      [apply filter_columns_elem | by dict_simpl |].
    exists r'. split; [done|]. split.
    + intros k Hk. rewrite Hframe by done. by dict_simpl.
    + right. split; [|by eexists].
      fold (select_dtypes is_object_or_category d). by rewrite E.
Qed.

Lemma categorical_unique d r :
  unique_names d ->
  select_dtypes is_object_or_category d <> [] ->
  exists r', categorical d r = Returned r' /\
    dict_get "categorical_summary" r' =
      Some (RCategorical
              (map (fun c => (name c, categorical_info c))
                   (filter (fun c => is_object_or_category (col_dtype c) = true)
                           (df_columns d)))).
Proof.
  intros Hu Hne. unfold categorical.
  destruct (select_dtypes is_object_or_category d) as [|n l] eqn:E; [done|].
  rewrite <- E. unfold select_dtypes.
  edestruct (categorical_loop_unique d
               (filter (fun c => is_object_or_category (col_dtype c) = true)
                       (df_columns d))
               (dict_set "categorical_summary" (RCategorical []) r) [] Hu)
    as (r' & Hrun & Hcat & _);
    [apply filter_columns_elem | by dict_simpl |].
  exists r'. split; [done|]. rewrite Hcat. do 2 f_equal.
  apply (to_dict_NoDup (map (fun c => (name c, categorical_info c)) _)).
  rewrite map_map. simpl.
  unfold unique_names, column_names in Hu.
  by apply NoDup_map_filter.
Qed.
End StageFacts.

(** ** The analysis returns, and what it returns *)

Section AnalysisFacts.
Context {value : Type} `{!Library value}.
Implicit Types (d : DataFrame value) (r : results value).

Lemma analyze_stages d : analyze d = stages d.
Proof.
  unfold analyze. rewrite perform_analysis_no_callback.
  change (dataset (new_analyzer d tt)) with d.
  by destruct (stages d).
Qed.

Lemma stages_returns d :
  unique_names d -> exists r, stages d = Returned r /\ analysis_of d r.
Proof.
  intros Hnames. unfold stages.
  destruct (numerical_returns d (missing d (basic_info d [])) Hnames)
    as (r3 & -> & Hf3 & H3).
  destruct (categorical_returns d r3 Hnames) as (r4 & Hrun4 & Hf4 & H4).
  unfold mbind, mret, outcome_bind, outcome_ret. rewrite Hrun4.
  eexists. split; [done|].
  assert (forall k, k <> "numeric_summary" -> k <> "correlation_matrix" ->
                    k <> "categorical_summary" -> k <> "duplicate_rows" ->
                    dict_get k (duplicates d r4) =
                    dict_get k (missing d (basic_info d []))) as Hframe.
  { intros k ? ? ? ?. unfold duplicates. dict_simpl.
    rewrite Hf4 by done. by apply Hf3. }
  split.
  - rewrite Hframe by done. unfold missing, basic_info. by dict_simpl.
  - rewrite Hframe by done. unfold missing, basic_info. by dict_simpl.
  - rewrite Hframe by done. unfold missing, basic_info. by dict_simpl.
  - rewrite Hframe by done. unfold missing, basic_info. by dict_simpl.
  - rewrite Hframe by done. unfold missing, basic_info. by dict_simpl.
  - rewrite Hframe by done. unfold missing, basic_info. by dict_simpl.
  - unfold duplicates. by dict_simpl.
  - intros Hnil. destruct H3 as [[_ ->]|[Hne _]]; [|done].
    unfold duplicates. dict_simpl. rewrite !Hf4 by done.
    unfold missing, basic_info. by dict_simpl.
  - intros Hne. destruct H3 as [[Hnil _]|[_ (cs & Hcs & Hn & Hc)]]; [done|].
    exists cs. split; [done|]. unfold duplicates. dict_simpl.
    rewrite !Hf4 by done. done.
  - intros Hnil. destruct H4 as [[_ ->]|[Hne _]]; [|done].
    unfold duplicates. dict_simpl.
    destruct H3 as [[_ ->]|[_ (cs & _ & _ & _)]].
    + unfold missing, basic_info. by dict_simpl.
    + rewrite Hf3 by done. unfold missing, basic_info. by dict_simpl.
  - intros Hne. destruct H4 as [[Hnil _]|[_ (cs & Hcs)]]; [done|].
    exists cs. unfold duplicates. by dict_simpl.
  - intros Hu Hne.
    destruct (categorical_unique d r3 Hu Hne) as (r4' & Hrun4' & Hcat).
    rewrite Hrun4 in Hrun4'. injection Hrun4' as <-.
    unfold duplicates. by dict_simpl.
Qed.

Lemma analyze_returns d :
  unique_names d -> exists r, analyze d = Returned r /\ analysis_of d r.
Proof. rewrite analyze_stages. apply stages_returns. Qed.
End AnalysisFacts.

(** ** Counting cells *)

Section CountingFacts.
Context {value : Type} `{!Library value}.

Lemma last_value_fmap {V W : Type} (g : V -> W) (k : string)
      (s : list (string * V)) :
  last_value k (map (fun kv => (kv.1, g kv.2)) s) = g <$> last_value k s.
Proof.
  induction s as [|[k' v] s IH]; simpl; [done|].
  rewrite IH. destruct (last_value k s); simpl; [done|].
  by destruct (decide (k = k')).
Qed.

Lemma dropna_null_count (c : Series value) :
  length (dropna (cells c)) + null_count c = length (cells c).
Proof.
  unfold dropna, null_count.
  induction (cells c) as [|[v|] l IH]; [done| |].
  - rewrite filter_cons_False by (simpl; congruence). simpl. f_equal. exact IH.
  - rewrite filter_cons_True by reflexivity. simpl.
    rewrite Nat.add_succ_r. f_equal. exact IH.
Qed.

Lemma null_count_le (c : Series value) : null_count c <= length (cells c).
Proof. pose proof (dropna_null_count c). lia. Qed.

(** No row at all: zero nulls out of zero rows is not a number. *)
Lemma percent_of_none : percent_of 0 0 = nan.
Proof. reflexivity. Qed.

Lemma missing_values_entry (d : DataFrame value) (c : Series value) :
  c ∈ df_columns d ->
  exists b, b ∈ df_columns d /\ name b = name c /\
    dict_get (name c) (to_dict (isnull_sum d)) = Some (null_count b) /\
    dict_get (name c) (to_dict (series_percent (isnull_sum d) (index_len d))) =
      Some (percent_of (index_len d) (null_count b)).
Proof.
  intros Hc. rewrite !dict_get_to_dict. unfold series_percent, isnull_sum.
  rewrite (last_value_fmap (percent_of (index_len d))).
  destruct (last_value_is_Some name null_count (df_columns d) c Hc) as [k Hk].
  destruct (last_value_from_column _ _ _ _ _ Hk) as (b & Hb & Hn & ->).
  exists b. rewrite Hk. done.
Qed.
End CountingFacts.

(** ** The claims about the analysis engine *)

Section EngineClaims.
Context {value : Type} `{!Library value}.
Implicit Types (d : DataFrame value) (c : Series value).

(** C6: for every dataset (its column names are unique), the analysis
    returns, and its [columns] entry is the list of the dataset's
    column names in the order of the dataset. *)
Theorem columns_mirror_dataset_order d :
  unique_names d ->
  exists r, analyze d = Returned r /\
            dict_get "columns" r = Some (RColumns (map name (df_columns d))).
Proof.
  intros Hu. destruct (analyze_returns d Hu) as (r & Hr & Hfacts).
  exists r. split; [done|]. apply Hfacts.
Qed.

(** C4: for every dataset (its column names are unique),
    [numeric_summary] and [correlation_matrix] are keys of the result
    if and only if the dataset has a column of numeric type; without
    one, neither key is there at all. *)
Theorem numeric_keys_iff_numeric_column d :
  unique_names d ->
  exists r, analyze d = Returned r /\
    (dict_has "numeric_summary" r = true <->
     exists c, c ∈ df_columns d /\ is_number (col_dtype c) = true) /\
    (dict_has "correlation_matrix" r = true <->
     exists c, c ∈ df_columns d /\ is_number (col_dtype c) = true) /\
    ((exists c, c ∈ df_columns d /\ is_number (col_dtype c) = true) \/
     (dict_get "numeric_summary" r = None /\
      dict_get "correlation_matrix" r = None)).
Proof.
  intros Hu. destruct (analyze_returns d Hu) as (r & Hr & Hfacts).
  exists r. split; [done|].
  destruct (decide (select_dtypes is_number d = [])) as [Hnil|Hne].
  - destruct (no_numeric d r Hfacts Hnil) as [Hn Hc].
    pose proof (proj1 (select_dtypes_nil d is_number) Hnil) as Hno.
    unfold dict_has. rewrite Hn, Hc.
    repeat split; try done; try (by intros ?); by right.
  - destruct (has_numeric d r Hfacts Hne) as (cs & _ & Hn & Hc).
    assert (exists c, c ∈ df_columns d /\ is_number (col_dtype c) = true) as Hex.
    { by apply select_dtypes_not_nil. }
    unfold dict_has. rewrite Hn, Hc. repeat split; try done. by left.
Qed.

(** C10: for a numeric column of a well-formed dataset, the [count]
    of its numeric summary is the number of non-null entries: the row
    count minus the column's missing-value count, so that count plus
    missing values is the row count. *)
Theorem numeric_count_plus_missing d c :
  rectangular d -> unique_names d ->
  c ∈ df_columns d -> is_number (col_dtype c) = true ->
  exists r summary stats mv m k,
    analyze d = Returned r /\
    dict_get "numeric_summary" r = Some (RTable summary) /\
    dict_get (name c) summary = Some stats /\
    dict_get "count" stats = Some (float_of_nat k) /\
    dict_get "missing_values" r = Some (RCounts mv) /\
    dict_get (name c) mv = Some m /\
    k = index_len d - m /\ k + m = index_len d.
Proof.
  intros Hrect Hu Hc Hnum.
  destruct (analyze_returns d Hu) as (r & Hr & Hfacts).
  assert (select_dtypes is_number d <> []) as Hne.
  { intros Hnil. apply select_dtypes_nil in Hnil. apply Hnil. by exists c. }
  destruct (has_numeric d r Hfacts Hne) as (cs & Hcs & Hn & _).
  unfold select_dtypes in Hcs.
  rewrite (getitems_unique d _ Hu (filter_columns_elem d is_number)) in Hcs.
  injection Hcs as <-.
  exists r, (describe (filter (fun c => is_number (col_dtype c) = true) (df_columns d))),
    (describe_column c), (to_dict (isnull_sum d)), (null_count c),
    (length (dropna (cells c))).
  split; [done|]. split; [done|]. split.
  { unfold describe. rewrite dict_get_to_dict.
    apply last_value_columns; [|by apply list_elem_of_filter].
    by apply NoDup_map_filter. }
  split; [reflexivity|]. split; [apply Hfacts|]. split.
  { rewrite dict_get_to_dict. unfold isnull_sum.
    by apply last_value_columns. }
  pose proof (dropna_null_count c) as Hsum.
  unfold rectangular in Hrect. rewrite Forall_forall in Hrect.
  rewrite (Hrect c Hc) in Hsum. lia.
Qed.
End EngineClaims.

(** ** Sizes of the top values *)

Section TopValuesFacts.
Context {value : Type} `{!Library value}.

Lemma length_insert_by_count (e : value * nat) (l : list (value * nat)) :
  length (insert_by_count e l) = Datatypes.S (length l).
Proof.
  induction l as [|e' l IH]; simpl; [done|].
  destruct (e'.2 <? e.2)%nat; simpl; [done | by rewrite IH].
Qed.

Lemma length_sort_by_count (l : list (value * nat)) :
  length (sort_by_count l) = length l.
Proof.
  unfold sort_by_count.
  assert (forall acc, length (fold_left (fun acc e => insert_by_count e acc) l acc)
                      = length acc + length l) as H.
  { induction l as [|e l IH]; intros acc; simpl; [lia|].
    rewrite IH, length_insert_by_count. lia. }
  by rewrite H.
Qed.

Lemma length_value_counts (c : Series value) :
  length (value_counts c) =
  match col_dtype c with
  | Category cats => length cats
  | _ => nunique c
  end.
Proof.
  unfold value_counts, nunique. rewrite length_sort_by_count, length_map.
  by destruct (col_dtype c).
Qed.

Lemma length_top_values (c : Series value) :
  length (top_values (categorical_info c)) <= 10 /\
  length (top_values (categorical_info c)) <= length (value_counts c).
Proof.
  unfold categorical_info, head. simpl.
  pose proof (length_to_dict (take 10 (value_counts c))) as H.
  rewrite length_take in H. lia.
Qed.

(** An entry of a dictionary whose keys are the distinct column names *)
Lemma dict_get_columns {V : Type} (val : Series value -> V)
      (l : list (Series value)) (c : Series value) :
  NoDup (map name l) -> c ∈ l ->
  dict_get (name c) (map (fun x => (name x, val x)) l) = Some (val c).
Proof.
  intros Hnd Hc.
  rewrite <- (to_dict_NoDup (map (fun x => (name x, val x)) l)).
  - rewrite dict_get_to_dict. by apply last_value_columns.
  - by rewrite map_map.
Qed.
End TopValuesFacts.

Section EngineClaimsAmended.
Context {value : Type} `{!Library value}.
Implicit Types (d : DataFrame value) (c : Series value).

(** C1, as amended: the analysis of a rectangular dataset with unique
    column names returns, and for every column [missing_percentage] is
    the binary64 value of [missing_values[col] / row_count * 100];
    when there is no row that value is NaN, not 0, and nothing is
    raised. *)
Theorem missing_percentage_by_row_count d :
  rectangular d -> unique_names d ->
  exists r mv mp,
    analyze d = Returned r /\
    dict_get "missing_values" r = Some (RCounts mv) /\
    dict_get "missing_percentage" r = Some (RFloats mp) /\
    forall c, c ∈ df_columns d ->
      exists k,
        dict_get (name c) mv = Some k /\
        dict_get (name c) mp =
          Some (float_of_nat k / float_of_nat (index_len d) * 100)%float /\
        (index_len d = 0 -> dict_get (name c) mp = Some nan).
Proof.
  intros Hrect Hu.
  destruct (analyze_returns d Hu) as (r & Hr & Hfacts).
  exists r, (to_dict (isnull_sum d)),
    (to_dict (series_percent (isnull_sum d) (index_len d))).
  split; [done|]. split; [apply Hfacts|]. split; [apply Hfacts|].
  intros c Hc.
  destruct (missing_values_entry d c Hc) as (b & Hb & Hn & Hmv & Hmp).
  exists (null_count b). split; [done|]. split; [done|].
  intros Hzero. rewrite Hmp.
  unfold rectangular in Hrect. rewrite Forall_forall in Hrect.
  pose proof (null_count_le b) as Hle. rewrite (Hrect b Hb), Hzero in Hle.
  assert (null_count b = 0) as -> by lia.
  rewrite Hzero. by rewrite percent_of_none.
Qed.

(** C7, as amended: [categorical_summary] is there exactly when the
    dataset has a text or categorical column; for each such column
    [top_values] has at most 10 entries; for a text column it has at
    most [unique_count] entries, for a categorical column at most as
    many as the column declares categories. *)
Theorem top_values_size d :
  unique_names d ->
  exists r, analyze d = Returned r /\
    (dict_has "categorical_summary" r = true <->
     exists c, c ∈ df_columns d /\ is_object_or_category (col_dtype c) = true) /\
    forall c, c ∈ df_columns d -> is_object_or_category (col_dtype c) = true ->
      exists cs info,
        dict_get "categorical_summary" r = Some (RCategorical cs) /\
        dict_get (name c) cs = Some info /\
        unique_count info = nunique c /\
        length (top_values info) <= 10 /\
        match col_dtype c with
        | Category cats => length (top_values info) <= length cats
        | _ => length (top_values info) <= unique_count info
        end.
Proof.
  intros Hu.
  destruct (analyze_returns d Hu) as (r & Hr & Hfacts).
  exists r. split; [done|]. split.
  - unfold dict_has. split.
    + intros Hhas. apply select_dtypes_not_nil. intros Hnil.
      by rewrite (no_categorical d r Hfacts Hnil) in Hhas.
    + intros Hex.
      assert (select_dtypes is_object_or_category d <> []) as Hne.
      { intros Hnil. by apply select_dtypes_nil in Hnil. }
      destruct (has_categorical d r Hfacts Hne) as (cs & ->). done.
  - intros c Hc Hcat.
    assert (select_dtypes is_object_or_category d <> []) as Hne.
    { intros Hnil. apply select_dtypes_nil in Hnil. apply Hnil. by exists c. }
    eexists _, (categorical_info c).
    split; [exact (has_categorical_unique d r Hfacts Hu Hne)|].
    split.
    { apply dict_get_columns; [by apply NoDup_map_filter|].
      by apply list_elem_of_filter. }
    split; [done|].
    destruct (length_top_values c) as [H10 Hvc]. split; [done|].
    rewrite length_value_counts in Hvc.
    by destruct (col_dtype c).
Qed.
End EngineClaimsAmended.

(** ** Runs with a callback *)

Section CallbackFacts.
Context {value : Type} `{!Library value} {S : Type}.
Implicit Types (w : world value S) (f : callback value S) (r : results value).

Lemma observes_only_keeps_dataset f : observes_only f -> keeps_dataset f.
Proof.
  intros Hf percent message w. destruct (Hf percent message w) as [Hs Hfr].
  unfold dataset. rewrite Hs. split; [done | apply Hfr].
Qed.

(** A chain of calls of a callback that never raises returns. *)
Lemma report_progress_returns f (points : list (nat * string)) w :
  never_raises f -> (report_progress f points w).1 = Returned tt.
Proof.
  intros Hf. revert w. induction points as [|[percent message] rest IH]; intros w.
  - done.
  - cbn [report_progress]. unfold bind.
    pose proof (Hf percent message w) as Hret.
    destruct (f percent message w) as [[[]|e] w1]; cbn [fst] in Hret; [|done].
    apply IH.
Qed.

(** A chain of calls of a callback that only observes *)
Lemma report_progress_observes f (points : list (nat * string)) w :
  observes_only f ->
  self (report_progress f points w).2 = self w /\
  forall l, frames (report_progress f points w).2 l = frames w l.
Proof.
  intros Hf. revert w. induction points as [|[percent message] rest IH]; intros w.
  - done.
  - cbn [report_progress]. unfold bind.
    destruct (Hf percent message w) as [Hs Hfr].
    destruct (f percent message w) as [[[]|e] w1]; cbn [snd] in *.
    + destruct (IH w1) as [IHs IHfr]. split; [congruence|].
      intros l. by rewrite IHfr.
    + done.
Qed.

(** One checkpoint of a run: the callback is called with [w], returns
    or raises, and leaves the dataset as it was. *)
Ltac checkpoint Hk f percent w Hd w' D :=
  let C := fresh "C" in
  let e := fresh "e" in
  match goal with
  | |- context [bind (f percent ?message) _ w] =>
      pose proof (proj2 (Hk percent message w)) as D;
      destruct (f percent message w) as [[[]|e] w'] eqn:C; cbn [snd] in D;
      [ do 2 rewrite (bind_returned (f percent message) _ w tt w' C);
        try rewrite Hd in D; clear Hd
      | do 2 rewrite (bind_raised (f percent message) _ w e w' C);
        reflexivity ]
  end.

(** A run with a callback that keeps the dataset is the chain of the
    six calls of the callback; between them the steps compute the
    results of the five stages and change nothing. *)
Lemma perform_analysis_checkpoints f w :
  unique_names (dataset w) -> keeps_dataset f ->
  exists r,
    stages (dataset w) = Returned r /\
    perform_analysis (Some f) w =
    match report_progress f checkpoints w with
    | (Returned _, w') => (Returned r, with_results r w')
    | (Raised e, w') => (Raised e, w')
    end.
Proof.
  intros Hu Hk.
  destruct (stages_returns _ Hu) as (r & Hst & _). exists r. split; [done|].
  unfold stages, mbind, mret, outcome_bind, outcome_ret in Hst.
  destruct (numerical _ _) as [r3|] eqn:E3; [|done].
  destruct (categorical _ _) as [r4|] eqn:E4; [|done]. injection Hst as <-.
  unfold perform_analysis, checkpoints, notify, mbind, mret, M_bind, M_ret.
  cbn [report_progress].
  assert (dataset w = dataset w) as D0 by done.
  checkpoint Hk f 10 w D0 w1 D1.
  rewrite (bind_returned _ _ w1 _ w1 (basic_info_step_run _ w1)), D1.
  checkpoint Hk f 25 w1 D1 w2 D2.
  rewrite (bind_returned _ _ w2 _ w2 (missing_step_run _ w2)), D2.
  checkpoint Hk f 50 w2 D2 w3 D3.
  rewrite (bind_returned _ _ w3 r3 w3)
    by (rewrite numerical_step_run, D3; exact (f_equal (fun o => (o, w3)) E3)).
  checkpoint Hk f 75 w3 D3 w4 D4.
  rewrite (bind_returned _ _ w4 r4 w4)
    by (rewrite categorical_step_run, D4; exact (f_equal (fun o => (o, w4)) E4)).
  checkpoint Hk f 90 w4 D4 w5 D5.
  rewrite (bind_returned _ _ w5 _ w5 (duplicates_step_run _ w5)), D5.
  checkpoint Hk f 100 w5 D5 w6 D6.
  reflexivity.
Qed.

Lemma leaves_frames_ret {A : Type} (a : A) :
  leaves_frames (ret (value := value) (S := S) a).
Proof. by intros w. Qed.

Lemma leaves_frames_lift {A : Type} (o : outcome A) :
  leaves_frames (lift (value := value) (S := S) o).
Proof. by intros w. Qed.

Lemma leaves_frames_self_df :
  leaves_frames (self_df (value := value) (S := S)).
Proof. by intros w. Qed.

Lemma leaves_frames_set_analysis_results r :
  leaves_frames (S := S) (set_analysis_results r).
Proof. by intros w. Qed.

Lemma leaves_frames_bind {A B : Type} (m : M value S A) (k : A -> M value S B) :
  leaves_frames m -> (forall a, leaves_frames (k a)) ->
  leaves_frames (bind m k).
Proof.
  intros Hm Hk w. unfold bind. destruct (Hm w) as [Hs Hfr].
  destruct (m w) as [[a|e] w1]; cbn [snd] in *; [|done].
  destruct (Hk a w1) as [Hs1 Hfr1]. split; [congruence|].
  intros l. by rewrite Hfr1.
Qed.

Lemma leaves_frames_notify (cb : option (callback value S))
      (percent : nat) (message : string) :
  match cb with Some f => observes_only f | None => True end ->
  leaves_frames (notify cb percent message).
Proof.
  destruct cb as [f|]; simpl; [|intros _; apply leaves_frames_ret].
  intros Hf w. destruct (Hf percent message w) as [Hs Hfr].
  split; [by rewrite Hs | done].
Qed.

(** Sequencing computations that leave the frames alone *)
Ltac leaves_frames_steps :=
  unfold mbind, mret, M_bind, M_ret;
  repeat first
    [ apply leaves_frames_ret
    | apply leaves_frames_lift
    | apply leaves_frames_self_df
    | apply leaves_frames_set_analysis_results
    | apply leaves_frames_bind; [|intros ?] ].

Lemma leaves_frames_basic_info_step r : leaves_frames (S := S) (basic_info_step r).
Proof. unfold basic_info_step. leaves_frames_steps. Qed.

Lemma leaves_frames_missing_step r : leaves_frames (S := S) (missing_step r).
Proof. unfold missing_step. leaves_frames_steps. Qed.

Lemma leaves_frames_numerical_step r : leaves_frames (S := S) (numerical_step r).
Proof.
  unfold numerical_step. leaves_frames_steps.
  destruct (select_dtypes is_number _); leaves_frames_steps.
Qed.

Lemma leaves_frames_categorical_loop_step (cat_cols : list string) r :
  leaves_frames (S := S) (categorical_loop_step cat_cols r).
Proof.
  revert r. induction cat_cols as [|col rest IH]; intros r;
    cbn [categorical_loop_step]; leaves_frames_steps.
  apply IH.
Qed.

Lemma leaves_frames_categorical_step r :
  leaves_frames (S := S) (categorical_step r).
Proof.
  unfold categorical_step. leaves_frames_steps.
  destruct (select_dtypes is_object_or_category _); leaves_frames_steps.
  apply leaves_frames_categorical_loop_step.
Qed.

Lemma leaves_frames_duplicates_step r :
  leaves_frames (S := S) (duplicates_step r).
Proof. unfold duplicates_step. leaves_frames_steps. Qed.
End CallbackFacts.

(** ** The claims about the callback and about the dataset *)

Section CallbackClaims.
Context {value : Type} `{!Library value} {S : Type}.
Implicit Types (w : world value S) (f : callback value S).

(** C9: a run of the analysis leaves the dataset as it was: the
    analyzer still refers to the same frame, and that frame, like every
    other frame, holds what it held before, whether the run returns or
    raises.  This is so without a callback, and with a callback that
    itself leaves the analyzer and the frames alone. *)
Theorem perform_analysis_keeps_dataset (cb : option (callback value S)) w :
  match cb with Some f => observes_only f | None => True end ->
  df (self (perform_analysis cb w).2) = df (self w) /\
  (forall l, frames (perform_analysis cb w).2 l = frames w l) /\
  dataset (perform_analysis cb w).2 = dataset w.
Proof.
  intros Hcb.
  assert (leaves_frames (perform_analysis cb)) as Hrun.
  { unfold perform_analysis, mbind, mret, M_bind, M_ret.
    apply leaves_frames_bind; [by apply leaves_frames_notify | intros _].
    apply leaves_frames_bind; [apply leaves_frames_basic_info_step | intros r1].
    apply leaves_frames_bind; [by apply leaves_frames_notify | intros _].
    apply leaves_frames_bind; [apply leaves_frames_missing_step | intros r2].
    apply leaves_frames_bind; [by apply leaves_frames_notify | intros _].
    apply leaves_frames_bind; [apply leaves_frames_numerical_step | intros r3].
    apply leaves_frames_bind; [by apply leaves_frames_notify | intros _].
    apply leaves_frames_bind; [apply leaves_frames_categorical_step | intros r4].
    apply leaves_frames_bind; [by apply leaves_frames_notify | intros _].
    apply leaves_frames_bind; [apply leaves_frames_duplicates_step | intros r5].
    apply leaves_frames_bind; [by apply leaves_frames_notify | intros _].
    apply leaves_frames_bind;
      [apply leaves_frames_set_analysis_results | intros _].
    apply leaves_frames_ret. }
  destruct (Hrun w) as [Hs Hfr]. split; [done|]. split; [done|].
  unfold dataset. by rewrite Hs, Hfr.
Qed.

(** C2, as amended: on a dataset with unique column names, a run with
    a callback that leaves the analyzer and the frames alone is decided
    by the six calls of the callback, made in the order of the
    checkpoints, each from the state the call before left.  When all
    of them return, as they do for a callback that never raises, the
    run returns what the run without a callback returns and leaves the
    same analyzer.  When one of them raises, at whichever checkpoint,
    the run raises that exception, no later checkpoint is reported, no
    result is returned and the analyzer is as it was before the run.
    In both cases no frame has changed. *)
Theorem callback_observes_or_aborts f w :
  unique_names (dataset w) -> observes_only f ->
  exists r,
    (perform_analysis None w).1 = Returned r /\
    (never_raises f ->
     (perform_analysis (Some f) w).1 = Returned r /\
     self (perform_analysis (Some f) w).2 = self (perform_analysis None w).2) /\
    match (report_progress f checkpoints w).1 with
    | Returned _ =>
        (perform_analysis (Some f) w).1 = Returned r /\
        self (perform_analysis (Some f) w).2 = self (perform_analysis None w).2
    | Raised e =>
        (perform_analysis (Some f) w).1 = Raised e /\
        self (perform_analysis (Some f) w).2 = self w
    end /\
    (forall l, frames (perform_analysis (Some f) w).2 l = frames w l) /\
    observer (perform_analysis (Some f) w).2
    = observer (report_progress f checkpoints w).2.
Proof.
  intros Hu Hf.
  destruct (perform_analysis_checkpoints f w Hu (observes_only_keeps_dataset f Hf))
    as (r & Hst & Hrun).
  destruct (report_progress_observes f checkpoints w Hf) as [Hs Hfr].
  exists r. rewrite perform_analysis_no_callback, Hst, Hrun.
  split; [done|].
  split.
  { intros Hquiet. pose proof (report_progress_returns f checkpoints w Hquiet) as Hret.
    destruct (report_progress f checkpoints w) as [[[]|e] w'];
      cbn [fst snd with_results self frames observer] in *; [|done].
    split; [done | by rewrite Hs]. }
  destruct (report_progress f checkpoints w) as [[[]|e] w'];
    cbn [fst snd with_results self frames observer] in *.
  - split; [split; [done | by rewrite Hs]|]. done.
  - done.
Qed.
End CallbackClaims.

(** ** Duplicate rows *)

Section DuplicateFacts.
Context {value : Type} `{!Library value}.
Implicit Types (d : DataFrame value) (l seen : list (list (option value))).

Lemma bool_sum_cons (b : bool) (bs : list bool) :
  bool_sum (b :: bs) = (if b then 1 else 0) + bool_sum bs.
Proof.
  unfold bool_sum. destruct b.
  - by rewrite filter_cons_True.
  - by rewrite filter_cons_False.
Qed.

Lemma bool_sum_map {A : Type} (f : A -> bool) (s : list A) :
  bool_sum (map f s) = length (filter (fun i => f i = true) s).
Proof.
  induction s as [|x s IH]; [done|]. simpl map. rewrite bool_sum_cons, IH.
  destruct (f x) eqn:E.
  - by rewrite filter_cons_True.
  - rewrite filter_cons_False; [done | congruence].
Qed.

(** Only the set of rows seen so far matters. *)
Lemma flag_duplicates_ext seen seen' l :
  (forall x, x ∈ seen <-> x ∈ seen') ->
  flag_duplicates seen l = flag_duplicates seen' l.
Proof.
  revert seen seen'. induction l as [|r l IH]; intros seen seen' Hext; simpl; [done|].
  f_equal.
  - apply bool_decide_ext, Hext.
  - apply IH. intros x. rewrite !elem_of_cons. by rewrite Hext.
Qed.

(** The number of flagged rows does not depend on the order of the rows. *)
Lemma bool_sum_flag_duplicates_perm l l' :
  l ≡ₚ l' ->
  forall seen,
    bool_sum (flag_duplicates seen l) = bool_sum (flag_duplicates seen l').
Proof.
  induction 1 as [|x l l' _ IH|x y l|l1 l2 l3 _ IH1 _ IH2]; intros seen; simpl.
  - done.
  - rewrite !bool_sum_cons. by rewrite IH.
  - rewrite !bool_sum_cons.
    rewrite (flag_duplicates_ext (x :: y :: seen) (y :: x :: seen) l).
    2:{ intros z. rewrite !elem_of_cons. tauto. }
    destruct (decide (x = y)) as [->|Hne].
    + done.
    + assert (bool_decide (x ∈ y :: seen) = bool_decide (x ∈ seen)) as ->.
      { apply bool_decide_ext. rewrite elem_of_cons. intuition congruence. }
      assert (bool_decide (y ∈ x :: seen) = bool_decide (y ∈ seen)) as ->.
      { apply bool_decide_ext. rewrite elem_of_cons. intuition congruence. }
      lia.
  - by rewrite IH1.
Qed.

(** Each flag says whether the row equals an earlier one. *)
Lemma flag_duplicates_earlier (pre rest seen : list (list (option value))) :
  (forall x, x ∈ seen <-> x ∈ pre) ->
  flag_duplicates seen rest =
  map (equals_earlier_row (pre ++ rest)) (seq (length pre) (length rest)).
Proof.
  revert pre seen. induction rest as [|r rest IH]; intros pre seen Hseen; simpl; [done|].
  f_equal.
  - apply Bool.eq_iff_eq_true. rewrite bool_decide_eq_true, Hseen.
    unfold equals_earlier_row. rewrite existsb_exists.
    rewrite list_lookup_middle by done. split.
    + intros [j Hj]%list_elem_of_lookup_1. exists j.
      pose proof (lookup_lt_Some _ _ _ Hj) as Hlt. split.
      * apply in_seq. lia.
      * apply bool_decide_eq_true. by rewrite lookup_app_l.
    + intros (j & Hin & Hj). apply in_seq in Hin.
      apply bool_decide_eq_true in Hj. rewrite lookup_app_l in Hj by lia.
      by eapply list_elem_of_lookup_2.
  - rewrite (IH (pre ++ [r]) (r :: seen)).
    + rewrite <- app_assoc. simpl. rewrite length_app. simpl.
      by rewrite Nat.add_1_r.
    + intros x. rewrite elem_of_cons, elem_of_app, list_elem_of_singleton, Hseen.
      tauto.
Qed.

Lemma bool_sum_flag_duplicates l :
  bool_sum (flag_duplicates [] l) = count_repeated_rows l.
Proof.
  rewrite (flag_duplicates_earlier [] l []) by done. simpl.
  apply bool_sum_map.
Qed.

(** Two lists of rows that agree on which rows are equal have the same flags. *)
Lemma flag_duplicates_same_equalities l l' :
  length l = length l' ->
  (forall i j, i < length l -> j < length l ->
               (l !! j = l !! i <-> l' !! j = l' !! i)) ->
  flag_duplicates [] l = flag_duplicates [] l'.
Proof.
  intros Hlen Heq.
  rewrite (flag_duplicates_earlier [] l []), (flag_duplicates_earlier [] l' []) by done.
  simpl. rewrite <- Hlen. apply map_ext_in. intros i Hi. apply in_seq in Hi.
  unfold equals_earlier_row. apply Bool.eq_iff_eq_true.
  rewrite !existsb_exists. split.
  - intros (j & Hin & Hj). exists j. split; [done|]. apply in_seq in Hin.
    apply bool_decide_eq_true. apply bool_decide_eq_true in Hj.
    apply Heq; [lia | lia | done].
  - intros (j & Hin & Hj). exists j. split; [done|]. apply in_seq in Hin.
    apply bool_decide_eq_true. apply bool_decide_eq_true in Hj.
    apply Heq; [lia | lia | done].
Qed.

Lemma map_seq_lookup {A B : Type} (g : option A -> B) (p : list A) :
  map (fun j => g (p !! j)) (seq 0 (length p)) = map (fun x => g (Some x)) p.
Proof.
  induction p as [|x p IH]; [done|]. simpl. f_equal.
  rewrite <- seq_shift, map_map. exact IH.
Qed.

(** The rows of [df.iloc[p]] are the rows at the positions [p]. *)
Lemma rows_iloc (p : list nat) d : rows (iloc p d) = map (row d) p.
Proof.
  set (G := fun o : option nat =>
              map (fun c : Series value =>
                     default None ((fun i => default None (cells c !! i)) <$> o))
                  (df_columns d)).
  transitivity (map (fun j => G (p !! j)) (seq 0 (length p))).
  - unfold rows. simpl. apply map_ext. intros j.
    unfold row, iloc, G. simpl. rewrite map_map.
    apply map_ext. intros c. simpl. by rewrite list_lookup_fmap.
  - rewrite map_seq_lookup. done.
Qed.

Lemma rows_seq d : rows d = map (row d) (seq 0 (index_len d)).
Proof. done. Qed.

Lemma df_empty_iloc (p : list nat) d :
  length p = index_len d -> df_empty (iloc p d) = df_empty d.
Proof.
  intros Hlen. unfold df_empty, iloc. simpl. rewrite Hlen.
  by destruct (index_len d), (df_columns d).
Qed.

Lemma duplicated_iloc (p : list nat) d :
  p ≡ₚ seq 0 (index_len d) ->
  bool_sum (duplicated (iloc p d)) = bool_sum (duplicated d).
Proof.
  intros Hp. unfold duplicated.
  rewrite df_empty_iloc.
  2:{ rewrite Hp. apply length_seq. }
  destruct (df_empty d); [done|].
  rewrite rows_iloc, rows_seq.
  apply bool_sum_flag_duplicates_perm. by apply Permutation_map.
Qed.

Lemma row_eq_iff d i j :
  row d j = row d i <->
  Forall (fun c => default None (cells c !! j) = default None (cells c !! i))
         (df_columns d).
Proof.
  unfold row. induction (df_columns d) as [|c l IH]; simpl.
  - split; [by constructor | done].
  - rewrite Forall_cons, <- IH. split.
    + by intros [= -> ->].
    + by intros [-> ->].
Qed.

Lemma lookup_rows d i :
  i < index_len d -> rows d !! i = Some (row d i).
Proof.
  intros Hi. unfold rows. rewrite list_lookup_fmap.
  rewrite lookup_seq_lt by done. done.
Qed.

Lemma duplicated_columns_perm d (cols' : list (Series value)) :
  cols' ≡ₚ df_columns d ->
  duplicated (mkDataFrame (index_len d) cols') = duplicated d.
Proof.
  intros Hperm. unfold duplicated.
  assert (df_empty (mkDataFrame (index_len d) cols') = df_empty d) as ->.
  { unfold df_empty. simpl. destruct (index_len d); [done|].
    destruct cols', (df_columns d); try done.
    - by apply Permutation_nil_cons in Hperm.
    - symmetry in Hperm. by apply Permutation_nil_cons in Hperm. }
  destruct (df_empty d); [done|].
  apply flag_duplicates_same_equalities.
  - unfold rows. by rewrite !length_map.
  - unfold rows at 1 2. rewrite length_map, length_seq. intros i j Hi Hj.
    rewrite !(lookup_rows (mkDataFrame (index_len d) cols')) by done.
    rewrite !lookup_rows by done.
    split; intros [= Heq]; f_equal; apply row_eq_iff; apply row_eq_iff in Heq;
      simpl in *.
    + by rewrite <- Hperm.
    + by rewrite Hperm.
Qed.
End DuplicateFacts.

Section DuplicateClaim.
Context {value : Type} `{!Library value}.

(** Reordering rows or columns keeps the column names distinct. *)
Lemma unique_names_iloc (p : list nat) (d : DataFrame value) :
  unique_names d -> unique_names (iloc p d).
Proof.
  unfold unique_names, column_names, iloc. simpl. by rewrite map_map.
Qed.

Lemma unique_names_columns_perm (d : DataFrame value) (n : nat)
      (cols' : list (Series value)) :
  cols' ≡ₚ df_columns d -> unique_names d ->
  unique_names (mkDataFrame n cols').
Proof.
  unfold unique_names, column_names. simpl. intros Hperm Hu.
  by rewrite Hperm.
Qed.

(** C5, as amended: for every permutation of the rows and every
    permutation of the columns of a dataset (its column names are
    unique), the three analyses return the same [duplicate_rows], and
    it is the number of rows whose full tuple of values equals some
    earlier row's tuple when the dataset has a column, and 0 when it
    has none. *)
Theorem duplicate_rows_invariant (d : DataFrame value) (p : list nat)
        (cols' : list (Series value)) :
  unique_names d ->
  p ≡ₚ seq 0 (index_len d) ->
  cols' ≡ₚ df_columns d ->
  exists n r1 r2 r3,
    analyze d = Returned r1 /\
    analyze (iloc p d) = Returned r2 /\
    analyze (mkDataFrame (index_len d) cols') = Returned r3 /\
    dict_get "duplicate_rows" r1 = Some (RCount n) /\
    dict_get "duplicate_rows" r2 = Some (RCount n) /\
    dict_get "duplicate_rows" r3 = Some (RCount n) /\
    n = match df_columns d with
        | [] => 0
        | _ :: _ => count_repeated_rows (rows d)
        end.
Proof.
  intros Hu Hp Hcols.
  destruct (analyze_returns d Hu) as (r1 & Hr1 & H1).
  destruct (analyze_returns (iloc p d) (unique_names_iloc p d Hu))
    as (r2 & Hr2 & H2).
  destruct (analyze_returns (mkDataFrame (index_len d) cols')
              (unique_names_columns_perm d _ cols' Hcols Hu))
    as (r3 & Hr3 & H3).
  exists (bool_sum (duplicated d)), r1, r2, r3.
  split; [done|]. split; [done|]. split; [done|].
  split; [apply H1|]. split.
  { rewrite <- (duplicated_iloc p d Hp). apply H2. }
  split.
  { rewrite <- (duplicated_columns_perm d cols' Hcols). apply H3. }
  unfold duplicated, df_empty.
  destruct (df_columns d) as [|c l] eqn:Ecols.
  - by destruct (index_len d).
  - destruct (index_len d) eqn:En.
    + unfold rows. by rewrite En.
    + apply bool_sum_flag_duplicates.
Qed.
End DuplicateClaim.

(** ** The report renderer *)

Section RendererFacts.
Context {value : Type} `{!Library value}.

(** The first characters of a text are a beginning of it. *)
Lemma take_chars_prefix (n : nat) (s : string) :
  exists cut, s = take_chars n s +:+ cut.
Proof.
  revert n. induction s as [|c s IH]; intros n; [by exists ""|].
  cbn [take_chars]. destruct (is_continuation c).
  - destruct (IH n) as [cut Hcut]. exists cut.
    change (String c s = String c (take_chars n s +:+ cut)). by f_equal.
  - destruct n as [|n]; [by exists (String c s)|].
    destruct (IH n) as [cut Hcut]. exists cut.
    change (String c s = String c (take_chars n s +:+ cut)). by f_equal.
Qed.

(** They are [n] characters, or all of them when there are fewer. *)
Lemma py_len_take_chars (n : nat) (s : string) :
  py_len (take_chars n s) = Nat.min n (py_len s).
Proof.
  revert n. induction s as [|c s IH]; intros n; [by destruct n|].
  cbn [take_chars py_len]. destruct (is_continuation c) eqn:E.
  - cbn [py_len]. rewrite E. apply IH.
  - destruct n as [|n]; [done|]. cbn [py_len]. rewrite E, IH. lia.
Qed.

Lemma take_chars_short (n : nat) (s : string) :
  py_len s <= n -> take_chars n s = s.
Proof.
  revert n. induction s as [|c s IH]; intros n Hlen; [done|].
  cbn [take_chars py_len] in *. destruct (is_continuation c).
  - f_equal. by apply IH.
  - destruct n as [|n]; [lia|]. f_equal. apply IH. lia.
Qed.

(** The rows built from the first five items are a top-values table. *)
Lemma top_rows_table (top : list (value * nat)) :
  top_table top (top_rows top).
Proof.
  unfold top_table, top_rows. rewrite length_map, length_take.
  split; [lia|]. split; [done|].
  intros i line Hline. rewrite list_lookup_fmap in Hline.
  destruct (take 5 top !! i) as [[v n]|] eqn:E; [|done].
  injection Hline as <-. apply lookup_take_Some in E as [E _].
  exists v, n, (take_chars 30 (py_str v)). cbn [fst snd].
  split; [done|]. split; [done|].
  split; [rewrite py_len_take_chars; lia|].
  split; [apply take_chars_prefix|].
  split; [apply py_len_take_chars | apply take_chars_short].
Qed.

Lemma categorical_columns_render (items : list (string * cat_info value)) :
  renders_categorical items
    (flat_map (fun ci => categorical_column_blocks ci.1 ci.2) items).
Proof.
  induction items as [|[col info] items IH]; simpl; [constructor|].
  unfold categorical_column_blocks. simpl.
  destruct (top_values info) as [|e top] eqn:E; simpl.
  - by apply renders_plain.
  - apply renders_table; [by rewrite E | | done].
    rewrite E. apply top_rows_table.
Qed.

Lemma categorical_blocks_present (r : results value)
      (cs : list (string * cat_info value)) :
  dict_get "categorical_summary" r = Some (RCategorical cs) ->
  categorical_blocks r =
  Returned ([Spacer 1 20; Paragraph "Categorical Columns Summary" CustomHeading]
            ++ flat_map (fun ci => categorical_column_blocks ci.1 ci.2) cs).
Proof.
  intros Hget. unfold categorical_blocks, dict_has, subscript. by rewrite Hget.
Qed.

Lemma numeric_rows_describe (cs : list (Series value)) :
  exists body, numeric_rows (describe cs) = Returned body.
Proof.
  assert (Forall (fun kv : string * list (string * float) =>
                    exists c, kv.2 = describe_column c) (describe cs)) as Hall.
  { apply Forall_forall. intros kv Hin. unfold describe in Hin.
    apply elem_of_to_dict, list_elem_of_fmap in Hin as (c & -> & _).
    by exists c. }
  induction Hall as [|[col stats] items [c Hc] _ [body IH]]; simpl.
  - by exists [].
  - simpl in Hc. subst stats. rewrite IH.
    eexists. reflexivity.
Qed.

Lemma column_rows_returns (d : DataFrame value) (r : results value)
      (l : list (Series value)) :
  analysis_of d r ->
  Forall (fun c => c ∈ df_columns d) l ->
  exists body, column_rows r (map name l) = Returned body.
Proof.
  intros Hfacts. induction 1 as [|c l Hc _ [body IH]]; simpl.
  - by exists [].
  - unfold column_row, subscript.
    rewrite (has_missing_values d r Hfacts), (has_missing_percentage d r Hfacts),
      (has_dtypes d r Hfacts).
    destruct (missing_values_entry d c Hc) as (b & _ & _ & Hmv & Hmp).
    destruct (last_value_is_Some name col_dtype (df_columns d) c Hc) as [t Ht].
    unfold mbind, mret, outcome_bind, outcome_ret. simpl.
    rewrite Hmv, Hmp. rewrite dict_get_to_dict. unfold df_dtypes. rewrite Ht.
    rewrite IH. by eexists.
Qed.

(** The report of an analysis is always built: no lookup fails. *)
Lemma build_story_returns (d : DataFrame value) (r : results value)
      (source : option string) (now : string) :
  analysis_of d r ->
  exists story, build_story (mkApp source (Some r)) now = Returned story.
Proof.
  intros Hfacts. unfold build_story. simpl.
  unfold overview_blocks, column_blocks, subscript.
  rewrite (has_shape d r Hfacts), (has_memory_usage d r Hfacts),
    (has_duplicate_rows d r Hfacts), (has_columns d r Hfacts).
  unfold mbind, mret, outcome_bind, outcome_ret. simpl.
  destruct (column_rows_returns d r (df_columns d) Hfacts) as [body Hbody].
  { by apply Forall_forall. }
  unfold column_names. rewrite Hbody.
  assert (exists numeric, numeric_blocks r = Returned numeric) as [numeric ->].
  { unfold numeric_blocks, dict_has, subscript.
    destruct (decide (select_dtypes is_number d = [])) as [Hnil|Hne].
    - destruct (no_numeric d r Hfacts Hnil) as [-> _]. by eexists.
    - destruct (has_numeric d r Hfacts Hne) as (cs & _ & -> & _).
      unfold mbind, mret, outcome_bind, outcome_ret. simpl.
      destruct (numeric_rows_describe cs) as [rows ->]. by eexists. }
  assert (exists cat, categorical_blocks r = Returned cat) as [cat ->].
  { destruct (decide (select_dtypes is_object_or_category d = [])) as [Hnil|Hne].
    - unfold categorical_blocks, dict_has.
      rewrite (no_categorical d r Hfacts Hnil). by eexists.
    - destruct (has_categorical d r Hfacts Hne) as (cs & Hcs).
      rewrite (categorical_blocks_present r cs Hcs). by eexists. }
  by eexists.
Qed.

(** C8: when the results hold a categorical summary, the story ends
    with the section of the categorical columns: for each column, in
    the order of the summary, a sub-heading with the column name, a
    line with the unique-value count and, only if it has top values, a
    two-column table of at most 5 of them with their counts, each
    value cut to at most 30 characters: the cell is the beginning of
    the text of the value, 30 characters of it or all of them when
    there are fewer. *)
Theorem categorical_section_rendered (app : QuickEDAApp value) (now : string)
        (r : results value) (cs : list (string * cat_info value))
        (story : list flowable) :
  app_analysis_results app = Some r ->
  dict_get "categorical_summary" r = Some (RCategorical cs) ->
  build_story app now = Returned story ->
  exists before section,
    story = before
            ++ [Spacer 1 20; Paragraph "Categorical Columns Summary" CustomHeading]
            ++ section /\
    renders_categorical cs section.
Proof.
  intros Hres Hget. unfold build_story. rewrite Hres.
  rewrite (categorical_blocks_present r cs Hget).
  unfold mbind, mret, outcome_bind, outcome_ret.
  destruct (overview_blocks r) as [overview|e]; [|done].
  destruct (column_blocks r) as [columns|e]; [|done].
  destruct (numeric_blocks r) as [numeric|e]; [|done].
  intros [= <-].
  exists (title_blocks now (uploaded_file_path app) ++ overview ++ columns ++ numeric),
    (flat_map (fun ci => categorical_column_blocks ci.1 ci.2) cs).
  split; [|apply categorical_columns_render].
  unfold title_blocks. by rewrite <- !app_assoc.
Qed.

(** From the dataset to the document: the report of an analysis lists
    the text and categorical columns in the order of the dataset. *)
Lemma analysis_report_categorical_order (d : DataFrame value)
      (source : option string) (now : string) :
  unique_names d ->
  select_dtypes is_object_or_category d <> [] ->
  exists r story before section,
    analyze d = Returned r /\
    build_story (mkApp source (Some r)) now = Returned story /\
    story = before
            ++ [Spacer 1 20; Paragraph "Categorical Columns Summary" CustomHeading]
            ++ section /\
    renders_categorical
      (map (fun c => (name c, categorical_info c))
           (filter (fun c => is_object_or_category (col_dtype c) = true)
                   (df_columns d)))
      section.
Proof.
  intros Hu Hne.
  destruct (analyze_returns d Hu) as (r & Hr & Hfacts).
  destruct (build_story_returns d r source now Hfacts) as [story Hstory].
  pose proof (has_categorical_unique d r Hfacts Hu Hne) as Hcs.
  exists r, story.
  pose proof Hstory as Hparts. unfold build_story in Hparts. simpl in Hparts.
  rewrite (categorical_blocks_present r _ Hcs) in Hparts.
  unfold mbind, mret, outcome_bind, outcome_ret in Hparts.
  destruct (overview_blocks r) as [overview|e]; [|done].
  destruct (column_blocks r) as [columns|e]; [|done].
  destruct (numeric_blocks r) as [numeric|e]; [|done].
  injection Hparts as <-.
  eexists (title_blocks now source ++ overview ++ columns ++ numeric), _.
  split; [done|]. split; [done|].
  split; [|apply categorical_columns_render].
  unfold title_blocks. by rewrite <- !app_assoc.
Qed.
End RendererFacts.

(** ** Writing the document *)

Section SerializeClaim.
Context {value : Type} `{!Library value} `{!Reportlab}.

(** C3, as amended: a failure of the write propagates to the caller
    with its cause, and no other path is touched; the destination is
    left as it was only when the file could not be opened.  Once it
    is open, the report goes straight to the destination: a failed
    write leaves there the bytes written so far, in place of what
    the file held, and a write without failure leaves the complete
    document. *)
Theorem report_written_in_place (app : QuickEDAApp value)
        (save_path now : string) (fault : io_fault)
        (fs : gmap string string) (story : list flowable) :
  build_story app now = Returned story ->
  (forall other, other <> save_path ->
     (generate_pdf_report app save_path now fault fs).2 !! other = fs !! other) /\
  match fault with
  | NoFault =>
      generate_pdf_report app save_path now fault fs =
      (Returned tt, <[save_path := pdf_data story]> fs)
  | OpenFails cause =>
      generate_pdf_report app save_path now fault fs = (Raised cause, fs)
  | WriteFails written cause =>
      (generate_pdf_report app save_path now fault fs).1 = Raised cause /\
      (generate_pdf_report app save_path now fault fs).2 !! save_path =
        Some (str_prefix written (pdf_data story))
  end.
Proof.
  intros Hstory. unfold generate_pdf_report. rewrite Hstory.
  unfold doc_build. split.
  - intros other Hne. destruct fault; simpl; [|done|].
    + by rewrite lookup_insert_ne.
    + by rewrite lookup_insert_ne.
  - destruct fault; simpl; [done|done|]. split; [done|].
    by rewrite lookup_insert_eq.
Qed.
End SerializeClaim.

(** * The scenarios, run *)

Section Scenarios.
Import Sample.

Example scenario_A_analysis : analyze scenario_A = Returned scenario_A_results.
Proof. vm_compute. reflexivity. Qed.

Example scenario_A_report :
  build_story scenario_A_app "2024-01-01 00:00:00" = Returned scenario_A_story.
Proof. vm_compute. reflexivity. Qed.

(** Scenario C: four nulls out of ten rows are 40 percent. *)
Example scenario_C_missing :
  exists r, analyze scenario_C = Returned r /\
    dict_get "missing_values" r = Some (RCounts [("x", 4)]) /\
    dict_get "missing_percentage" r = Some (RFloats [("x", 40%float)]).
Proof. eexists. vm_compute. repeat split. Qed.

Lemma scenario_names_unique (d : DataFrame scalar) :
  bool_decide (NoDup (column_names d)) = true -> unique_names d.
Proof. intros H. by apply bool_decide_eq_true in H. Defined.

(** Thirty-one two-byte characters: the first thirty of them are kept,
    which are sixty bytes. *)
Example take_chars_counts_characters :
  let s := String.concat "" (List.repeat "é" 31) in
  String.length s = 62 /\ py_len s = 31 /\
  py_len (take_chars 30 s) = 30 /\ String.length (take_chars 30 s) = 60.
Proof. vm_compute. repeat split. Qed.

Lemma scenario_A_rectangular : rectangular scenario_A.
Proof. repeat constructor. Defined.

Lemma scenario_A_unique_names : unique_names scenario_A.
Proof. apply scenario_names_unique. vm_compute. reflexivity. Defined.

Lemma scenario_B_unique_names : unique_names scenario_B.
Proof. apply scenario_names_unique. vm_compute. reflexivity. Defined.

Lemma counting_callback_observes_only :
  observes_only (value := scalar) counting_callback.
Proof. intros percent message w. split; [reflexivity | intros l; reflexivity]. Defined.

(** Two text columns of one name: [df[col]] is a frame, its
    [value_counts()] raises, and so does the analysis. *)
Example same_name_twice_raises :
  exists e,
    analyze (mkDataFrame 1 [ mkSeries "t" Object [Some (VStr "a")];
                             mkSeries "t" Object [Some (VStr "b")] ])
    = Raised e /\
    exn_type e = "ValueError".
Proof. eexists. vm_compute. split; reflexivity. Qed.

(** A callback that changes the frame in place is not an observer: the
    rows it dropped are gone for the caller too, and the results are
    not those of the run without it. *)
Example dropping_callback_changes_dataset :
  (perform_analysis (Some dropping_callback) (new_analyzer scenario_A tt)).1
  <> (perform_analysis None (new_analyzer scenario_A tt)).1 /\
  index_len
    (dataset (perform_analysis (Some dropping_callback)
                (new_analyzer scenario_A tt)).2) = 0 /\
  index_len (dataset (new_analyzer scenario_A tt)) = 3.
Proof.
  split; [|split; reflexivity].
  vm_compute. discriminate.
Qed.
End Scenarios.

(** * The claims at concrete datasets *)

Section Instances.
Import Sample.

(** Scenario B has no row: its missing percentages are NaN, which is
    not 0. *)
Lemma missing_percentage_zero_rows_is_nan :
  index_len scenario_B = 0 /\
  exists r mp,
    analyze scenario_B = Returned r /\
    dict_get "missing_percentage" r = Some (RFloats mp) /\
    dict_get "n" mp = Some nan /\
    dict_get "t" mp = Some nan /\
    PrimFloat.eqb nan 0 = false /\
    Some nan <> Some 0%float.
Proof.
  split; [reflexivity|]. eexists _, _.
  vm_compute. repeat split. discriminate.
Qed.

Lemma missing_percentage_by_row_count_scenario_B :
  exists r mv mp,
    analyze scenario_B = Returned r /\
    dict_get "missing_values" r = Some (RCounts mv) /\
    dict_get "missing_percentage" r = Some (RFloats mp) /\
    forall c, c ∈ df_columns scenario_B ->
      exists k,
        dict_get (name c) mv = Some k /\
        dict_get (name c) mp =
          Some (float_of_nat k / float_of_nat (index_len scenario_B) * 100)%float /\
        (index_len scenario_B = 0 -> dict_get (name c) mp = Some nan).
Proof.
  apply (missing_percentage_by_row_count scenario_B).
  - repeat constructor.
  - exact scenario_B_unique_names.
Defined.

(** A progress callback that raises makes the analysis raise, where
    the analysis without callback returns. *)
Lemma raising_callback_aborts_analysis :
  exists e r,
    (perform_analysis (Some raising_callback) (new_analyzer scenario_A tt)).1
    = Raised e /\
    (perform_analysis None (new_analyzer scenario_A tt)).1 = Returned r /\
    (perform_analysis (Some raising_callback) (new_analyzer scenario_A tt)).1
    <> (perform_analysis None (new_analyzer scenario_A tt)).1.
Proof.
  eexists _, _. vm_compute. repeat split. discriminate.
Qed.

Lemma counting_callback_observes :
  exists r,
    (perform_analysis None (new_analyzer scenario_A 0)).1 = Returned r /\
    (never_raises (value := scalar) counting_callback ->
     (perform_analysis (Some counting_callback)
        (new_analyzer scenario_A 0)).1 = Returned r /\
     self (perform_analysis (Some counting_callback)
             (new_analyzer scenario_A 0)).2
     = self (perform_analysis None (new_analyzer scenario_A 0)).2) /\
    match (report_progress counting_callback checkpoints
             (new_analyzer scenario_A 0)).1 with
    | Returned _ =>
        (perform_analysis (Some counting_callback)
           (new_analyzer scenario_A 0)).1 = Returned r /\
        self (perform_analysis (Some counting_callback)
                (new_analyzer scenario_A 0)).2
        = self (perform_analysis None (new_analyzer scenario_A 0)).2
    | Raised e =>
        (perform_analysis (Some counting_callback)
           (new_analyzer scenario_A 0)).1 = Raised e /\
        self (perform_analysis (Some counting_callback)
                (new_analyzer scenario_A 0)).2
        = self (new_analyzer scenario_A 0)
    end /\
    (forall l,
       frames (perform_analysis (Some counting_callback)
                 (new_analyzer scenario_A 0)).2 l
       = frames (new_analyzer scenario_A 0) l) /\
    observer (perform_analysis (Some counting_callback)
                (new_analyzer scenario_A 0)).2
    = observer (report_progress counting_callback checkpoints
                  (new_analyzer scenario_A 0)).2.
Proof.
  apply (callback_observes_or_aborts counting_callback
           (new_analyzer scenario_A 0)).
  - exact scenario_A_unique_names.
  - exact counting_callback_observes_only.
Defined.

Lemma perform_analysis_keeps_dataset_counting :
  df (self (perform_analysis (Some counting_callback)
              (new_analyzer scenario_A 0)).2)
  = df (self (new_analyzer scenario_A 0)) /\
  (forall l,
     frames (perform_analysis (Some counting_callback)
               (new_analyzer scenario_A 0)).2 l
     = frames (new_analyzer scenario_A 0) l) /\
  dataset (perform_analysis (Some counting_callback)
             (new_analyzer scenario_A 0)).2
  = dataset (new_analyzer scenario_A 0).
Proof.
  apply (perform_analysis_keeps_dataset (Some counting_callback)
           (new_analyzer scenario_A 0)).
  exact counting_callback_observes_only.
Defined.

Lemma columns_mirror_dataset_order_scenario_A :
  exists r, analyze scenario_A = Returned r /\
            dict_get "columns" r
            = Some (RColumns (map name (df_columns scenario_A))).
Proof.
  apply (columns_mirror_dataset_order scenario_A).
  exact scenario_A_unique_names.
Defined.

Lemma numeric_keys_iff_numeric_column_scenario_A :
  exists r, analyze scenario_A = Returned r /\
    (dict_has "numeric_summary" r = true <->
     exists c, c ∈ df_columns scenario_A /\ is_number (col_dtype c) = true) /\
    (dict_has "correlation_matrix" r = true <->
     exists c, c ∈ df_columns scenario_A /\ is_number (col_dtype c) = true) /\
    ((exists c, c ∈ df_columns scenario_A /\ is_number (col_dtype c) = true) \/
     (dict_get "numeric_summary" r = None /\
      dict_get "correlation_matrix" r = None)).
Proof.
  apply (numeric_keys_iff_numeric_column scenario_A).
  exact scenario_A_unique_names.
Defined.

(** The disk is full after five bytes: the report that was at the
    destination is gone, and what is there is not the new report. *)
Lemma failed_write_leaves_partial_file :
  exists left_behind,
    (generate_pdf_report scenario_A_app "report.pdf" "2024-01-01 00:00:00"
       (WriteFails 5 (mkExn "OSError" "No space left on device")) old_disk).1
    = Raised (mkExn "OSError" "No space left on device") /\
    (generate_pdf_report scenario_A_app "report.pdf" "2024-01-01 00:00:00"
       (WriteFails 5 (mkExn "OSError" "No space left on device")) old_disk).2
      !! "report.pdf" = Some left_behind /\
    left_behind = "%PDF-" /\
    Some left_behind <> old_disk !! "report.pdf" /\
    left_behind <> pdf_data scenario_A_story.
Proof.
  exists "%PDF-". unfold generate_pdf_report. rewrite scenario_A_report.
  unfold doc_build, old_disk. simpl.
  rewrite lookup_insert_eq, lookup_singleton_eq.
  repeat split; discriminate.
Qed.

Lemma report_written_in_place_disk_full :
  (forall other, other <> "report.pdf" ->
     (generate_pdf_report scenario_A_app "report.pdf" "2024-01-01 00:00:00"
        (WriteFails 5 (mkExn "OSError" "No space left on device")) old_disk).2
       !! other = old_disk !! other) /\
  (generate_pdf_report scenario_A_app "report.pdf" "2024-01-01 00:00:00"
     (WriteFails 5 (mkExn "OSError" "No space left on device")) old_disk).1
  = Raised (mkExn "OSError" "No space left on device") /\
  (generate_pdf_report scenario_A_app "report.pdf" "2024-01-01 00:00:00"
     (WriteFails 5 (mkExn "OSError" "No space left on device")) old_disk).2
    !! "report.pdf" = Some (str_prefix 5 (pdf_data scenario_A_story)).
Proof.
  apply (report_written_in_place scenario_A_app "report.pdf"
           "2024-01-01 00:00:00"
           (WriteFails 5 (mkExn "OSError" "No space left on device"))
           old_disk scenario_A_story).
  vm_compute. reflexivity.
Defined.

(** Two rows without a column: each equals the other, and pandas
    reports no duplicate. *)
Lemma no_columns_no_duplicates :
  exists r,
    analyze no_columns = Returned r /\
    dict_get "duplicate_rows" r = Some (RCount 0) /\
    count_repeated_rows (rows no_columns) = 1 /\
    Some (RCount (value := scalar) 0)
    <> Some (RCount (count_repeated_rows (rows no_columns))).
Proof.
  eexists. vm_compute. repeat split. discriminate.
Qed.

Lemma duplicate_rows_invariant_scenario_A :
  exists n r1 r2 r3,
    analyze scenario_A = Returned r1 /\
    analyze (iloc [2; 0; 1] scenario_A) = Returned r2 /\
    analyze (mkDataFrame (index_len scenario_A)
               (rev (df_columns scenario_A))) = Returned r3 /\
    dict_get "duplicate_rows" r1 = Some (RCount n) /\
    dict_get "duplicate_rows" r2 = Some (RCount n) /\
    dict_get "duplicate_rows" r3 = Some (RCount n) /\
    n = match df_columns scenario_A with
        | [] => 0
        | _ :: _ => count_repeated_rows (rows scenario_A)
        end.
Proof.
  apply (duplicate_rows_invariant scenario_A [2; 0; 1]
           (rev (df_columns scenario_A))).
  - exact scenario_A_unique_names.
  - apply (bool_decide_unpack _). vm_compute. exact I.
  - simpl. apply perm_swap.
Defined.

(** A categorical column with one observed value out of three
    declared categories: three top values, one unique value. *)
Lemma unobserved_categories_exceed_unique_count :
  exists r cs info,
    analyze unobserved = Returned r /\
    dict_get "categorical_summary" r = Some (RCategorical cs) /\
    dict_get "size" cs = Some info /\
    unique_count info = 1 /\
    length (top_values info) = 3 /\
    ~ length (top_values info) <= unique_count info.
Proof.
  eexists _, _, _. vm_compute. repeat split. lia.
Qed.

Lemma top_values_size_scenario_A :
  exists r, analyze scenario_A = Returned r /\
    (dict_has "categorical_summary" r = true <->
     exists c, c ∈ df_columns scenario_A /\
               is_object_or_category (col_dtype c) = true) /\
    forall c, c ∈ df_columns scenario_A ->
      is_object_or_category (col_dtype c) = true ->
      exists cs info,
        dict_get "categorical_summary" r = Some (RCategorical cs) /\
        dict_get (name c) cs = Some info /\
        unique_count info = nunique c /\
        length (top_values info) <= 10 /\
        match col_dtype c with
        | Category cats => length (top_values info) <= length cats
        | _ => length (top_values info) <= unique_count info
        end.
Proof.
  apply (top_values_size scenario_A).
  apply scenario_names_unique. vm_compute. reflexivity.
Defined.

Lemma categorical_section_rendered_scenario_A :
  exists before section,
    scenario_A_story =
      before
      ++ [Spacer 1 20; Paragraph "Categorical Columns Summary" CustomHeading]
      ++ section /\
    renders_categorical scenario_A_summary section.
Proof.
  apply (categorical_section_rendered scenario_A_app "2024-01-01 00:00:00"
           scenario_A_results scenario_A_summary scenario_A_story).
  - reflexivity.
  - vm_compute. reflexivity.
  - vm_compute. reflexivity.
Defined.

Lemma numeric_count_plus_missing_scenario_C :
  exists r summary stats mv m k,
    analyze scenario_C = Returned r /\
    dict_get "numeric_summary" r = Some (RTable summary) /\
    dict_get "x" summary = Some stats /\
    dict_get "count" stats = Some (float_of_nat k) /\
    dict_get "missing_values" r = Some (RCounts mv) /\
    dict_get "x" mv = Some m /\
    k = index_len scenario_C - m /\ k + m = index_len scenario_C.
Proof.
  apply (numeric_count_plus_missing scenario_C
           (mkSeries "x" Float64
              [Some (VInt 1); None; Some (VInt 3); None; Some (VInt 5);
               None; Some (VInt 7); None; Some (VInt 9); Some (VInt 10)])).
  - repeat constructor.
  - apply scenario_names_unique. vm_compute. reflexivity.
  - left.
  - reflexivity.
Defined.
End Instances.

(** * Further properties of the analysis engine *)

Section ProgressFacts.
Context {value : Type} `{!Library value} {S : Type}.
Implicit Types (w : world value S) (f : callback value S).

(** On a dataset with unique column names, a run calls the progress
    callback at the six checkpoints 10, 25, 50, 75, 90 and 100, in this
    order and with the messages of the code, each call starting from
    what the call before left, until a call raises.  As long as the
    callback leaves the dataset as it is, whatever else it does, the
    steps between the calls change nothing: a run in which a call
    raises ends where that call ended, with its exception; a run in
    which all calls return ends where the last call ended, with the
    results of the run without a callback, which are then, and only
    then, assigned to the analyzer. *)
Theorem progress_follows_checkpoints f w :
  unique_names (dataset w) -> keeps_dataset f ->
  exists r,
    (perform_analysis None w).1 = Returned r /\
    perform_analysis (Some f) w =
    match report_progress f checkpoints w with
    | (Returned _, w') => (Returned r, with_results r w')
    | (Raised e, w') => (Raised e, w')
    end.
Proof.
  intros Hu Hk.
  destruct (perform_analysis_checkpoints f w Hu Hk) as (r & Hst & Hrun).
  exists r. rewrite perform_analysis_no_callback, Hst. by split.
Qed.
End ProgressFacts.

Section KeyFacts.
Context {value : Type} `{!Library value}.
Implicit Types (d : DataFrame value) (c : Series value).

Lemma column_series_keys {V : Type} (val : Series value -> V)
      (l : list (Series value)) :
  NoDup (map name l) ->
  to_dict (map (fun c => (name c, val c)) l) = map (fun c => (name c, val c)) l.
Proof. intros Hnd. apply to_dict_NoDup. by rewrite map_map. Qed.

Lemma describe_column_keys c : map fst (describe_column c) = describe_index.
Proof. reflexivity. Qed.

(** The per-column facts of a dataset with unique column names have
    one entry per column, in the order of the dataset: [dtypes],
    [missing_values] and [missing_percentage] have the keys of
    [columns], and [shape] counts them. *)
Theorem column_facts_keyed_by_columns d :
  unique_names d ->
  exists r dtypes missing_values missing_percentage,
    analyze d = Returned r /\
    dict_get "shape" r = Some (RShape (index_len d, length (column_names d))) /\
    dict_get "columns" r = Some (RColumns (column_names d)) /\
    dict_get "dtypes" r = Some (RDtypes dtypes) /\
    dict_get "missing_values" r = Some (RCounts missing_values) /\
    dict_get "missing_percentage" r = Some (RFloats missing_percentage) /\
    map fst dtypes = column_names d /\
    map fst missing_values = column_names d /\
    map fst missing_percentage = column_names d.
Proof.
  intros Hu. destruct (analyze_returns d Hu) as (r & Hr & Hfacts).
  exists r, (df_dtypes d), (isnull_sum d),
    (series_percent (isnull_sum d) (index_len d)).
  split; [done|].
  split; [rewrite (has_shape d r Hfacts); unfold df_shape, column_names;
          by rewrite length_map|].
  split; [apply Hfacts|].
  split.
  { rewrite (has_dtypes d r Hfacts). unfold df_dtypes.
    by rewrite column_series_keys. }
  split.
  { rewrite (has_missing_values d r Hfacts). unfold isnull_sum.
    by rewrite column_series_keys. }
  split.
  { rewrite (has_missing_percentage d r Hfacts).
    unfold series_percent, isnull_sum. rewrite map_map. simpl.
    by rewrite (column_series_keys (fun c => percent_of (index_len d) (null_count c))). }
  unfold df_dtypes, isnull_sum, series_percent, column_names.
  rewrite !map_map. done.
Qed.

(** With unique column names, [numeric_summary] has one entry per
    numeric column in the order of the dataset, each with the eight
    statistics of [describe()]; [correlation_matrix] has one row and one
    column per numeric column, in the same order. *)
Theorem numeric_tables_keyed_by_numeric_columns d :
  unique_names d ->
  select_dtypes is_number d <> [] ->
  exists r summary matrix,
    analyze d = Returned r /\
    dict_get "numeric_summary" r = Some (RTable summary) /\
    dict_get "correlation_matrix" r = Some (RTable matrix) /\
    map fst summary = select_dtypes is_number d /\
    Forall (fun kv => map fst kv.2 = describe_index) summary /\
    map fst matrix = select_dtypes is_number d /\
    Forall (fun kv => map fst kv.2 = select_dtypes is_number d) matrix.
Proof.
  intros Hu Hne. destruct (analyze_returns d Hu) as (r & Hr & Hfacts).
  destruct (has_numeric d r Hfacts Hne) as (cs & Hcs & Hn & Hc).
  unfold select_dtypes in Hcs.
  rewrite (getitems_unique d _ Hu (filter_columns_elem d is_number)) in Hcs.
  injection Hcs as <-.
  set (cs := filter (fun c => is_number (col_dtype c) = true) (df_columns d)) in *.
  assert (NoDup (map name cs)) as Hnd by by apply NoDup_map_filter.
  exists r, (describe cs), (corr cs).
  split; [done|]. split; [done|]. split; [done|].
  unfold describe, corr. rewrite !column_series_keys by done.
  rewrite !map_map. simpl. fold (select_dtypes is_number d).
  split; [done|]. split.
  { apply Forall_forall. intros kv (c & -> & _)%list_elem_of_fmap.
    apply describe_column_keys. }
  split; [done|].
  apply Forall_forall. intros kv (c & -> & _)%list_elem_of_fmap. simpl.
  rewrite (column_series_keys (fun c' => np_corr (cells c) (cells c'))) by done.
  by rewrite map_map.
Qed.

(** With unique column names, [categorical_summary] has one entry per
    text or categorical column, in the order of the dataset, and the
    entry of a column holds its number of distinct non-null values. *)
Theorem categorical_summary_keyed_by_text_columns d :
  unique_names d ->
  select_dtypes is_object_or_category d <> [] ->
  exists r summary,
    analyze d = Returned r /\
    dict_get "categorical_summary" r = Some (RCategorical summary) /\
    map fst summary = select_dtypes is_object_or_category d /\
    map (fun kv => unique_count kv.2) summary
    = map nunique (filter (fun c => is_object_or_category (col_dtype c) = true)
                          (df_columns d)).
Proof.
  intros Hu Hne. destruct (analyze_returns d Hu) as (r & Hr & Hfacts).
  eexists r, _. split; [done|].
  split; [exact (has_categorical_unique d r Hfacts Hu Hne)|].
  rewrite !map_map. done.
Qed.
End KeyFacts.

(** ** Distinct values and their counts *)

Section UniqueFacts.
Context {value : Type} `{!Library value}.
Implicit Types (l : list value) (c : Series value).

Lemma unique_fold (acc l : list value) :
  NoDup acc ->
  NoDup (fold_left (fun seen x => if decide (x ∈ seen) then seen else seen ++ [x])
                   l acc) /\
  forall x, x ∈ fold_left (fun seen x => if decide (x ∈ seen) then seen
                                         else seen ++ [x]) l acc
            <-> x ∈ acc \/ x ∈ l.
Proof.
  revert acc. induction l as [|y l IH]; intros acc Hnd; simpl.
  - split; [done|]. intros x. rewrite elem_of_nil. tauto.
  - destruct (decide (y ∈ acc)) as [Hin|Hnin].
    + destruct (IH acc Hnd) as [H1 H2]. split; [done|].
      intros x. rewrite H2, elem_of_cons. split; [tauto|].
      intros [?|[->|?]]; tauto.
    + assert (NoDup (acc ++ [y])) as Hnd'.
      { apply NoDup_app. split; [done|]. split; [|apply NoDup_singleton].
        intros x Hx ->%list_elem_of_singleton. done. }
      destruct (IH (acc ++ [y]) Hnd') as [H1 H2]. split; [done|].
      intros x. rewrite H2, elem_of_app, list_elem_of_singleton, elem_of_cons.
      tauto.
Qed.

Lemma NoDup_unique l : NoDup (unique l).
Proof. apply (unique_fold [] l). constructor. Qed.

Lemma elem_of_unique l x : x ∈ unique l <-> x ∈ l.
Proof.
  unfold unique. rewrite (proj2 (unique_fold [] l (NoDup_nil_2))).
  rewrite elem_of_nil. tauto.
Qed.

(** The number of distinct values does not depend on their order. *)
Lemma length_unique_perm l l' : l ≡ₚ l' -> length (unique l) = length (unique l').
Proof.
  intros Hperm. apply Permutation_length.
  apply NoDup_Permutation; [apply NoDup_unique | apply NoDup_unique |].
  intros x. rewrite !elem_of_unique. by rewrite Hperm.
Qed.

Lemma length_unique_le l : length (unique l) <= length l.
Proof.
  unfold unique.
  assert (forall acc,
            length (fold_left (fun seen x => if decide (x ∈ seen) then seen
                                             else seen ++ [x]) l acc)
            <= length acc + length l) as H.
  { induction l as [|y l IH]; intros acc; simpl; [lia|].
    destruct (decide (y ∈ acc)).
    - specialize (IH acc). lia.
    - specialize (IH (acc ++ [y])). rewrite length_app in IH. simpl in IH. lia. }
  apply (H []).
Qed.

Lemma unique_nil_iff l : unique l = [] <-> l = [].
Proof.
  split; [|by intros ->].
  intros Hnil. destruct l as [|x l]; [done|].
  assert (x ∈ unique (x :: l)) as Hin by (apply elem_of_unique; left).
  rewrite Hnil in Hin. by apply elem_of_nil in Hin.
Qed.

Lemma insert_by_count_perm (e : value * nat) (s : list (value * nat)) :
  insert_by_count e s ≡ₚ e :: s.
Proof.
  induction s as [|e' s IH]; simpl; [done|].
  destruct (e'.2 <? e.2)%nat; [done|].
  rewrite IH. apply perm_swap.
Qed.

Lemma sort_by_count_perm (s : list (value * nat)) : sort_by_count s ≡ₚ s.
Proof.
  unfold sort_by_count.
  assert (forall acc, fold_left (fun acc e => insert_by_count e acc) s acc
                      ≡ₚ acc ++ s) as H.
  { induction s as [|e s IH]; intros acc; simpl; [by rewrite app_nil_r|].
    rewrite IH, insert_by_count_perm. simpl. apply Permutation_middle. }
  apply (H []).
Qed.

Lemma descending_insert (e : value * nat) (s : list (value * nat)) :
  descending (map snd s) -> descending (map snd (insert_by_count e s)).
Proof.
  induction s as [|e' s IH]; simpl; [done|].
  intros [Hall Hdesc]. destruct (e'.2 <? e.2)%nat eqn:E; simpl.
  - apply Nat.ltb_lt in E. split; [|done].
    constructor; [lia|]. eapply Forall_impl; [exact Hall|]. simpl. lia.
  - apply Nat.ltb_ge in E. split; [|by apply IH].
    assert (Forall (fun m => m <= e'.2) (map snd (e :: s))) as Hes
      by by constructor.
    by rewrite <- (insert_by_count_perm e s) in Hes.
Qed.

Lemma descending_sort_by_count (s : list (value * nat)) :
  descending (map snd (sort_by_count s)).
Proof.
  unfold sort_by_count.
  assert (forall acc, descending (map snd acc) ->
            descending (map snd (fold_left (fun acc e => insert_by_count e acc) s acc)))
    as H.
  { induction s as [|e s IH]; intros acc Hacc; simpl; [done|].
    by apply IH, descending_insert. }
  by apply H.
Qed.

Lemma descending_app (l1 l2 : list nat) :
  descending (l1 ++ l2) ->
  descending l1 /\ forall a b, a ∈ l1 -> b ∈ l2 -> b <= a.
Proof.
  induction l1 as [|n l1 IH]; simpl.
  - intros _. split; [done|]. intros a b Ha. by apply elem_of_nil in Ha.
  - intros [Hall Hdesc]. destruct (IH Hdesc) as [Hd1 Hle].
    apply Forall_app in Hall as [Hall1 Hall2]. split; [done|].
    intros a b [->|Ha]%elem_of_cons Hb.
    + rewrite Forall_forall in Hall2. by apply Hall2.
    + by apply Hle.
Qed.

Lemma value_counts_perm c :
  value_counts c
  ≡ₚ map (fun v => (v, occurrences v (dropna (cells c)))) (count_keys c).
Proof. unfold value_counts, count_keys. apply sort_by_count_perm. Qed.

Lemma value_counts_keys_NoDup c :
  NoDup (count_keys c) -> NoDup (map fst (value_counts c)).
Proof.
  intros Hnd. rewrite value_counts_perm, map_map. simpl. by rewrite map_id.
Qed.
End UniqueFacts.

Section TopValuesOrder.
Context {value : Type} `{!Library value}.
Implicit Types (d : DataFrame value) (c : Series value).

Lemma count_keys_NoDup d c :
  categories_closed d -> c ∈ df_columns d -> NoDup (count_keys c).
Proof.
  intros Hclosed Hc. unfold categories_closed in Hclosed.
  rewrite Forall_forall in Hclosed. specialize (Hclosed c Hc).
  unfold count_keys. destruct (col_dtype c); try apply NoDup_unique.
  by destruct Hclosed.
Qed.

Lemma count_keys_observed d c v :
  categories_closed d -> c ∈ df_columns d ->
  Some v ∈ cells c -> v ∈ count_keys c.
Proof.
  intros Hclosed Hc Hv. unfold categories_closed in Hclosed.
  rewrite Forall_forall in Hclosed. specialize (Hclosed c Hc).
  assert (v ∈ unique (dropna (cells c))) as Hu.
  { apply elem_of_unique. unfold dropna. apply list_elem_of_omap.
    by exists (Some v). }
  unfold count_keys. destruct (col_dtype c); try done.
  destruct Hclosed as [_ Hcover]. by apply Hcover.
Qed.

(** What [top_values] holds when the keys of the counts are distinct *)
Lemma top_values_take c :
  NoDup (count_keys c) ->
  top_values (categorical_info c) = take 10 (value_counts c).
Proof.
  intros Hnd. unfold categorical_info, head. simpl. apply to_dict_NoDup.
  change (map fst (take 10 (value_counts c)))
    with (fst <$> take 10 (value_counts c)).
  rewrite fmap_take. eapply sublist_NoDup; [|apply sublist_take].
  by apply value_counts_keys_NoDup.
Qed.

(** [top_values] holds the most frequent values of a text or
    categorical column, most frequent first: the counts never go up
    along the list, no value is listed twice, each count is the number
    of non-null cells holding the value, and a value of the column that
    is not listed occurs at most as often as each of the ten listed
    ones. *)
Theorem top_values_most_frequent d c :
  unique_names d -> categories_closed d ->
  c ∈ df_columns d -> is_object_or_category (col_dtype c) = true ->
  exists r summary info,
    analyze d = Returned r /\
    dict_get "categorical_summary" r = Some (RCategorical summary) /\
    dict_get (name c) summary = Some info /\
    descending (map snd (top_values info)) /\
    NoDup (map fst (top_values info)) /\
    (forall v n, (v, n) ∈ top_values info ->
                 n = occurrences v (dropna (cells c))) /\
    (forall v, Some v ∈ cells c ->
       (v, occurrences v (dropna (cells c))) ∈ top_values info \/
       (length (top_values info) = 10 /\
        Forall (fun e => occurrences v (dropna (cells c)) <= e.2)
               (top_values info))).
Proof.
  intros Hu Hclosed Hc Hcat.
  destruct (analyze_returns d Hu) as (r & Hr & Hfacts).
  assert (select_dtypes is_object_or_category d <> []) as Hne.
  { intros Hnil. apply select_dtypes_nil in Hnil. apply Hnil. by exists c. }
  eexists r, _, (categorical_info c). split; [done|].
  split; [exact (has_categorical_unique d r Hfacts Hu Hne)|].
  split.
  { apply dict_get_columns; [by apply NoDup_map_filter|].
    by apply list_elem_of_filter. }
  pose proof (count_keys_NoDup d c Hclosed Hc) as Hnd.
  rewrite (top_values_take c Hnd).
  pose proof (descending_sort_by_count
                (map (fun v => (v, occurrences v (dropna (cells c))))
                     (count_keys c))) as Hdesc.
  fold (value_counts c) in Hdesc.
  assert (value_counts c = sort_by_count
            (map (fun v => (v, occurrences v (dropna (cells c)))) (count_keys c)))
    as Hvc by reflexivity.
  rewrite <- Hvc in Hdesc.
  rewrite <- (firstn_skipn 10 (value_counts c)) in Hdesc.
  rewrite map_app in Hdesc. apply descending_app in Hdesc as [Hd1 Hle].
  split; [done|]. split.
  { change (map fst (take 10 (value_counts c)))
      with (fst <$> take 10 (value_counts c)).
    rewrite fmap_take. eapply sublist_NoDup; [|apply sublist_take].
    by apply value_counts_keys_NoDup. }
  split.
  { intros v n Hin. apply subseteq_take in Hin.
    rewrite value_counts_perm in Hin.
    apply list_elem_of_fmap in Hin as (v' & [= -> ->] & _). done. }
  intros v Hv.
  assert ((v, occurrences v (dropna (cells c))) ∈ value_counts c) as Hin.
  { rewrite value_counts_perm.
    apply (list_elem_of_fmap_2 (fun v => (v, occurrences v (dropna (cells c))))).
    by eapply count_keys_observed. }
  rewrite <- (firstn_skipn 10 (value_counts c)) in Hin.
  apply elem_of_app in Hin as [Hin|Hin]; [by left|]. right.
  assert (10 < length (value_counts c)) as Hlen.
  { destruct (decide (10 < length (value_counts c))) as [?|Hge]; [done|].
    rewrite drop_ge in Hin by lia. by apply elem_of_nil in Hin. }
  split; [rewrite length_take; lia|].
  apply Forall_forall. intros e He.
  apply (Hle e.2 (occurrences v (dropna (cells c)))).
  - by apply (list_elem_of_fmap_2 snd).
  - by apply (list_elem_of_fmap_2 snd) in Hin.
Qed.

(** The number of distinct values of a text or categorical column is at
    most its number of non-null cells, and it is 0 exactly when every
    cell of the column is null. *)
Theorem unique_count_bounded d c :
  rectangular d -> unique_names d ->
  c ∈ df_columns d -> is_object_or_category (col_dtype c) = true ->
  exists r summary info missing_values m,
    analyze d = Returned r /\
    dict_get "categorical_summary" r = Some (RCategorical summary) /\
    dict_get (name c) summary = Some info /\
    dict_get "missing_values" r = Some (RCounts missing_values) /\
    dict_get (name c) missing_values = Some m /\
    unique_count info + m <= index_len d /\
    (unique_count info = 0 <-> m = index_len d).
Proof.
  intros Hrect Hu Hc Hcat.
  destruct (analyze_returns d Hu) as (r & Hr & Hfacts).
  assert (select_dtypes is_object_or_category d <> []) as Hne.
  { intros Hnil. apply select_dtypes_nil in Hnil. apply Hnil. by exists c. }
  eexists r, _, (categorical_info c), (to_dict (isnull_sum d)), (null_count c).
  split; [done|].
  split; [exact (has_categorical_unique d r Hfacts Hu Hne)|].
  split.
  { apply dict_get_columns; [by apply NoDup_map_filter|].
    by apply list_elem_of_filter. }
  split; [apply Hfacts|]. split.
  { rewrite dict_get_to_dict. unfold isnull_sum. by apply last_value_columns. }
  pose proof (dropna_null_count c) as Hsum.
  unfold rectangular in Hrect. rewrite Forall_forall in Hrect.
  rewrite (Hrect c Hc) in Hsum.
  pose proof (length_unique_le (dropna (cells c))) as Hle.
  simpl. unfold nunique. split; [lia|]. split.
  - intros Hzero. apply length_zero_iff_nil in Hzero.
    apply (proj1 (unique_nil_iff _)) in Hzero.
    rewrite Hzero in Hsum. simpl in Hsum. lia.
  - intros Hall. assert (length (dropna (cells c)) = 0) as Hnone by lia.
    apply length_zero_iff_nil in Hnone. by rewrite Hnone.
Qed.
End TopValuesOrder.

(** ** Duplicate and distinct rows *)

Section DistinctRows.
Context {value : Type} `{!Library value}.
Implicit Types (d : DataFrame value) (l seen : list (list (option value))).

(** Flagged rows and distinct new rows add up to all the rows. *)
Lemma flag_duplicates_count seen l :
  bool_sum (flag_duplicates seen l)
  + length (remove_dups (filter (fun x => x ∉ seen) l))
  = length l.
Proof.
  revert seen. induction l as [|r l IH]; intros seen; simpl; [done|].
  rewrite bool_sum_cons. specialize (IH (r :: seen)).
  destruct (decide (r ∈ seen)) as [Hin|Hnin].
  - rewrite bool_decide_eq_true_2 by done.
    rewrite filter_cons_False by tauto.
    rewrite (list_filter_iff (fun x => x ∉ seen) (fun x => x ∉ r :: seen)).
    + lia.
    + intros x. rewrite not_elem_of_cons. split; [|tauto].
      intros Hx. split; [|done]. by intros ->.
  - rewrite bool_decide_eq_false_2 by done.
    rewrite filter_cons_True by done.
    assert (remove_dups (r :: filter (fun x => x ∉ seen) l)
            ≡ₚ r :: remove_dups (filter (fun x => x ∉ r :: seen) l)) as Hperm.
    { apply NoDup_Permutation.
      - apply NoDup_remove_dups.
      - apply NoDup_cons. split; [|apply NoDup_remove_dups].
        rewrite elem_of_remove_dups, list_elem_of_filter, not_elem_of_cons.
        tauto.
      - intros x. rewrite elem_of_remove_dups, !elem_of_cons,
          elem_of_remove_dups, !list_elem_of_filter, not_elem_of_cons.
        destruct (decide (x = r)); tauto. }
    rewrite (Permutation_length Hperm). simpl. lia.
Qed.

Lemma filter_nothing_seen l : filter (fun x => x ∉ []) l = l.
Proof.
  induction l as [|x l IH]; [done|].
  rewrite filter_cons_True; [by rewrite IH|]. apply not_elem_of_nil.
Qed.

(** No row is flagged exactly when the rows are pairwise distinct. *)
Lemma flag_duplicates_none seen l :
  bool_sum (flag_duplicates seen l) = 0 <->
  NoDup l /\ forall x, x ∈ l -> x ∉ seen.
Proof.
  revert seen. induction l as [|r l IH]; intros seen; simpl.
  - split; [|done]. intros _. split; [constructor|].
    intros x Hx. by apply elem_of_nil in Hx.
  - rewrite bool_sum_cons, NoDup_cons. specialize (IH (r :: seen)).
    destruct (decide (r ∈ seen)) as [Hin|Hnin].
    + rewrite bool_decide_eq_true_2 by done. split; [lia|].
      intros [_ Hall]. exfalso. apply (Hall r); [left | done].
    + rewrite bool_decide_eq_false_2 by done. simpl. rewrite IH. split.
      * intros [Hnd Hall]. split; [split; [|done]|].
        -- intros Hr. apply (Hall r Hr). left.
        -- intros x [->|Hx]%elem_of_cons; [done|].
           intros Hs. apply (Hall x Hx). by right.
      * intros [[Hr Hnd] Hall]. split; [done|].
        intros x Hx [->|Hs]%elem_of_cons; [done|].
        apply (Hall x); [by right | done].
Qed.

(** For a dataset with at least one column (and unique column names),
    the duplicate rows and the distinct rows add up to the row count:
    [duplicate_rows] is 0 exactly when no two rows are equal, and it is
    below the row count as soon as there is a row. *)
Theorem duplicate_and_distinct_rows d :
  unique_names d -> df_columns d <> [] ->
  exists r n,
    analyze d = Returned r /\
    dict_get "duplicate_rows" r = Some (RCount n) /\
    n + length (remove_dups (rows d)) = index_len d /\
    (n = 0 <-> NoDup (rows d)) /\
    (0 < index_len d -> n < index_len d).
Proof.
  intros Hu Hcols. destruct (analyze_returns d Hu) as (r & Hr & Hfacts).
  exists r, (bool_sum (duplicated d)).
  split; [done|]. split; [apply Hfacts|].
  assert (length (rows d) = index_len d) as Hlen.
  { unfold rows. by rewrite length_map, length_seq. }
  assert (bool_sum (duplicated d) = bool_sum (flag_duplicates [] (rows d))) as ->.
  { unfold duplicated, df_empty.
    destruct (index_len d) eqn:En.
    - unfold rows. by rewrite En.
    - by destruct (df_columns d). }
  pose proof (flag_duplicates_count [] (rows d)) as Hcount.
  rewrite filter_nothing_seen, Hlen in Hcount.
  split; [done|]. split.
  - rewrite flag_duplicates_none. split; [tauto|].
    intros Hnd. split; [done|]. intros x _ Hx. by apply elem_of_nil in Hx.
  - intros Hpos.
    assert (0 < length (remove_dups (rows d))) as Hsome; [|lia].
    destruct (rows d) as [|x l] eqn:Erows; [simpl in Hlen; lia|].
    assert (x ∈ remove_dups (x :: l)) as Hx by (apply elem_of_remove_dups; left).
    destruct (remove_dups (x :: l)); [by apply elem_of_nil in Hx|].
    simpl. lia.
Qed.
End DistinctRows.

(** ** Datasets without rows *)

Section EmptyDataset.
Context {value : Type} `{!Library value}.
Implicit Types (d : DataFrame value) (c : Series value).

Lemma top_values_counts c (e : value * nat) :
  e ∈ top_values (categorical_info c) ->
  e.2 = occurrences e.1 (dropna (cells c)).
Proof.
  unfold categorical_info, head. simpl.
  intros Hin%elem_of_to_dict%subseteq_take.
  rewrite value_counts_perm in Hin.
  by apply list_elem_of_fmap in Hin as (v & -> & _).
Qed.

(** A dataset without rows is analysed without error: every missing
    count is 0, there is no duplicate row, the count of a numeric column
    is 0, and a text or categorical column has no distinct value, an
    empty [top_values] if it is text and only zero counts if it is
    categorical. *)
Theorem analysis_of_dataset_without_rows d :
  rectangular d -> unique_names d -> index_len d = 0 ->
  exists r missing_values,
    analyze d = Returned r /\
    dict_get "shape" r = Some (RShape (0, length (df_columns d))) /\
    dict_get "duplicate_rows" r = Some (RCount 0) /\
    dict_get "missing_values" r = Some (RCounts missing_values) /\
    forall c, c ∈ df_columns d ->
      dict_get (name c) missing_values = Some 0 /\
      (is_number (col_dtype c) = true ->
       exists summary stats,
         dict_get "numeric_summary" r = Some (RTable summary) /\
         dict_get (name c) summary = Some stats /\
         dict_get "count" stats = Some 0%float) /\
      (is_object_or_category (col_dtype c) = true ->
       exists summary info,
         dict_get "categorical_summary" r = Some (RCategorical summary) /\
         dict_get (name c) summary = Some info /\
         unique_count info = 0 /\
         Forall (fun e => e.2 = 0) (top_values info) /\
         (col_dtype c = Object -> top_values info = [])).
Proof.
  intros Hrect Hu Hzero.
  destruct (analyze_returns d Hu) as (r & Hr & Hfacts).
  exists r, (to_dict (isnull_sum d)). split; [done|].
  split; [rewrite (has_shape d r Hfacts); unfold df_shape; by rewrite Hzero|].
  split.
  { rewrite (has_duplicate_rows d r Hfacts). unfold duplicated, df_empty.
    by rewrite Hzero. }
  split; [apply Hfacts|].
  intros c Hc.
  assert (cells c = []) as Hcells.
  { unfold rectangular in Hrect. rewrite Forall_forall in Hrect.
    apply length_zero_iff_nil. by rewrite (Hrect c Hc). }
  split.
  { rewrite dict_get_to_dict. unfold isnull_sum.
    rewrite (last_value_columns name null_count) by done.
    unfold null_count. by rewrite Hcells. }
  split.
  - intros Hnum.
    assert (select_dtypes is_number d <> []) as Hne.
    { intros Hnil. apply select_dtypes_nil in Hnil. apply Hnil. by exists c. }
    destruct (has_numeric d r Hfacts Hne) as (cs & Hcs & Hn & _).
    unfold select_dtypes in Hcs.
    rewrite (getitems_unique d _ Hu (filter_columns_elem d is_number)) in Hcs.
    injection Hcs as <-.
    eexists _, (describe_column c). split; [done|]. split.
    { unfold describe. rewrite dict_get_to_dict.
      apply last_value_columns; [by apply NoDup_map_filter|].
      by apply list_elem_of_filter. }
    unfold describe_column. rewrite Hcells. reflexivity.
  - intros Hcat.
    assert (select_dtypes is_object_or_category d <> []) as Hne.
    { intros Hnil. apply select_dtypes_nil in Hnil. apply Hnil. by exists c. }
    eexists _, (categorical_info c).
    split; [exact (has_categorical_unique d r Hfacts Hu Hne)|].
    split.
    { apply dict_get_columns; [by apply NoDup_map_filter|].
      by apply list_elem_of_filter. }
    split; [simpl; unfold nunique; by rewrite Hcells|].
    split.
    { apply Forall_forall. intros e He.
      rewrite (top_values_counts c e He), Hcells. done. }
    intros Hobj. unfold categorical_info, head, value_counts. simpl.
    by rewrite Hobj, Hcells.
Qed.
End EmptyDataset.

(** ** The order of the rows *)

Section RowOrder.
Context {value : Type} `{!Library value}.
Implicit Types (d : DataFrame value) (c : Series value) (p : list nat).

Lemma cells_at_positions (l : list (option value)) p :
  p ≡ₚ seq 0 (length l) ->
  map (fun i => default None (l !! i)) p ≡ₚ l.
Proof.
  intros Hp. rewrite (Permutation_map _ Hp).
  rewrite (map_seq_lookup (default None) l). simpl. by rewrite map_id.
Qed.

Lemma null_count_at_positions c p :
  p ≡ₚ seq 0 (length (cells c)) ->
  null_count (mkSeries (name c) (col_dtype c)
                (map (fun i => default None (cells c !! i)) p))
  = null_count c.
Proof.
  intros Hp. unfold null_count. simpl.
  by rewrite (cells_at_positions (cells c) p Hp).
Qed.

Lemma nunique_at_positions c p :
  p ≡ₚ seq 0 (length (cells c)) ->
  nunique (mkSeries (name c) (col_dtype c)
             (map (fun i => default None (cells c !! i)) p))
  = nunique c.
Proof.
  intros Hp. unfold nunique, dropna. simpl. apply length_unique_perm.
  by rewrite (cells_at_positions (cells c) p Hp).
Qed.

(** Selecting columns of [df.iloc[p]] by type selects the same columns. *)
Lemma filter_iloc {B : Type} (h : Series value -> B)
      (P : dtype value -> bool) d p :
  (forall c, c ∈ df_columns d ->
     h (mkSeries (name c) (col_dtype c)
          (map (fun i => default None (cells c !! i)) p)) = h c) ->
  map h (filter (fun c => P (col_dtype c) = true) (df_columns (iloc p d)))
  = map h (filter (fun c => P (col_dtype c) = true) (df_columns d)).
Proof.
  unfold iloc. simpl. induction (df_columns d) as [|c l IH]; intros Hh; [done|].
  simpl. rewrite !filter_cons. simpl.
  destruct (decide (P (col_dtype c) = true)); simpl.
  - rewrite Hh by left. f_equal. apply IH. intros c' Hc'. apply Hh. by right.
  - apply IH. intros c' Hc'. apply Hh. by right.
Qed.

Lemma select_dtypes_iloc (P : dtype value -> bool) d p :
  select_dtypes P (iloc p d) = select_dtypes P d.
Proof. unfold select_dtypes. by apply filter_iloc. Qed.

Lemma column_names_iloc d p : column_names (iloc p d) = column_names d.
Proof. unfold column_names, iloc. simpl. by rewrite map_map. Qed.

Lemma isnull_sum_iloc d p :
  rectangular d -> p ≡ₚ seq 0 (index_len d) ->
  isnull_sum (iloc p d) = isnull_sum d.
Proof.
  intros Hrect Hp. unfold isnull_sum, iloc. simpl. rewrite map_map.
  apply map_ext_in. intros c Hc%list_elem_of_In. simpl. f_equal.
  apply null_count_at_positions.
  unfold rectangular in Hrect. rewrite Forall_forall in Hrect.
  by rewrite (Hrect c Hc).
Qed.

(** Reordering the rows of a rectangular dataset with unique column
    names changes none of [shape], [columns], [dtypes],
    [missing_values], [missing_percentage] and [duplicate_rows], nor
    which summaries are present, nor the number of distinct values of
    any text or categorical column. *)
Theorem row_order_irrelevant d p :
  rectangular d -> unique_names d -> p ≡ₚ seq 0 (index_len d) ->
  exists r r',
    analyze d = Returned r /\
    analyze (iloc p d) = Returned r' /\
    Forall (fun k => dict_get k r' = dict_get k r)
           ["shape"; "columns"; "dtypes"; "missing_values";
            "missing_percentage"; "duplicate_rows"] /\
    dict_has "numeric_summary" r' = dict_has "numeric_summary" r /\
    dict_has "categorical_summary" r' = dict_has "categorical_summary" r /\
    (forall summary summary',
       dict_get "categorical_summary" r = Some (RCategorical summary) ->
       dict_get "categorical_summary" r' = Some (RCategorical summary') ->
       map (fun kv => (kv.1, unique_count kv.2)) summary'
       = map (fun kv => (kv.1, unique_count kv.2)) summary).
Proof.
  intros Hrect Hu Hp.
  pose proof (unique_names_iloc p d Hu) as Hu'.
  destruct (analyze_returns d Hu) as (r & Hr & H).
  destruct (analyze_returns (iloc p d) Hu') as (r' & Hr' & H').
  exists r, r'. split; [done|]. split; [done|].
  assert (length p = index_len d) as Hlen by (rewrite Hp; apply length_seq).
  assert (forall c, c ∈ df_columns d -> p ≡ₚ seq 0 (length (cells c))) as Hpc.
  { intros c Hc. unfold rectangular in Hrect. rewrite Forall_forall in Hrect.
    by rewrite (Hrect c Hc). }
  split.
  { repeat constructor.
    - rewrite (has_shape _ _ H'), (has_shape _ _ H). unfold df_shape, iloc. simpl.
      by rewrite Hlen, length_map.
    - rewrite (has_columns _ _ H'), (has_columns _ _ H).
      by rewrite column_names_iloc.
    - rewrite (has_dtypes _ _ H'), (has_dtypes _ _ H). unfold df_dtypes, iloc.
      simpl. by rewrite map_map.
    - rewrite (has_missing_values _ _ H'), (has_missing_values _ _ H).
      by rewrite isnull_sum_iloc.
    - rewrite (has_missing_percentage _ _ H'), (has_missing_percentage _ _ H).
      rewrite isnull_sum_iloc by done. simpl. by rewrite Hlen.
    - rewrite (has_duplicate_rows _ _ H'), (has_duplicate_rows _ _ H).
      by rewrite duplicated_iloc. }
  split.
  { unfold dict_has.
    destruct (decide (select_dtypes is_number d = [])) as [Hnil|Hne].
    - destruct (no_numeric _ _ H Hnil) as [-> _].
      rewrite <- (select_dtypes_iloc is_number d p) in Hnil.
      by destruct (no_numeric _ _ H' Hnil) as [-> _].
    - destruct (has_numeric _ _ H Hne) as (cs & _ & -> & _).
      rewrite <- (select_dtypes_iloc is_number d p) in Hne.
      by destruct (has_numeric _ _ H' Hne) as (cs' & _ & -> & _). }
  split.
  { unfold dict_has.
    destruct (decide (select_dtypes is_object_or_category d = [])) as [Hnil|Hne].
    - rewrite (no_categorical _ _ H Hnil).
      rewrite <- (select_dtypes_iloc is_object_or_category d p) in Hnil.
      by rewrite (no_categorical _ _ H' Hnil).
    - destruct (has_categorical _ _ H Hne) as (cs & ->).
      rewrite <- (select_dtypes_iloc is_object_or_category d p) in Hne.
      by destruct (has_categorical _ _ H' Hne) as (cs' & ->). }
  intros summary summary' Hs Hs'.
  assert (select_dtypes is_object_or_category d <> []) as Hne.
  { intros Hnil. by rewrite (no_categorical _ _ H Hnil) in Hs. }
  rewrite (has_categorical_unique _ _ H Hu Hne) in Hs. injection Hs as <-.
  rewrite <- (select_dtypes_iloc is_object_or_category d p) in Hne.
  rewrite (has_categorical_unique _ _ H' Hu' Hne) in Hs'. injection Hs' as <-.
  rewrite !map_map. simpl.
  apply (filter_iloc (fun c => (name c, nunique c))).
  intros c Hc. simpl. f_equal. by apply nunique_at_positions, Hpc.
Qed.
End RowOrder.

(** * Further properties of the report *)

Section StoryParts.
Context {value : Type} `{!Library value}.
Implicit Types (r : results value) (story : list flowable).

(** A story is the title, then the blocks of the four sections. *)
Lemma build_story_parts (app : QuickEDAApp value) (now : string) r story :
  app_analysis_results app = Some r ->
  build_story app now = Returned story ->
  exists overview columns numeric categorical,
    overview_blocks r = Returned overview /\
    column_blocks r = Returned columns /\
    numeric_blocks r = Returned numeric /\
    categorical_blocks r = Returned categorical /\
    story = title_blocks now (uploaded_file_path app)
            ++ overview ++ columns ++ numeric ++ categorical.
Proof.
  intros Hres. unfold build_story. rewrite Hres.
  unfold mbind, mret, outcome_bind, outcome_ret.
  destruct (overview_blocks r) as [overview|e]; [|done].
  destruct (column_blocks r) as [columns|e]; [|done].
  destruct (numeric_blocks r) as [numeric|e]; [|done].
  destruct (categorical_blocks r) as [categorical|e]; [|done].
  intros [= <-]. by exists overview, columns, numeric, categorical.
Qed.

Lemma overview_blocks_inv r blocks :
  overview_blocks r = Returned blocks ->
  exists shape mem dup,
    dict_get "shape" r = Some (RShape shape) /\
    dict_get "memory_usage" r = Some (RBytes mem) /\
    dict_get "duplicate_rows" r = Some (RCount dup) /\
    blocks =
      [Paragraph "Dataset Overview" CustomHeading;
       Table [ ["Metric"; "Value"];
               ["Number of Rows"; format_thousands shape.1];
               ["Number of Columns"; str_nat shape.2];
               ["Memory Usage";
                format_fixed 2 (float_of_Z mem / 1024 / 1024)%float +:+ " MB"];
               ["Duplicate Rows"; format_thousands dup] ]
             OverviewStyle;
       Spacer 1 20].
Proof.
  unfold overview_blocks, subscript, mbind, mret, outcome_bind, outcome_ret.
  destruct (dict_get "shape" r) as [[]|]; simpl; try done.
  destruct (dict_get "memory_usage" r) as [[]|]; simpl; try done.
  destruct (dict_get "duplicate_rows" r) as [[]|]; simpl; try done.
  intros [= <-]. by eexists _, _, _.
Qed.

Lemma numeric_rows_length (items : list (string * list (string * float)))
      (body : list (list string)) :
  numeric_rows items = Returned body ->
  length body = length items /\
  Forall (fun line => length line = 9) body /\
  map (fun line => default "" (line !! 0)) body = map fst items.
Proof.
  revert body. induction items as [|[col stats] items IH]; intros body; simpl.
  - by intros [= <-].
  - unfold mbind, mret, outcome_bind, outcome_ret.
    destruct (numeric_row col stats) as [x|e] eqn:Ex; [|done].
    destruct (numeric_rows items) as [xs|e]; [|done].
    intros [= <-]. destruct (IH xs eq_refl) as (Hlen & Hall & Hfirst).
    assert (length x = 9 /\ default "" (x !! 0) = col) as [Hx9 Hx0].
    { revert Ex. unfold numeric_row, subscript, mbind, mret, outcome_bind,
        outcome_ret.
      repeat (match goal with
              | |- context [dict_get ?k stats] =>
                  destruct (dict_get k stats); simpl; [|done]
              end).
      by intros [= <-]. }
    simpl. split; [by rewrite Hlen|]. split; [by constructor|].
    by rewrite Hx0, Hfirst.
Qed.

Lemma numeric_blocks_inv r blocks :
  numeric_blocks r = Returned blocks ->
  (dict_has "numeric_summary" r = false /\ blocks = []) \/
  (dict_has "numeric_summary" r = true /\
   exists items body,
     dict_get "numeric_summary" r = Some (RTable items) /\
     numeric_rows items = Returned body /\
     blocks =
       [PageBreak;
        Paragraph "Numerical Columns Summary" CustomHeading;
        Table (["Column"; "Count"; "Mean"; "Std"; "Min"; "25%"; "50%"; "75%"; "Max"]
                 :: body) NumericStyle]).
Proof.
  unfold numeric_blocks, dict_has, subscript, mbind, mret, outcome_bind,
    outcome_ret.
  destruct (dict_get "numeric_summary" r) as [v|]; [|intros [= <-]; by left].
  destruct v; simpl; try done.
  destruct (numeric_rows d) as [body|e] eqn:E; [|done].
  intros [= <-]. right. split; [done|]. by exists d, body.
Qed.

Lemma categorical_blocks_inv r blocks :
  categorical_blocks r = Returned blocks ->
  (dict_has "categorical_summary" r = false /\ blocks = []) \/
  (dict_has "categorical_summary" r = true /\
   exists items,
     dict_get "categorical_summary" r = Some (RCategorical items) /\
     blocks =
       [Spacer 1 20; Paragraph "Categorical Columns Summary" CustomHeading]
       ++ flat_map (fun ci => categorical_column_blocks ci.1 ci.2) items).
Proof.
  unfold categorical_blocks, dict_has, subscript, mbind, mret, outcome_bind,
    outcome_ret.
  destruct (dict_get "categorical_summary" r) as [v|]; [|intros [= <-]; by left].
  destruct v; simpl; try done.
  intros [= <-]. right. split; [done|]. by eexists.
Qed.

Lemma column_blocks_inv r blocks :
  column_blocks r = Returned blocks ->
  exists cols body,
    dict_get "columns" r = Some (RColumns cols) /\
    column_rows r cols = Returned body /\
    blocks =
      [Paragraph "Column Information" CustomHeading;
       Table (["Column Name"; "Data Type"; "Missing Values"; "Missing %"] :: body)
             ColumnStyle].
Proof.
  unfold column_blocks, subscript, mbind, mret, outcome_bind, outcome_ret.
  destruct (dict_get "columns" r) as [[]|]; simpl; try done.
  destruct (column_rows r names) as [body|e] eqn:E; [|done].
  intros [= <-]. by eexists _, _.
Qed.
End StoryParts.

(** ** Counts are read back from the report *)

Section CountFormat.






End CountFormat.

Section ReportOfAnalysis.
Context {value : Type} `{!Library value}.
Implicit Types (d : DataFrame value) (r : results value).

End ReportOfAnalysis.

Section ReportTables.
Context {value : Type} `{!Library value}.
Implicit Types (d : DataFrame value) (r : results value).



Lemma length_filter_bool {A : Type} (f : A -> bool) (l : list A) :
  length (filter (fun b => f b = true) l) = length (List.filter f l).
Proof.
  induction l as [|x l IH]; [done|]. simpl. rewrite filter_cons.
  destruct (f x) eqn:E.
  - rewrite decide_True by done. simpl. by rewrite IH.
  - rewrite decide_False by congruence. done.
Qed.

Lemma tables_of_categorical_columns (items : list (string * cat_info value)) :
  length (List.filter is_table
            (flat_map (fun ci => categorical_column_blocks ci.1 ci.2) items))
  = printed_top_tables items /\
  List.filter is_page_break
    (flat_map (fun ci => categorical_column_blocks ci.1 ci.2) items) = [].
Proof.
  unfold printed_top_tables.
  induction items as [|[col info] items [IH1 IH2]]; [done|].
  simpl. rewrite !List.filter_app, length_app, IH1, IH2.
  destruct (top_values info) as [|e top] eqn:E; simpl.
  - by rewrite filter_cons_False by (simpl; rewrite E; tauto).
  - by rewrite filter_cons_True by (simpl; by rewrite E).
Qed.

(** A report has a table for the overview and one for the columns, one
    more if there is a numeric summary, and one per categorical entry
    that has top values; its only page break comes before the numeric
    summary. *)
Theorem report_tables_and_page_breaks (app : QuickEDAApp value) (now : string)
        r (story : list flowable) :
  app_analysis_results app = Some r ->
  build_story app now = Returned story ->
  length (filter (fun b => is_table b = true) story)
  = 2 + (if dict_has "numeric_summary" r then 1 else 0)
      + match dict_get "categorical_summary" r with
        | Some (RCategorical summary) => printed_top_tables summary
        | _ => 0
        end /\
  length (filter (fun b => is_page_break b = true) story)
  = (if dict_has "numeric_summary" r then 1 else 0).
Proof.
  intros Hres Hstory. rewrite !length_filter_bool.
  destruct (build_story_parts app now r story Hres Hstory)
    as (overview & columns & numeric & categorical & Ho & Hc & Hn & Hcat & ->).
  destruct (overview_blocks_inv r overview Ho) as (? & ? & ? & _ & _ & _ & ->).
  destruct (column_blocks_inv r columns Hc) as (? & ? & _ & _ & ->).
  rewrite !List.filter_app, !length_app.
  assert (List.filter is_table (title_blocks now (uploaded_file_path app)) = []
          /\ List.filter is_page_break
               (title_blocks now (uploaded_file_path app)) = []) as [-> ->].
  { unfold title_blocks.
    destruct (uploaded_file_path app) as [path|]; [|done].
    by destruct (decide (path = "")). }
  destruct (numeric_blocks_inv r numeric Hn)
    as [[-> ->]|[-> (items & body & _ & _ & ->)]];
    destruct (categorical_blocks_inv r categorical Hcat)
      as [[Hno ->]|[_ (summary & Hsum & ->)]]; simpl.
  - unfold dict_has in Hno.
    by destruct (dict_get "categorical_summary" r).
  - rewrite Hsum.
    destruct (tables_of_categorical_columns summary) as [-> ->]. done.
  - unfold dict_has in Hno.
    by destruct (dict_get "categorical_summary" r).
  - rewrite Hsum.
    destruct (tables_of_categorical_columns summary) as [-> ->]. done.
Qed.

End ReportTables.

(** ** The name of the source file *)

Section SourceFile.

Lemma append_cons (x : ascii) (a b : string) :
  String x a +:+ b = String x (a +:+ b).
Proof. reflexivity. Qed.

Lemma append_empty_l (a : string) : "" +:+ a = a.
Proof. reflexivity. Qed.

Lemma append_assoc (a b c : string) : (a +:+ b) +:+ c = a +:+ (b +:+ c).
Proof.
  induction a as [|x a IH]; [done|].
  rewrite !append_cons. f_equal. exact IH.
Qed.

Lemma append_empty_r (a : string) : a +:+ "" = a.
Proof.
  induction a as [|x a IH]; [done|]. rewrite append_cons. f_equal. exact IH.
Qed.

Lemma chars_append (a b : string) :
  list_ascii_of_string (a +:+ b)
  = list_ascii_of_string a ++ list_ascii_of_string b.
Proof.
  induction a as [|x a IH]; [done|]. rewrite append_cons. simpl.
  f_equal. exact IH.
Qed.

Lemma basename_from_split (s pre mid : string) :
  "/"%char ∉ list_ascii_of_string mid ->
  (pre = "" \/ exists d, pre = d +:+ "/") ->
  exists dir,
    pre +:+ mid +:+ s = dir +:+ basename_from (mid +:+ s) s /\
    ("/"%char ∉ list_ascii_of_string (basename_from (mid +:+ s) s)) /\
    (dir = "" \/ exists d, dir = d +:+ "/").
Proof.
  revert pre mid. induction s as [|c s IH]; intros pre mid Hmid Hpre.
  - exists pre. simpl. rewrite append_empty_r. done.
  - simpl. destruct (Ascii.eqb c "/"%char) eqn:E.
    + apply Ascii.eqb_eq in E as ->.
      destruct (IH (pre +:+ mid +:+ "/") "") as (dir & Hsplit & Hno & Hdir).
      { simpl. apply not_elem_of_nil. }
      { right. exists (pre +:+ mid). by rewrite append_assoc. }
      rewrite !append_empty_l in Hsplit, Hno.
      exists dir. split; [|done].
      rewrite <- Hsplit. rewrite !append_assoc. done.
    + destruct (IH pre (mid +:+ String c "")) as (dir & Hsplit & Hno & Hdir).
      { rewrite chars_append. simpl. rewrite elem_of_app, list_elem_of_singleton.
        intros [?|Hc]; [done|]. subst c. by rewrite Ascii.eqb_refl in E. }
      { done. }
      rewrite !append_assoc, !append_cons, !append_empty_l in Hsplit, Hno.
      exists dir. done.
Qed.

(** [basename] keeps what follows the last separator of a path. *)
Lemma basename_split (p : string) :
  exists dir,
    p = dir +:+ basename p /\
    ("/"%char ∉ list_ascii_of_string (basename p)) /\
    (dir = "" \/ exists d, dir = d +:+ "/").
Proof.
  destruct (basename_from_split p "" "") as (dir & Hsplit & Hno & Hdir).
  - simpl. apply not_elem_of_nil.
  - by left.
  - exists dir. done.
Qed.
End SourceFile.

Section SourceFileInReport.
Context {value : Type} `{!Library value}.

(** The report names its source file without the directories: for an
    uploaded path that is not empty, the line "Source file:" shows what
    follows the last separator of the path; without an uploaded path,
    or with an empty one, the report has no such line and goes on with
    the overview. *)
Theorem report_names_source_file (app : QuickEDAApp value) (now : string)
        (r : results value) (story : list flowable) :
  app_analysis_results app = Some r ->
  build_story app now = Returned story ->
  match uploaded_file_path app with
  | Some path =>
      if decide (path = "") then
        story !! 3 = Some (Spacer 1 20) /\
        story !! 4 = Some (Paragraph "Dataset Overview" CustomHeading)
      else
        exists dir file,
          path = dir +:+ file /\
          ("/"%char ∉ list_ascii_of_string file) /\
          (dir = "" \/ exists d, dir = d +:+ "/") /\
          story !! 3 = Some (Paragraph ("Source file: " +:+ file) Normal) /\
          story !! 4 = Some (Spacer 1 20)
  | None =>
      story !! 3 = Some (Spacer 1 20) /\
      story !! 4 = Some (Paragraph "Dataset Overview" CustomHeading)
  end.
Proof.
  intros Hres Hstory.
  destruct (build_story_parts app now r story Hres Hstory)
    as (overview & columns & numeric & categorical & Ho & _ & _ & _ & ->).
  destruct (overview_blocks_inv r overview Ho) as (? & ? & ? & _ & _ & _ & ->).
  unfold title_blocks. destruct (uploaded_file_path app) as [path|]; [|done].
  destruct (decide (path = "")) as [->|Hpath]; [done|].
  destruct (basename_split path) as (dir & Hsplit & Hno & Hdir).
  by exists dir, (basename path).
Qed.
End SourceFileInReport.

(** * Properties of the application window *)

Section ApplicationFacts.
Context {value : Type} `{!Library value} `{!Desktop value} `{!Reportlab}.
Implicit Types (a : Application value).

(** The walk of the upload progress bar ends at 1 and changes nothing
    else. *)
Lemma upload_progress_loop a (l : list nat) :
  let a' := fold_left
              (fun a i =>
                 with_widgets a
                   (set_value upload_progress (float_of_nat i / 100)%float))
              l a in
  core a' = core a /\ app_df a' = app_df a /\
  report_generated a' = report_generated a /\
  analysis_in_progress a' = analysis_in_progress a /\
  (forall w, w <> upload_progress -> widgets a' w = widgets a w) /\
  text (widgets a' upload_progress) = text (widgets a upload_progress) /\
  state (widgets a' upload_progress) = state (widgets a upload_progress) /\
  packed (widgets a' upload_progress) = packed (widgets a upload_progress) /\
  progress_value (widgets a' upload_progress)
  = match last l with
    | Some i => (float_of_nat i / 100)%float
    | None => progress_value (widgets a upload_progress)
    end.
Proof.
  revert a. induction l as [|i l IH]; intros a; [done|].
  simpl fold_left.
  destruct (IH (with_widgets a
                  (set_value upload_progress (float_of_nat i / 100)%float)))
    as (H1 & H2 & H3 & H4 & H5 & H6 & H7 & H8 & H9).
  cbv zeta. rewrite H1, H2, H3, H4, H6, H7, H8, H9.
  repeat split; try done.
  - intros w Hw. rewrite H5 by done. simpl. unfold set_value, configure.
    by rewrite decide_False.
  - rewrite last_cons. by destruct (last l).
Qed.

Lemma simulate_progress_spec a :
  core (simulate_progress a) = core a /\
  app_df (simulate_progress a) = app_df a /\
  report_generated (simulate_progress a) = report_generated a /\
  analysis_in_progress (simulate_progress a) = analysis_in_progress a /\
  (forall w, w <> upload_progress ->
             widgets (simulate_progress a) w = widgets a w) /\
  progress_value (widgets (simulate_progress a) upload_progress) = 1%float.
Proof.
  destruct (upload_progress_loop a (seq 0 101))
    as (H1 & H2 & H3 & H4 & H5 & _ & _ & _ & H9).
  repeat (split; [assumption|]).
  etrans; [exact H9|]. vm_compute. reflexivity.
Qed.

(** An upload, whether the file is read or not, leaves the analysis
    results, both flags and every widget but the progress bar as they
    were, and moves the progress bar to 1.  When the file is read, the
    path is the new one and [upload_success] is scheduled; when the
    reader raises, the path and the data are the old ones and the
    lambda of the [except] clause is scheduled. *)
Theorem process_upload_keeps_results a (file_path : string) :
  let a' := (process_upload a file_path).1 in
  app_analysis_results (core a') = app_analysis_results (core a) /\
  report_generated a' = report_generated a /\
  analysis_in_progress a' = analysis_in_progress a /\
  (forall w, w <> upload_progress -> widgets a' w = widgets a w) /\
  progress_value (widgets a' upload_progress) = 1%float /\
  match load_file file_path (app_df a) with
  | Returned d =>
      uploaded_file_path (core a') = Some file_path /\
      app_df a' = d /\
      (process_upload a file_path).2 = [After upload_success_task]
  | Raised e =>
      uploaded_file_path (core a') = uploaded_file_path (core a) /\
      app_df a' = app_df a /\
      (process_upload a file_path).2 = [After (upload_error_lambda e)]
  end.
Proof.
  unfold process_upload.
  destruct (simulate_progress_spec a) as (H1 & H2 & H3 & H4 & H5 & H9).
  generalize dependent (simulate_progress a). intros a0 H1 H2 H3 H4 H5 H9.
  cbv zeta. rewrite H2.
  destruct (load_file file_path (app_df a)) as [d|e];
    cbn [fst snd core app_df report_generated analysis_in_progress widgets
         uploaded_file_path app_analysis_results].
  - rewrite H1, H3, H4, H9.
    split; [reflexivity|]. split; [reflexivity|]. split; [reflexivity|].
    split; [exact H5|]. split; [reflexivity|].
    split; [reflexivity|]. split; reflexivity.
  - rewrite H1, H2, H3, H4, H9.
    split; [reflexivity|]. split; [reflexivity|]. split; [reflexivity|].
    split; [exact H5|]. split; [reflexivity|].
    split; [reflexivity|]. split; reflexivity.
Qed.
End ApplicationFacts.

Section ApplicationFlows.
Context {value : Type} `{!Library value} `{!Desktop value} `{!Reportlab}.
Implicit Types (a : Application value) (d : DataFrame value).

Lemma app_progress_callback_observes :
  observes_only (value := value) app_progress_callback.
Proof. intros percent message w. split; [reflexivity | intros l; reflexivity]. Qed.

(** What [process_analysis] does to data with unique column names: the
    results of the engine are stored, the data are as they were, the
    six progress reports and then [analysis_success] are scheduled. *)
Lemma process_analysis_with_data a d :
  app_df a = Some d -> unique_names d ->
  exists r,
    analyze d = Returned r /\
    process_analysis a =
    (mkApplication (mkApp (uploaded_file_path (core a)) (Some r))
                   (Some d) (report_generated a)
                   (analysis_in_progress a) (widgets a),
     map (fun pm => After (update_analysis_progress_task pm.1 pm.2)) checkpoints
     ++ [After analysis_success_task]).
Proof.
  intros Hdf Hu. unfold process_analysis. rewrite Hdf.
  destruct (perform_analysis_checkpoints app_progress_callback
              (new_analyzer d []) Hu
              (observes_only_keeps_dataset _ app_progress_callback_observes))
    as (r & Hst & Hrun).
  exists r. split; [by rewrite analyze_stages|].
  rewrite Hrun. reflexivity.
Qed.

(** From the click on "Analyse" to the end of the analysis: with data
    loaded (their column names unique) and no analysis running, the
    click starts one thread (a second click before the end starts
    none); the thread stores the results of the engine and schedules
    the six progress reports and then [analysis_success], never an
    error; once these callbacks have run, the download button is
    enabled, the analyse button reads "Re-analyze Data", the progress
    bar is at 1, the file name entry holds the default name, and the
    data are the ones analysed, unchanged. *)
Theorem analysis_run_enables_download a d (timestamp : string) :
  app_df a = Some d -> unique_names d -> analysis_in_progress a = false ->
  let a1 := (analyze_data a).1 in
  let a2 := (process_analysis a1).1 in
  let a3 := fold_left (fun a pm => update_analysis_progress a pm.1 pm.2)
                      checkpoints a2 in
  let a4 := (analysis_success a3 timestamp).1 in
  (analyze_data a).2 = [StartThread process_analysis_task] /\
  analyze_data a1 = (a1, []) /\
  (process_analysis a1).2
  = map (fun pm => After (update_analysis_progress_task pm.1 pm.2)) checkpoints
    ++ [After analysis_success_task] /\
  (exists r, analyze d = Returned r /\
             app_analysis_results (core a4) = Some r) /\
  app_df a4 = Some d /\
  uploaded_file_path (core a4) = uploaded_file_path (core a) /\
  analysis_in_progress a4 = false /\
  state (widgets a4 download_btn) = state_normal /\
  state (widgets a4 analyze_btn) = state_normal /\
  text (widgets a4 analyze_btn) = "Re-analyze Data" /\
  progress_value (widgets a4 analysis_progress) = 1%float /\
  text (widgets a4 filename_entry) = "EDA_Report_" +:+ timestamp.
Proof.
  intros Hdf Hu Hidle. cbv zeta.
  assert (analyze_data a
          = (with_widgets
               (with_widgets
                  (with_widgets
                     (with_widgets
                        (with_widgets
                           (with_widgets
                              (mkApplication (core a) (app_df a)
                                 (report_generated a) true (widgets a))
                              (pack analysis_progress))
                           (pack analysis_detail_label))
                        (set_value analysis_progress 0))
                     (set_text analysis_status_label "🔄 Analyzing data..."))
                  (set_state analyze_btn state_disabled))
               (set_text analyze_btn "Analyzing..."),
             [StartThread process_analysis_task])) as Hclick.
  { unfold analyze_data. by rewrite Hdf, Hidle. }
  rewrite Hclick. cbn [fst snd].
  set (a1 := with_widgets _ (set_text analyze_btn "Analyzing...")).
  assert (app_df a1 = Some d) as Hdf1 by exact Hdf.
  destruct (process_analysis_with_data a1 d Hdf1 Hu) as (r & Hr & Hrun).
  rewrite Hrun. cbn [fst snd].
  split; [done|].
  split; [unfold analyze_data; by rewrite Hdf1|].
  split; [done|].
  split; [by exists r|].
  split; [reflexivity|].
  do 5 (split; [reflexivity|]).
  split; [|reflexivity].
  vm_compute. reflexivity.
Qed.

(** A report is written only on a click made with results, a file name
    that is not blank and a path chosen in the dialog, and only at that
    path.  The toast and the status line "Report saved" appear exactly
    when the write returned, and then the complete document is at the
    path; in every other case the window stays as it was. *)
Theorem download_report_writes_when_ready a (save_path now : string)
        (fault : io_fault) (fs : gmap string string) :
  let a' := (download_report a save_path now fault fs).1.1 in
  let effects := (download_report a save_path now fault fs).1.2 in
  let fs' := (download_report a save_path now fault fs).2 in
  (forall other, other <> save_path -> fs' !! other = fs !! other) /\
  (fs' <> fs ->
   (exists r, app_analysis_results (core a) = Some r /\ r <> []) /\
   py_strip (text (widgets a filename_entry)) <> "" /\
   save_path <> "") /\
  ((effects = [Toast "Report saved successfully!"] /\
    fault = NoFault /\
    (exists story, build_story (core a) now = Returned story /\
                   fs' = <[save_path := pdf_data story]> fs) /\
    text (widgets a' download_status_label)
    = "✅ Report saved to: " +:+ basename save_path) \/
   ((Toast "Report saved successfully!" ∉ effects) /\ a' = a)).
Proof.
  cbv zeta. unfold download_report.
  destruct (app_analysis_results (core a)) as [[|kv r]|] eqn:Hres;
    [simpl; split; [done|]; split; [done|]; right; split; [apply not_elem_of_nil|done]
    | |simpl; split; [done|]; split; [done|]; right; split; [apply not_elem_of_nil|done]].
  destruct (decide (py_strip (text (widgets a filename_entry)) = "")) as [Hblank|Hname].
  { simpl. split; [done|]. split; [done|]. right. split; [|done].
    intros [=]%list_elem_of_singleton. }
  destruct (decide (save_path = "")) as [Hcancel|Hpath].
  { simpl. split; [done|]. split; [done|]. right. split; [apply not_elem_of_nil|done]. }
  unfold generate_pdf_report.
  destruct (build_story (core a) now) as [story|e] eqn:Hstory.
  2:{ simpl. split; [done|]. split; [done|]. right. split; [|done].
      intros [=]%list_elem_of_singleton. }
  unfold doc_build. destruct fault as [|cause|written cause]; simpl.
  - split; [intros other Hne; by rewrite lookup_insert_ne|].
    split; [intros _; split; [by eexists|done]|].
    left. split; [done|]. split; [done|]. split; [by exists story|].
    reflexivity.
  - split; [done|]. split; [done|]. right. split; [|done].
    intros [=]%list_elem_of_singleton.
  - split; [intros other Hne; by rewrite lookup_insert_ne|].
    split; [intros _; split; [by eexists|done]|].
    right. split; [|done]. intros [=]%list_elem_of_singleton.
Qed.

(** Uploading another file keeps the results of the previous analysis
    and the state of the download button: once the new file is read,
    the window names the new file and shows its shape, while a download
    would still report the old results. *)
Theorem new_upload_keeps_old_results a (file_path : string) d :
  load_file file_path (app_df a) = Returned (Some d) ->
  (process_upload a file_path).2 = [After upload_success_task] /\
  exists a' effects,
    upload_success (process_upload a file_path).1 = Returned (a', effects) /\
    effects = [Toast "File uploaded successfully!"] /\
    app_df a' = Some d /\
    uploaded_file_path (core a') = Some file_path /\
    app_analysis_results (core a') = app_analysis_results (core a) /\
    state (widgets a' download_btn) = state (widgets a download_btn) /\
    state (widgets a' analyze_btn) = state_normal /\
    text (widgets a' file_info_label)
    = "✅ " +:+ basename file_path +:+ " (" +:+ format_thousands (index_len d)
      +:+ " rows, " +:+ str_nat (length (df_columns d)) +:+ " columns)".
Proof.
  intros Hload. unfold process_upload.
  destruct (simulate_progress_spec a) as (H1 & H2 & H3 & H4 & H5 & H9).
  generalize dependent (simulate_progress a). intros a0 H1 H2 H3 H4 H5 H9.
  cbv zeta. rewrite H2, Hload. cbn [fst snd]. split; [done|].
  unfold upload_success. cbn [core app_df uploaded_file_path]. unfold df_shape.
  eexists _, _. split; [reflexivity|]. split; [done|].
  split; [done|]. split; [done|]. split; [by rewrite H1|].
  split.
  { simpl. unfold set_text, set_state, pack, pack_forget, configure. simpl.
    by rewrite H5. }
  split; reflexivity.
Qed.

(** A file whose extension is none of .csv, .xlsx, .xls and .txt, in
    any letter case, is not read: the upload keeps the data that were
    loaded and still takes the new path.  With data loaded before, the
    window then shows the new name with the shape of the old data;
    with none, [upload_success] raises and the window does not change. *)
Theorem unknown_extension_keeps_old_data a (file_path : string) :
  lower (splitext_ext file_path) ∉ [".csv"; ".xlsx"; ".xls"; ".txt"] ->
  let a1 := (process_upload a file_path).1 in
  app_df a1 = app_df a /\
  uploaded_file_path (core a1) = Some file_path /\
  (process_upload a file_path).2 = [After upload_success_task] /\
  match app_df a with
  | Some d =>
      exists a2 effects,
        upload_success a1 = Returned (a2, effects) /\
        app_df a2 = Some d /\
        text (widgets a2 file_info_label)
        = "✅ " +:+ basename file_path +:+ " (" +:+ format_thousands (index_len d)
          +:+ " rows, " +:+ str_nat (length (df_columns d)) +:+ " columns)"
  | None =>
      exists e, upload_success a1 = Raised e /\ exn_type e = "AttributeError"
  end.
Proof.
  intros Hext.
  assert (load_file file_path (app_df a) = Returned (app_df a)) as Hload.
  { unfold load_file. cbv zeta.
    rewrite !not_elem_of_cons in Hext.
    destruct Hext as (H1 & H2 & H3 & H4 & _).
    rewrite decide_False by done.
    rewrite decide_False by tauto.
    by rewrite decide_False by done. }
  unfold process_upload.
  destruct (simulate_progress_spec a) as (H1 & H2 & H3 & H4 & H5 & H9).
  generalize dependent (simulate_progress a). intros a0 H1 H2 H3 H4 H5 H9.
  cbv zeta. rewrite H2, Hload. cbn [fst snd app_df core uploaded_file_path].
  split; [done|]. split; [done|]. split; [done|].
  unfold upload_success. cbn [core app_df uploaded_file_path].
  destruct (app_df a) as [d|].
  - unfold df_shape. eexists _, _. split; [reflexivity|]. split; reflexivity.
  - eexists. split; reflexivity.
Qed.
End ApplicationFlows.


(** * The further properties at concrete inputs *)

Section FurtherInstances.
Import Sample.
Import SampleDesktop.

Lemma text_column_in_scenario_A : text_column ∈ df_columns scenario_A.
Proof. right. left. Defined.

Lemma raising_at_keeps_dataset (limit : nat) :
  keeps_dataset (value := scalar) (raising_at limit).
Proof.
  intros percent message w. unfold raising_at.
  destruct (limit <=? percent)%nat; split; reflexivity.
Defined.

Lemma progress_follows_checkpoints_raising_at_75 :
  exists r,
    (perform_analysis None (new_analyzer scenario_A (@nil (nat * string)))).1 = Returned r /\
    perform_analysis (Some (raising_at 75)) (new_analyzer scenario_A (@nil (nat * string))) =
    match report_progress (raising_at 75) checkpoints
            (new_analyzer scenario_A (@nil (nat * string))) with
    | (Returned _, w') => (Returned r, with_results r w')
    | (Raised e, w') => (Raised e, w')
    end.
Proof.
  apply (progress_follows_checkpoints (raising_at 75)
           (new_analyzer scenario_A (@nil (nat * string)))).
  - exact scenario_A_unique_names.
  - exact (raising_at_keeps_dataset 75).
Defined.

Lemma column_facts_keyed_by_columns_scenario_A :
  exists r dtypes missing_values missing_percentage,
    analyze scenario_A = Returned r /\
    dict_get "shape" r
    = Some (RShape (index_len scenario_A, length (column_names scenario_A))) /\
    dict_get "columns" r = Some (RColumns (column_names scenario_A)) /\
    dict_get "dtypes" r = Some (RDtypes dtypes) /\
    dict_get "missing_values" r = Some (RCounts missing_values) /\
    dict_get "missing_percentage" r = Some (RFloats missing_percentage) /\
    map fst dtypes = column_names scenario_A /\
    map fst missing_values = column_names scenario_A /\
    map fst missing_percentage = column_names scenario_A.
Proof.
  apply (column_facts_keyed_by_columns scenario_A).
  exact scenario_A_unique_names.
Defined.

Lemma numeric_tables_keyed_by_numeric_columns_scenario_A :
  exists r summary matrix,
    analyze scenario_A = Returned r /\
    dict_get "numeric_summary" r = Some (RTable summary) /\
    dict_get "correlation_matrix" r = Some (RTable matrix) /\
    map fst summary = select_dtypes is_number scenario_A /\
    Forall (fun kv => map fst kv.2 = describe_index) summary /\
    map fst matrix = select_dtypes is_number scenario_A /\
    Forall (fun kv => map fst kv.2 = select_dtypes is_number scenario_A) matrix.
Proof.
  apply (numeric_tables_keyed_by_numeric_columns scenario_A).
  - exact scenario_A_unique_names.
  - vm_compute. discriminate.
Defined.

Lemma categorical_summary_keyed_by_text_columns_scenario_A :
  exists r summary,
    analyze scenario_A = Returned r /\
    dict_get "categorical_summary" r = Some (RCategorical summary) /\
    map fst summary = select_dtypes is_object_or_category scenario_A /\
    map (fun kv => unique_count kv.2) summary
    = map nunique (filter (fun c => is_object_or_category (col_dtype c) = true)
                          (df_columns scenario_A)).
Proof.
  apply (categorical_summary_keyed_by_text_columns scenario_A).
  - exact scenario_A_unique_names.
  - vm_compute. discriminate.
Defined.

Lemma top_values_most_frequent_scenario_A :
  exists r summary info,
    analyze scenario_A = Returned r /\
    dict_get "categorical_summary" r = Some (RCategorical summary) /\
    dict_get (name text_column) summary = Some info /\
    descending (map snd (top_values info)) /\
    NoDup (map fst (top_values info)) /\
    (forall v n, (v, n) ∈ top_values info ->
                 n = occurrences v (dropna (cells text_column))) /\
    (forall v, Some v ∈ cells text_column ->
       (v, occurrences v (dropna (cells text_column))) ∈ top_values info \/
       (length (top_values info) = 10 /\
        Forall (fun e => occurrences v (dropna (cells text_column)) <= e.2)
               (top_values info))).
Proof.
  apply (top_values_most_frequent scenario_A text_column).
  - exact scenario_A_unique_names.
  - repeat constructor.
  - exact text_column_in_scenario_A.
  - reflexivity.
Defined.

Lemma unique_count_bounded_scenario_A :
  exists r summary info missing_values m,
    analyze scenario_A = Returned r /\
    dict_get "categorical_summary" r = Some (RCategorical summary) /\
    dict_get (name text_column) summary = Some info /\
    dict_get "missing_values" r = Some (RCounts missing_values) /\
    dict_get (name text_column) missing_values = Some m /\
    unique_count info + m <= index_len scenario_A /\
    (unique_count info = 0 <-> m = index_len scenario_A).
Proof.
  apply (unique_count_bounded scenario_A text_column).
  - exact scenario_A_rectangular.
  - exact scenario_A_unique_names.
  - exact text_column_in_scenario_A.
  - reflexivity.
Defined.

Lemma duplicate_and_distinct_rows_scenario_A :
  exists r n,
    analyze scenario_A = Returned r /\
    dict_get "duplicate_rows" r = Some (RCount n) /\
    n + length (remove_dups (rows scenario_A)) = index_len scenario_A /\
    (n = 0 <-> NoDup (rows scenario_A)) /\
    (0 < index_len scenario_A -> n < index_len scenario_A).
Proof.
  apply (@duplicate_and_distinct_rows scalar sample_library scenario_A).
  - exact scenario_A_unique_names.
  - vm_compute. discriminate.
Defined.

Lemma analysis_of_dataset_without_rows_scenario_B :
  exists r missing_values,
    analyze scenario_B = Returned r /\
    dict_get "shape" r = Some (RShape (0, length (df_columns scenario_B))) /\
    dict_get "duplicate_rows" r = Some (RCount 0) /\
    dict_get "missing_values" r = Some (RCounts missing_values) /\
    forall c, c ∈ df_columns scenario_B ->
      dict_get (name c) missing_values = Some 0 /\
      (is_number (col_dtype c) = true ->
       exists summary stats,
         dict_get "numeric_summary" r = Some (RTable summary) /\
         dict_get (name c) summary = Some stats /\
         dict_get "count" stats = Some 0%float) /\
      (is_object_or_category (col_dtype c) = true ->
       exists summary info,
         dict_get "categorical_summary" r = Some (RCategorical summary) /\
         dict_get (name c) summary = Some info /\
         unique_count info = 0 /\
         Forall (fun e => e.2 = 0) (top_values info) /\
         (col_dtype c = Object -> top_values info = [])).
Proof.
  apply (analysis_of_dataset_without_rows scenario_B).
  - repeat constructor.
  - apply scenario_names_unique. vm_compute. reflexivity.
  - reflexivity.
Defined.

Lemma row_order_irrelevant_scenario_A :
  exists r r',
    analyze scenario_A = Returned r /\
    analyze (iloc [2; 0; 1] scenario_A) = Returned r' /\
    Forall (fun k => dict_get k r' = dict_get k r)
           ["shape"; "columns"; "dtypes"; "missing_values";
            "missing_percentage"; "duplicate_rows"] /\
    dict_has "numeric_summary" r' = dict_has "numeric_summary" r /\
    dict_has "categorical_summary" r' = dict_has "categorical_summary" r /\
    (forall summary summary',
       dict_get "categorical_summary" r = Some (RCategorical summary) ->
       dict_get "categorical_summary" r' = Some (RCategorical summary') ->
       map (fun kv => (kv.1, unique_count kv.2)) summary'
       = map (fun kv => (kv.1, unique_count kv.2)) summary).
Proof.
  apply (row_order_irrelevant scenario_A [2; 0; 1]).
  - exact scenario_A_rectangular.
  - exact scenario_A_unique_names.
  - simpl. apply (Permutation_cons_append [0; 1] 2).
Defined.



Lemma report_tables_and_page_breaks_scenario_A :
  length (filter (fun b => is_table b = true) scenario_A_story)
  = 2 + (if dict_has "numeric_summary" scenario_A_results then 1 else 0)
      + match dict_get "categorical_summary" scenario_A_results with
        | Some (RCategorical summary) => printed_top_tables summary
        | _ => 0
        end /\
  length (filter (fun b => is_page_break b = true) scenario_A_story)
  = (if dict_has "numeric_summary" scenario_A_results then 1 else 0).
Proof.
  apply (report_tables_and_page_breaks scenario_A_app "2024-01-01 00:00:00"
           scenario_A_results scenario_A_story).
  - reflexivity.
  - vm_compute. reflexivity.
Defined.


Lemma report_names_source_file_scenario_A :
  exists dir file,
    "/home/user/data.csv" = dir +:+ file /\
    ("/"%char ∉ list_ascii_of_string file) /\
    (dir = "" \/ exists d, dir = d +:+ "/") /\
    scenario_A_story !! 3 = Some (Paragraph ("Source file: " +:+ file) Normal) /\
    scenario_A_story !! 4 = Some (Spacer 1 20).
Proof.
  apply (report_names_source_file scenario_A_app "2024-01-01 00:00:00"
           scenario_A_results scenario_A_story).
  - reflexivity.
  - vm_compute. reflexivity.
Defined.

Lemma analysis_run_enables_download_loaded_app :
  let a1 := (analyze_data loaded_app).1 in
  let a2 := (process_analysis a1).1 in
  let a3 := fold_left (fun a pm => update_analysis_progress a pm.1 pm.2)
                      checkpoints a2 in
  let a4 := (analysis_success a3 "20240101_000000").1 in
  (analyze_data loaded_app).2 = [StartThread process_analysis_task] /\
  analyze_data a1 = (a1, []) /\
  (process_analysis a1).2
  = map (fun pm => After (update_analysis_progress_task pm.1 pm.2)) checkpoints
    ++ [After analysis_success_task] /\
  (exists r, analyze scenario_A = Returned r /\
             app_analysis_results (core a4) = Some r) /\
  app_df a4 = Some scenario_A /\
  uploaded_file_path (core a4) = uploaded_file_path (core loaded_app) /\
  analysis_in_progress a4 = false /\
  state (widgets a4 download_btn) = state_normal /\
  state (widgets a4 analyze_btn) = state_normal /\
  text (widgets a4 analyze_btn) = "Re-analyze Data" /\
  progress_value (widgets a4 analysis_progress) = 1%float /\
  text (widgets a4 filename_entry) = "EDA_Report_" +:+ "20240101_000000".
Proof.
  apply (analysis_run_enables_download loaded_app scenario_A "20240101_000000").
  - reflexivity.
  - exact scenario_A_unique_names.
  - reflexivity.
Defined.

Lemma new_upload_keeps_old_results_analysed_app :
  (process_upload analysed_app "/home/user/new.xlsx").2
  = [After upload_success_task] /\
  exists a' effects,
    upload_success (process_upload analysed_app "/home/user/new.xlsx").1
    = Returned (a', effects) /\
    effects = [Toast "File uploaded successfully!"] /\
    app_df a' = Some scenario_C /\
    uploaded_file_path (core a') = Some "/home/user/new.xlsx" /\
    app_analysis_results (core a') = app_analysis_results (core analysed_app) /\
    state (widgets a' download_btn) = state (widgets analysed_app download_btn) /\
    state (widgets a' analyze_btn) = state_normal /\
    text (widgets a' file_info_label)
    = "✅ " +:+ basename "/home/user/new.xlsx" +:+ " ("
      +:+ format_thousands (index_len scenario_C)
      +:+ " rows, " +:+ str_nat (length (df_columns scenario_C)) +:+ " columns)".
Proof.
  apply (new_upload_keeps_old_results analysed_app "/home/user/new.xlsx"
           scenario_C).
  vm_compute. reflexivity.
Defined.

Lemma unknown_extension_keeps_old_data_analysed_app :
  let a1 := (process_upload analysed_app "/home/user/notes.md").1 in
  app_df a1 = app_df analysed_app /\
  uploaded_file_path (core a1) = Some "/home/user/notes.md" /\
  (process_upload analysed_app "/home/user/notes.md").2
  = [After upload_success_task] /\
  exists a2 effects,
    upload_success a1 = Returned (a2, effects) /\
    app_df a2 = Some scenario_A /\
    text (widgets a2 file_info_label)
    = "✅ " +:+ basename "/home/user/notes.md" +:+ " ("
      +:+ format_thousands (index_len scenario_A)
      +:+ " rows, " +:+ str_nat (length (df_columns scenario_A)) +:+ " columns)".
Proof.
  apply (unknown_extension_keeps_old_data analysed_app "/home/user/notes.md").
  apply (bool_decide_unpack _). vm_compute. exact I.
Defined.
End FurtherInstances.
